(** * icelbc: the interaction-tracking core of [App.js]

    A shallow embedding of [trackEvent] and of the custom hook
    [useInteractionTracking], together with the part of React's and the
    browser's behaviour the hook relies on (persistent [useRef] cells, effect
    re-runs on dependency change, listener registration on one DOM node).

    Numbers: [Date.now()] is an integer number of milliseconds ([Z]), and
    the quotient of an integer by 1000 compares with 5 as the exact rational
    does.  The scroll metrics are JavaScript numbers given by their values
    (a finite double is a rational); the scroll percentage is computed in
    IEEE 754 binary64, with the rounding of each operation, and compared as
    numbers are. *)

From Stdlib Require Import ZArith QArith List String Ascii Bool Lia.
From Stdlib Require Import SpecFloat.
Import ListNotations.

Local Open Scope string_scope.
Local Open Scope Z_scope.

(* ================================================================== *)
(** ** JavaScript values used by the tracker *)

Module Js.

(** An [Error] object as the [catch] clause receives it. *)
Record Error := mkError { name : string; message : string }.

(** [v || d] on a value that is a string or [undefined]: [undefined] and the
    empty string are falsy, every other string is truthy. *)
Definition or (v : option string) (d : string) : string :=
  match v with
  | Some s => if (s =? "")%string then d else s
  | None => d
  end.

(** [o?.f]: [undefined] when [o] is [null], the field otherwise. *)
Definition chain {O : Type} (o : option O) (f : O -> option string)
  : option string :=
  match o with
  | Some x => f x
  | None => None
  end.

End Js.

(* ================================================================== *)
(** ** JavaScript numbers

    A number is an IEEE 754 binary64 value.  The arithmetic is the one the
    Standard Library specifies in [SpecFloat] for [prec = 53] and
    [emax = 1024]: every operation rounds to nearest, ties to even. *)

Module Number.

Definition prec : Z := 53.
Definition emax : Z := 1024.

Definition t : Type := spec_float.

(** The number an integer rounds to. *)
Definition of_Z (z : Z) : t := binary_normalize prec emax z 0 false.

(** The number of a value: the double nearest to the rational.  A double
    reads as itself, and a decimal numeral such as [16.8] as the source text
    [16.8] does.  (Numerator and denominator are rounded first, which is
    exact below [2^53].) *)
Definition read (q : Q) : t :=
  SFdiv prec emax (of_Z (Qnum q)) (of_Z (Zpos (Qden q))).

Definition sub (a b : t) : t := SFsub prec emax a b.
Definition div (a b : t) : t := SFdiv prec emax a b.
Definition mul (a b : t) : t := SFmul prec emax a b.

(** The value of a number.  [Infinity] counts as [2^1024], which is beyond
    every double, and [NaN] as [0]: a test [x > c] of the source against a
    positive constant answers on them as JavaScript does ([Infinity > c] is
    true, [-Infinity > c] and [NaN > c] are false). *)
Definition value (x : t) : Q :=
  match x with
  | S754_zero _ => 0
  | S754_nan => 0
  | S754_infinity s =>
      if s then Qopp (inject_Z (2 ^ 1024)) else inject_Z (2 ^ 1024)
  | S754_finite s m e =>
      let v := if 0 <=? e then inject_Z (Zpos m * 2 ^ e)
               else Qmake (Zpos m) (Z.to_pos (2 ^ (- e))) in
      if s then Qopp v else v
  end.

End Number.

Arguments Number.read : simpl never.
Arguments Number.sub : simpl never.
Arguments Number.div : simpl never.
Arguments Number.mul : simpl never.
Arguments Number.value : simpl never.

(* ================================================================== *)
(** ** [Date.prototype.toISOString]

    The built-in the payload uses to render [new Date()]: the proleptic
    Gregorian calendar in UTC, [YYYY-MM-DDTHH:mm:ss.sssZ], with the expanded
    signed six-digit year outside 0..9999. *)

Module JsDate.

Definition msPerDay : Z := 86400000.

Definition digit (z : Z) : ascii := ascii_of_nat (48 + Z.to_nat (z mod 10)).

(** [z] in decimal on exactly [k] digits (the low ones), zero padded. *)
Fixpoint pad (k : nat) (z : Z) : string :=
  match k with
  | O => ""
  | S k' => pad k' (z / 10) ++ String (digit z) ""
  end.

(** Year, month and day of the day numbered [days] from 1970-01-01. *)
Definition civil (days : Z) : Z * Z * Z :=
  let z := days + 719468 in
  let era := z / 146097 in
  let doe := z - era * 146097 in
  let yoe := (doe - doe / 1460 + doe / 36524 - doe / 146096) / 365 in
  let doy := doe - (365 * yoe + yoe / 4 - yoe / 100) in
  let mp := (5 * doy + 2) / 153 in
  let d := doy - (153 * mp + 2) / 5 + 1 in
  let m := if mp <? 10 then mp + 3 else mp - 9 in
  let y := yoe + era * 400 + (if m <=? 2 then 1 else 0) in
  (y, m, d).

Definition year_string (y : Z) : string :=
  if (0 <=? y) && (y <=? 9999) then pad 4 y
  else (if y <? 0 then "-" else "+") ++ pad 6 (Z.abs y).

Definition toISOString (t : Z) : string :=
  let '(y, m, d) := civil (t / msPerDay) in
  let ms := t mod msPerDay in
  year_string y ++ "-" ++ pad 2 m ++ "-" ++ pad 2 d ++ "T"
    ++ pad 2 (ms / 3600000) ++ ":" ++ pad 2 (ms / 60000 mod 60) ++ ":"
    ++ pad 2 (ms / 1000 mod 60) ++ "." ++ pad 3 (ms mod 1000) ++ "Z".

End JsDate.

(* ================================================================== *)
(** ** ISO 8601

    What the specification asks of [eventTimestamp]: a date and a time of
    day in UTC, in the format [YYYY-MM-DDTHH:mm:ss.sssZ] of ISO 8601 (with
    the expanded years [+YYYYYY] and [-YYYYYY] of ECMAScript).  The calendar
    and the reading of a text are written from the standard, next to the
    writer [JsDate.toISOString] and not from it. *)

Module Iso8601.

Definition leap (y : Z) : bool :=
  (y mod 4 =? 0) && (negb (y mod 100 =? 0) || (y mod 400 =? 0)).

Definition daysInMonth (y m : Z) : Z :=
  if m =? 2 then (if leap y then 29 else 28)
  else if (m =? 4) || (m =? 6) || (m =? 9) || (m =? 11) then 30 else 31.

(** The days from 1970-01-01 to the first of January of the year [y]. *)
Definition daysBeforeYear (y : Z) : Z :=
  365 * (y - 1970) + (y - 1969) / 4 - (y - 1901) / 100 + (y - 1601) / 400.

(** The days of the year [y] before its month [m]. *)
Definition daysBeforeMonth (y m : Z) : Z :=
  nth (Z.to_nat (m - 1))
    [0; 31; 59; 90; 120; 151; 181; 212; 243; 273; 304; 334] 0
  + (if leap y && (2 <? m) then 1 else 0).

Definition dayNumber (y m d : Z) : Z :=
  daysBeforeYear y + daysBeforeMonth y m + (d - 1).

(** The instant of a date and a time of day in UTC, in milliseconds since
    1970-01-01T00:00:00.000Z. *)
Definition instant (y m d hour minute second milli : Z) : Z :=
  dayNumber y m d * 86400000
  + hour * 3600000 + minute * 60000 + second * 1000 + milli.

Definition digit_value (c : ascii) : option Z :=
  let n := nat_of_ascii c in
  if (Nat.leb 48 n && Nat.leb n 57)%bool then Some (Z.of_nat (n - 48))
  else None.

(** [k] decimal digits, most significant first. *)
Fixpoint digits (k : nat) (acc : Z) (s : string) : option (Z * string) :=
  match k with
  | O => Some (acc, s)
  | S k' =>
      match s with
      | String c rest =>
          match digit_value c with
          | Some v => digits k' (10 * acc + v) rest
          | None => None
          end
      | EmptyString => None
      end
  end.

Definition literal (c : ascii) (s : string) : option string :=
  match s with
  | String c' rest => if Ascii.eqb c c' then Some rest else None
  | EmptyString => None
  end.

(** Four digits, or a sign and six digits; [-000000] is not a year. *)
Definition year (s : string) : option (Z * string) :=
  match literal "+" s, literal "-" s with
  | Some rest, _ => digits 6 0 rest
  | None, Some rest =>
      match digits 6 0 rest with
      | Some (y, r) => if y =? 0 then None else Some (- y, r)
      | None => None
      end
  | None, None => digits 4 0 s
  end.

Definition then_ {A B} (x : option A) (f : A -> option B) : option B :=
  match x with
  | Some a => f a
  | None => None
  end.

(** The instant a text [YYYY-MM-DDTHH:mm:ss.sssZ] (or with the expanded year
    [+YYYYYY], [-YYYYYY]) denotes; [None] when the text has another shape or
    names no date or no time of day. *)
Definition parse (s : string) : option Z :=
  then_ (year s) (fun '(y, s) =>
  then_ (literal "-" s) (fun s =>
  then_ (digits 2 0 s) (fun '(m, s) =>
  then_ (literal "-" s) (fun s =>
  then_ (digits 2 0 s) (fun '(d, s) =>
  then_ (literal "T" s) (fun s =>
  then_ (digits 2 0 s) (fun '(hour, s) =>
  then_ (literal ":" s) (fun s =>
  then_ (digits 2 0 s) (fun '(minute, s) =>
  then_ (literal ":" s) (fun s =>
  then_ (digits 2 0 s) (fun '(second, s) =>
  then_ (literal "." s) (fun s =>
  then_ (digits 3 0 s) (fun '(milli, s) =>
  if (s =? "Z")%string
     && (1 <=? m) && (m <=? 12) && (1 <=? d) && (d <=? daysInMonth y m)
     && (hour <=? 23) && (minute <=? 59) && (second <=? 59)
  then Some (instant y m d hour minute second milli)
  else None))))))))))))).

End Iso8601.

(* ================================================================== *)
(** ** Data model *)

(** The LINE profile object.  [identity] stands for the object itself (what
    [Object.is] compares when React checks the effect's dependencies); a field
    the object does not carry is [None]. *)
Record LineProfile := {
  identity : nat;
  displayName : option string;
  pictureUrl : option string;
  userId : option string
}.

(** The object literal [eventData] of [trackEvent]. *)
Record EventData := {
  eventName : string;
  eventTimestamp : string;
  prop1 : string;
  prop2 : string;
  prop3 : string
}.

(** The text [JSON.stringify] returns, kept as the value it renders. *)
Inductive JsonText := JSON_stringify (d : EventData).

(** The arguments of one [fetch] call. *)
Record Request := {
  url : string;
  method : string;
  headers : list (string * string);
  body : JsonText
}.

(** How an awaited [fetch] settles: resolved with a response of some HTTP
    status (any status, [fetch] resolves on 4xx and 5xx too) or rejected. *)
Inductive FetchOutcome :=
| Resolved (status : Z)
| Rejected (e : Js.Error).

(** Scroll metrics of a DOM element, as [handleScroll] destructures them:
    three numbers, each given by its value. *)
Record Metrics := {
  scrollTop : Q;
  scrollHeight : Q;
  clientHeight : Q
}.

(** The one DOM node a screen binds the returned handle to (the [Card]'s
    [div]).  A reference to it carries no data: the node's mutable properties
    live in the state below. *)
Inductive NodeRef := cardNode.

(** The closure [handleScroll] of one run of the effect: a function object of
    its own ([handlerId]) over the [screenName] and [lineProfile] of the render
    that ran the effect. *)
Record Handler := {
  handlerId : nat;
  h_screenName : string;
  h_lineProfile : option LineProfile
}.

(** The closure the effect returns: it closes over [currentRef], over
    [handleScroll] and, through it, over the props of its render. *)
Record Cleanup := {
  currentRef : option NodeRef;
  handler : Handler
}.

(** What the outside world observes, in order. *)
Inductive Effect :=
| ConsoleLog (d : EventData)         (* console.log('Tracking Event:', d) *)
| Fetch (r : Request)                (* fetch(url, init) was called *)
| ConsoleError (e : Js.Error)        (* console.error('Failed to track event:', e) *)
| UnhandledRejection (e : Js.Error)  (* a promise nobody awaits was rejected *)
| AddEventListener (id : nat)        (* node.addEventListener('scroll', h) *)
| RemoveEventListener (id : nat).    (* node.removeEventListener('scroll', h) *)

(** The [useRef] cells of one instance of the hook. *)
Record Refs := {
  viewStartTime : Z;
  hasTrackedViewDuration : bool;
  hasTrackedScroll : bool;
  mainRef : option NodeRef
}.

(** The host: clock, the scrollable node, and the behaviour of the two
    built-ins that can fail ([stringifyThrows] tells whether [JSON.stringify]
    throws on a record, [network] scripts how the coming [fetch] calls settle;
    past the script they resolve with status 200). *)
Record Host := {
  clock : Z;
  metrics : Metrics;
  listeners : list Handler;
  allocated : nat;
  stringifyThrows : EventData -> option Js.Error;
  network : list FetchOutcome;
  trace : list Effect
}.

Record State := {
  refs : Refs;
  host : Host
}.

(** *** Field updates *)

Definition with_refs (f : Refs -> Refs) (s : State) : State :=
  {| refs := f (refs s); host := host s |}.

Definition with_host (f : Host -> Host) (s : State) : State :=
  {| refs := refs s; host := f (host s) |}.

Definition set_hasTrackedScroll (b : bool) (r : Refs) : Refs :=
  {| viewStartTime := viewStartTime r;
     hasTrackedViewDuration := hasTrackedViewDuration r;
     hasTrackedScroll := b;
     mainRef := mainRef r |}.

Definition set_hasTrackedViewDuration (b : bool) (r : Refs) : Refs :=
  {| viewStartTime := viewStartTime r;
     hasTrackedViewDuration := b;
     hasTrackedScroll := hasTrackedScroll r;
     mainRef := mainRef r |}.

Definition set_mainRef (n : option NodeRef) (r : Refs) : Refs :=
  {| viewStartTime := viewStartTime r;
     hasTrackedViewDuration := hasTrackedViewDuration r;
     hasTrackedScroll := hasTrackedScroll r;
     mainRef := n |}.

Definition set_clock (t : Z) (h : Host) : Host :=
  {| clock := t; metrics := metrics h; listeners := listeners h;
     allocated := allocated h; stringifyThrows := stringifyThrows h;
     network := network h; trace := trace h |}.

Definition set_metrics (m : Metrics) (h : Host) : Host :=
  {| clock := clock h; metrics := m; listeners := listeners h;
     allocated := allocated h; stringifyThrows := stringifyThrows h;
     network := network h; trace := trace h |}.

Definition set_listeners (l : list Handler) (h : Host) : Host :=
  {| clock := clock h; metrics := metrics h; listeners := l;
     allocated := allocated h; stringifyThrows := stringifyThrows h;
     network := network h; trace := trace h |}.

Definition set_allocated (n : nat) (h : Host) : Host :=
  {| clock := clock h; metrics := metrics h; listeners := listeners h;
     allocated := n; stringifyThrows := stringifyThrows h;
     network := network h; trace := trace h |}.

Definition set_network (l : list FetchOutcome) (h : Host) : Host :=
  {| clock := clock h; metrics := metrics h; listeners := listeners h;
     allocated := allocated h; stringifyThrows := stringifyThrows h;
     network := l; trace := trace h |}.

Definition emit (e : Effect) (h : Host) : Host :=
  {| clock := clock h; metrics := metrics h; listeners := listeners h;
     allocated := allocated h; stringifyThrows := stringifyThrows h;
     network := network h; trace := (trace h ++ [e])%list |}.

(* ================================================================== *)
(** ** Computations: state passing with JavaScript exceptions *)

Inductive Completion (A : Type) :=
| Normal (a : A)
| Throw (e : Js.Error).
Arguments Normal {A} a.
Arguments Throw {A} e.

Definition M (A : Type) : Type := State -> Completion A * State.

Definition ret {A} (a : A) : M A := fun s => (Normal a, s).

Definition bind {A B} (m : M A) (k : A -> M B) : M B :=
  fun s =>
    match m s with
    | (Normal a, s') => k a s'
    | (Throw e, s') => (Throw e, s')
    end.

Definition throw {A} (e : Js.Error) : M A := fun s => (Throw e, s).

(** [try { m } catch (error) { k error }] *)
Definition try_catch {A} (m : M A) (k : Js.Error -> M A) : M A :=
  fun s =>
    match m s with
    | (Normal a, s') => (Normal a, s')
    | (Throw e, s') => k e s'
    end.

(** Calling an [async] function without awaiting it: the caller goes on
    whatever the promise settles to, and a rejection nobody handles is
    reported by the host.  The body is run to its end at the call: what in the
    browser happens when the request settles, later and in no fixed order
    with respect to other calls, is placed right after the request.  This
    concerns the [console.error] of a request that failed only: in the trace
    it comes before the next step of the caller, in the browser after it.
    The properties of the hook are stated on [actions], [records] and
    [emitted], which leave the errors out. *)
Definition detached (m : M unit) : M unit :=
  fun s =>
    match m s with
    | (Normal _, s') => (Normal tt, s')
    | (Throw e, s') => (Normal tt, with_host (emit (UnhandledRejection e)) s')
    end.

Definition get : M State := fun s => (Normal s, s).
Definition modify (f : State -> State) : M unit := fun s => (Normal tt, f s).
Definition when (b : bool) (m : M unit) : M unit := if b then m else ret tt.

Declare Scope js_scope.
Delimit Scope js_scope with js.
Notation "x <- m ;; k" := (bind m (fun x => k))
  (at level 61, m at next level, right associativity) : js_scope.
Notation "m ;; k" := (bind m (fun _ => k))
  (at level 61, right associativity) : js_scope.
Local Open Scope js_scope.

(** *** Host primitives *)

Definition Date_now : M Z := fun s => (Normal (clock (host s)), s).

(** [new Date()]: the [Date] object of the current time.  A [Date] is given
    by its time value, [None] for an invalid date. *)
Definition new_Date : M (option Z) :=
  fun s => (Normal (Some (clock (host s))), s).

(** [date.toISOString()]: a [RangeError] on an invalid date. *)
Definition Date_toISOString (date : option Z) : M string :=
  match date with
  | Some t => ret (JsDate.toISOString t)
  | None => throw (Js.mkError "RangeError" "Invalid time value")
  end.

Definition console_log (d : EventData) : M unit :=
  modify (with_host (emit (ConsoleLog d))).

Definition console_error (e : Js.Error) : M unit :=
  modify (with_host (emit (ConsoleError e))).

Definition stringify (d : EventData) : M JsonText :=
  fun s =>
    match stringifyThrows (host s) d with
    | Some e => (Throw e, s)
    | None => (Normal (JSON_stringify d), s)
    end.

(** [await fetch(url, init)]: the request leaves, then the next outcome of the
    script decides between a response and an exception at the [await]. *)
Definition await_fetch (r : Request) : M Z :=
  fun s =>
    let s1 := with_host (emit (Fetch r)) s in
    match network (host s1) with
    | [] => (Normal 200, s1)
    | Resolved status :: rest => (Normal status, with_host (set_network rest) s1)
    | Rejected e :: rest => (Throw e, with_host (set_network rest) s1)
    end.

(* ================================================================== *)
(** ** [trackEvent] *)

(** The object literal of lines 16-22, given the text of its timestamp. *)
Definition payload (eventName : string) (lineProfile : option LineProfile)
    (eventTimestamp : string) : EventData :=
  {| eventName := eventName;
     eventTimestamp := eventTimestamp;
     prop1 := Js.or (Js.chain lineProfile displayName) "Unknown";
     prop2 := Js.or (Js.chain lineProfile pictureUrl) "N/A";
     prop3 := Js.or (Js.chain lineProfile userId) "Unknown" |}.

(** The record built at wall-clock time [now]. *)
Definition eventData (eventName : string) (lineProfile : option LineProfile)
    (now : Z) : EventData :=
  payload eventName lineProfile (JsDate.toISOString now).

(** Lines 16-22 as they are evaluated: [new Date()], its [toISOString()],
    then the literal. *)
Definition build (eventName : string) (lineProfile : option LineProfile)
    : M EventData :=
  date <- new_Date ;;
  eventTimestamp <- Date_toISOString date ;;
  ret (payload eventName lineProfile eventTimestamp).

Definition trackEvent (eventName : string) (lineProfile : option LineProfile)
    : M unit :=
  eventData <- build eventName lineProfile ;;
  console_log eventData ;;
  try_catch
    (body <- stringify eventData ;;
     _ <- await_fetch {| url := "https://icecdp.onrender.com/events";
                         method := "POST";
                         headers := [("Content-Type", "application/json")];
                         body := body |} ;;
     ret tt)
    (fun error => console_error error).

(* ================================================================== *)
(** ** [useInteractionTracking] *)

(** The four [useRef] calls of the first render, at [Date.now() = now]. *)
Definition useRefs (now : Z) : Refs :=
  {| viewStartTime := now;
     hasTrackedViewDuration := false;
     hasTrackedScroll := false;
     mainRef := None |}.

(** [a > b] on numbers. *)
Definition gt (a b : Q) : bool := negb (Qle_bool a b).

(** [(scrollTop / (scrollHeight - clientHeight)) * 100], each operation in
    the arithmetic of numbers. *)
Definition scrollPercent (m : Metrics) : Q :=
  Number.value
    (Number.mul
       (Number.div (Number.read (scrollTop m))
          (Number.sub (Number.read (scrollHeight m))
             (Number.read (clientHeight m))))
       (Number.read 100)).

Arguments scrollPercent : simpl never.

(** [(now - viewStartTime.current) / 1000] *)
Definition duration (now start : Z) : Q := (inject_Z (now - start) / 1000)%Q.

Definition view_name (screenName : string) : string :=
  "view_" ++ screenName.
Definition scroll_name (screenName : string) : string :=
  "scroll_depth_over_70%_on_" ++ screenName.
Definition duration_name (screenName : string) : string :=
  "view_duration_over_5s_on_" ++ screenName.

(** [handleScroll], the listener created by one run of the effect. *)
Definition handleScroll (h : Handler) : M unit :=
  s <- get ;;
  match mainRef (refs s) with
  | Some cardNode =>
      if negb (hasTrackedScroll (refs s)) then
        let m := metrics (host s) in
        if Qle_bool (scrollHeight m) (clientHeight m) then ret tt
        else if gt (scrollPercent m) 70 then
          detached (trackEvent (scroll_name (h_screenName h)) (h_lineProfile h)) ;;
          modify (with_refs (set_hasTrackedScroll true))
        else ret tt
      else ret tt
  | None => ret tt
  end.

Definition same_function (a b : Handler) : bool :=
  Nat.eqb (handlerId a) (handlerId b).

(** [node.addEventListener('scroll', h)]: a listener already registered is
    not registered twice. *)
Definition addEventListener (h : Handler) : M unit :=
  modify (with_host (fun hst =>
    emit (AddEventListener (handlerId h))
      (set_listeners
         (if existsb (same_function h) (listeners hst) then listeners hst
          else (listeners hst ++ [h])%list) hst))).

(** [node.removeEventListener('scroll', h)] *)
Definition removeEventListener (h : Handler) : M unit :=
  modify (with_host (fun hst =>
    emit (RemoveEventListener (handlerId h))
      (set_listeners
         (filter (fun x => negb (same_function h x)) (listeners hst)) hst))).

(** Evaluating the arrow function [handleScroll] makes a new function object. *)
Definition new_handler (screenName : string) (lineProfile : option LineProfile)
    : M Handler :=
  fun s =>
    let id := allocated (host s) in
    (Normal {| handlerId := id; h_screenName := screenName;
               h_lineProfile := lineProfile |},
     with_host (set_allocated (S id)) s).

(** The body of the effect (lines 47-81); its result is the cleanup closure. *)
Definition effect (screenName : string) (lineProfile : option LineProfile)
    : M Cleanup :=
  match lineProfile with
  | Some _ => detached (trackEvent (view_name screenName) lineProfile)
  | None => ret tt
  end ;;
  handleScroll <- new_handler screenName lineProfile ;;
  s <- get ;;
  let currentRef := mainRef (refs s) in
  match currentRef with
  | Some cardNode => addEventListener handleScroll
  | None => ret tt
  end ;;
  ret {| currentRef := currentRef; handler := handleScroll |}.

(** The function the effect returns (lines 70-81). *)
Definition cleanup (k : Cleanup) : M unit :=
  match currentRef k with
  | Some cardNode => removeEventListener (handler k)
  | None => ret tt
  end ;;
  s <- get ;;
  if negb (hasTrackedViewDuration (refs s)) then
    now <- Date_now ;;
    let duration := duration now (viewStartTime (refs s)) in
    when (gt duration 5)
      (detached (trackEvent (duration_name (h_screenName (handler k)))
                   (h_lineProfile (handler k)))) ;;
    modify (with_refs (set_hasTrackedViewDuration true))
  else ret tt.

(** The arguments a screen passes to the hook on a render. *)
Record Props := {
  screenName : string;
  lineProfile : option LineProfile
}.

(** What one call of the hook leaves with React: its cells, the effect it
    registered (React runs it after the commit) and the dependency array
    [[screenName, lineProfile]].  The value the hook returns is the cell
    [mainRef] itself. *)
Record Hook := {
  cells : Refs;
  registered : M Cleanup;
  dependencies : Props
}.

(** The hook called during a render at [Date.now() = now]; [previous] is
    [None] on the first render of the instance and holds its cells on the later
    ones, where [useRef] ignores its argument. *)
Definition useInteractionTracking (screenName : string)
    (lineProfile : option LineProfile) (previous : option Refs) (now : Z)
    : Hook :=
  {| cells := match previous with
              | Some r => r
              | None => useRefs now
              end;
     registered := effect screenName lineProfile;
     dependencies := {| screenName := screenName;
                        lineProfile := lineProfile |} |}.

(* ================================================================== *)
(** ** The life of one screen instance under React *)

(** What React keeps of the last run of the effect: the dependency array
    [[screenName, lineProfile]] and the cleanup to call before the next run. *)
Record Fiber := {
  deps : Props;
  destroy : Cleanup
}.

(** [Object.is] on two values of [lineProfile]. *)
Definition same_object (a b : option LineProfile) : bool :=
  match a, b with
  | None, None => true
  | Some x, Some y => Nat.eqb (identity x) (identity y)
  | _, _ => false
  end.

Definition same_deps (a b : Props) : bool :=
  (screenName a =? screenName b)%string
  && same_object (lineProfile a) (lineProfile b).

(** The node React creates for the screen, and the world it lives in. *)
Definition fresh_host (t : Z) (m : Metrics)
    (throws : EventData -> option Js.Error) (net : list FetchOutcome) : Host :=
  {| clock := t; metrics := m; listeners := []; allocated := O;
     stringifyThrows := throws; network := net; trace := [] |}.

(** Mount at time [t]: first render (the hook creates its cells), commit
    (React creates the node, which has no listener yet, and stores it in
    [mainRef] when the screen bound the handle, which [bound] tells), then the
    registered effect runs. *)
Definition mount (t : Z) (p : Props) (bound : bool) (h : Host)
    : Completion Fiber * State :=
  let hook := useInteractionTracking (screenName p) (lineProfile p) None t in
  let rendered := {| refs := cells hook;
                     host := set_listeners [] (set_clock t h) |} in
  let committed :=
    with_refs (set_mainRef (if bound then Some cardNode else None)) rendered in
  (k <- registered hook ;;
   ret {| deps := dependencies hook; destroy := k |}) committed.

(** A later render at time [t] with props [p]: the hook finds its cells; when
    a dependency changed the previous cleanup runs, then the new effect. *)
Definition rerender (t : Z) (p : Props) (f : Fiber) : M Fiber :=
  s <- get ;;
  let hook :=
    useInteractionTracking (screenName p) (lineProfile p) (Some (refs s)) t in
  modify (fun s => {| refs := cells hook; host := set_clock t (host s) |}) ;;
  if same_deps (deps f) (dependencies hook) then ret f
  else
    cleanup (destroy f) ;;
    k <- registered hook ;;
    ret {| deps := dependencies hook; destroy := k |}.

(** The browser calls the listeners of the node in registration order. *)
Fixpoint dispatch (hs : list Handler) : M unit :=
  match hs with
  | [] => ret tt
  | h :: rest => handleScroll h ;; dispatch rest
  end.

(** A scroll notification at time [t]: the node has metrics [m]. *)
Definition scroll (t : Z) (m : Metrics) : M unit :=
  modify (with_host (fun h => set_metrics m (set_clock t h))) ;;
  s <- get ;;
  dispatch (listeners (host s)).

(** Unmount at time [t]: React clears [mainRef], then calls the cleanup. *)
Definition unmount (t : Z) (f : Fiber) : M unit :=
  modify (with_host (set_clock t)) ;;
  modify (with_refs (set_mainRef None)) ;;
  cleanup (destroy f).

Inductive Event :=
| Render (t : Z) (p : Props)
| Scroll (t : Z) (m : Metrics).

Definition step (e : Event) (f : Fiber) : M Fiber :=
  match e with
  | Render t p => rerender t p f
  | Scroll t m => scroll t m ;; ret f
  end.

Fixpoint run (evs : list Event) (f : Fiber) : M Fiber :=
  match evs with
  | [] => ret f
  | e :: rest => f' <- step e f ;; run rest f'
  end.

(** *** Observations on a trace *)

(** What the tracker itself did, without the detail of each delivery: the
    records it handed to [trackEvent], its listener registrations, and the
    rejections it left unhandled. *)
Inductive Action :=
| Sent (d : EventData)
| Attached (id : nat)
| Detached (id : nat)
| Unhandled (e : Js.Error).

Definition actions (tr : list Effect) : list Action :=
  flat_map (fun e =>
    match e with
    | ConsoleLog d => [Sent d]
    | AddEventListener id => [Attached id]
    | RemoveEventListener id => [Detached id]
    | UnhandledRejection e => [Unhandled e]
    | Fetch _ | ConsoleError _ => []
    end) tr.

(** The records handed to [trackEvent], in order, and their names. *)
Definition records (tr : list Effect) : list EventData :=
  flat_map (fun a => match a with Sent d => [d] | _ => [] end) (actions tr).

Definition emitted (tr : list Effect) : list string :=
  map eventName (records tr).

(** *** Closed forms of the three procedures, used to reason about them *)

Definition request (d : EventData) : Request :=
  {| url := "https://icecdp.onrender.com/events";
     method := "POST";
     headers := [("Content-Type", "application/json")];
     body := JSON_stringify d |}.

(** What follows the [console.log] of a record in the trace of [trackEvent],
    according to the host. *)
Definition settle (d : EventData) (h : Host) : list Effect :=
  match stringifyThrows h d with
  | Some e => [ConsoleError e]
  | None =>
      Fetch (request d)
        :: match network h with
           | Rejected e :: _ => [ConsoleError e]
           | _ => []
           end
  end.

Definition tracked (name : string) (p : option LineProfile) (s : State) : State :=
  snd (trackEvent name p s).

(** The guard of [handleScroll]: all the conditions under which it reports. *)
Definition fires (s : State) : bool :=
  match mainRef (refs s) with
  | Some _ =>
      negb (hasTrackedScroll (refs s))
      && negb (Qle_bool (scrollHeight (metrics (host s)))
                        (clientHeight (metrics (host s))))
      && gt (scrollPercent (metrics (host s))) 70
  | None => false
  end.

Definition scrolled (h : Handler) (s : State) : State :=
  if fires s
  then with_refs (set_hasTrackedScroll true)
         (tracked (scroll_name (h_screenName h)) (h_lineProfile h) s)
  else s.

Definition detach (k : Cleanup) (s : State) : State :=
  match currentRef k with
  | Some _ => snd (removeEventListener (handler k) s)
  | None => s
  end.

Definition torn (k : Cleanup) (s : State) : State :=
  let s1 := detach k s in
  if hasTrackedViewDuration (refs s1) then s1
  else
    with_refs (set_hasTrackedViewDuration true)
      (if gt (duration (clock (host s1)) (viewStartTime (refs s1))) 5
       then tracked (duration_name (h_screenName (handler k)))
              (h_lineProfile (handler k)) s1
       else s1).

(** *** Further notions used in the statements and their proofs *)

(** Whether the cleanup evaluated at state [s] reports the duration. *)
Definition reports (s : State) : bool :=
  negb (hasTrackedViewDuration (refs s))
  && gt (duration (clock (host s)) (viewStartTime (refs s))) 5.

Definition new_function (S : string) (P : option LineProfile) (s : State)
    : Handler :=
  {| handlerId := allocated (host s); h_screenName := S; h_lineProfile := P |}.

Definition effected (S : string) (P : option LineProfile) (s : State) : State :=
  let s1 := match P with
            | Some _ => tracked (view_name S) P s
            | None => s
            end in
  let s2 := with_host (set_allocated (Datatypes.S (allocated (host s1)))) s1 in
  match mainRef (refs s2) with
  | Some _ => snd (addEventListener (new_function S P s) s2)
  | None => s2
  end.

Definition closure (S : string) (P : option LineProfile) (s : State) : Cleanup :=
  {| currentRef := mainRef (refs s); handler := new_function S P s |}.

Definition committed (t : Z) (bound : bool) (h : Host) : State :=
  {| refs := set_mainRef (if bound then Some cardNode else None) (useRefs t);
     host := set_listeners [] (set_clock t h) |}.

Definition observed (t : Z) (m : Metrics) (s : State) : State :=
  with_host (fun h => set_metrics m (set_clock t h)) s.

Definition at_time (t : Z) (s : State) : State := with_host (set_clock t) s.

(** The effect in force is the one whose listener sits on the node. *)
Definition wired (f : Fiber) (s : State) : Prop :=
  currentRef (destroy f) = mainRef (refs s)
  /\ listeners (host s)
     = match mainRef (refs s) with
       | Some _ => [handler (destroy f)]
       | None => []
       end
  /\ h_screenName (handler (destroy f)) = screenName (deps f)
  /\ h_lineProfile (handler (destroy f)) = lineProfile (deps f)
  /\ (handlerId (handler (destroy f)) < allocated (host s))%nat.

Definition settled (t : Z) (m : Metrics) (s : State) : State :=
  fold_left (fun s h => scrolled h s) (listeners (host s)) (observed t m s).

Definition evolves (r r' : Refs) : Prop :=
  viewStartTime r' = viewStartTime r
  /\ Bool.le (hasTrackedScroll r) (hasTrackedScroll r')
  /\ Bool.le (hasTrackedViewDuration r) (hasTrackedViewDuration r').

Definition notifications (ns : list (Z * Metrics)) : list Event :=
  map (fun n => Scroll (fst n) (snd n)) ns.

(** The two tests of [handleScroll] on the metrics. *)
Definition triggers (m : Metrics) : bool :=
  negb (Qle_bool (scrollHeight m) (clientHeight m))
  && gt (scrollPercent m) 70.

Definition triggering (e : Event) : bool :=
  match e with
  | Scroll _ m => triggers m
  | Render _ _ => false
  end.

(** The node is in [mainRef] and nothing was reported yet. *)
Definition armed (s : State) : bool :=
  match mainRef (refs s) with
  | Some _ => negb (hasTrackedScroll (refs s))
  | None => false
  end.

(** The time of the first triggering notification. *)
Fixpoint first_trigger (evs : list Event) : option Z :=
  match evs with
  | [] => None
  | Scroll t m :: rest => if triggers m then Some t else first_trigger rest
  | Render _ _ :: rest => first_trigger rest
  end.

(** A render that passes the dependencies of the effect in force. *)
Definition stays (f : Fiber) (e : Event) : Prop :=
  match e with
  | Render _ p => same_deps (deps f) p = true
  | Scroll _ _ => True
  end.

(** The names sent by a list of actions. *)
Definition sent (l : list Action) : list EventData :=
  flat_map (fun a => match a with Sent d => [d] | _ => [] end) l.

(** [scrollHeight - clientHeight] *)
Definition scrollableRange (m : Metrics) : Q :=
  (scrollHeight m - clientHeight m)%Q.

(** The scroll percentage as the specification writes it,
    [scrollTop / (scrollHeight - clientHeight) * 100], for three numbers: the
    quotient of the offset by the scrollable range, times one hundred. *)
Definition percentage (top height client : Q) : Q :=
  let range := Number.sub (Number.read height) (Number.read client) in
  let ratio := Number.div (Number.read top) range in
  Number.value (Number.mul ratio (Number.read 100)).

Arguments percentage : simpl never.

(** The notification shows a scroll percentage strictly above 70. *)
Definition over70 (n : Z * Metrics) : bool :=
  if Qlt_le_dec 70
       (percentage (scrollTop (snd n)) (scrollHeight (snd n))
          (clientHeight (snd n)))
  then true else false.

(** The part of [civil] after the era is split off. *)
Definition civil_of_doe (doe era : Z) : Z * Z * Z :=
  let yoe := (doe - doe / 1460 + doe / 36524 - doe / 146096) / 365 in
  let doy := doe - (365 * yoe + yoe / 4 - yoe / 100) in
  let mp := (5 * doy + 2) / 153 in
  let d := doy - (153 * mp + 2) / 5 + 1 in
  let m := if mp <? 10 then mp + 3 else mp - 9 in
  let y := yoe + era * 400 + (if m <=? 2 then 1 else 0) in
  (y, m, d).

(** What is checked of each day of the era that starts on 0000-03-01. *)
Definition era_day_ok (doe : Z) : bool :=
  let '(y, m, d) := civil_of_doe doe 0 in
  (0 <=? y) && (y <=? 400) && (1 <=? m) && (m <=? 12) && (1 <=? d)
  && (d <=? Iso8601.daysInMonth y m)
  && (Iso8601.dayNumber y m d =? doe - 719468).

(** The check on the [2 ^ depth] days from [lo], those of the era. *)
Fixpoint era_days_ok (depth : nat) (lo : Z) : bool :=
  match depth with
  | O => if lo <? 146097 then era_day_ok lo else true
  | S d =>
      if era_days_ok d lo then era_days_ok d (lo + 2 ^ Z.of_nat d) else false
  end.

(** The time values of ECMAScript: at most 8.64e15 ms from the epoch. *)
Definition time_value (t : Z) : Prop :=
  -8640000000000000 <= t <= 8640000000000000.

(** The profile [mockLiff.getProfile()] resolves to. *)
Definition mockProfile : LineProfile :=
  {| identity := 1%nat;
     displayName := Some "LINE User";
     pictureUrl := Some "https://placehold.co/100x100/28a745/FFFFFF?text=L";
     userId := Some "U1234567890abcdef1234567890abcdef" |}.

(** A node of 1000 pixels of content in a 500 pixel viewport, a collector
    that answers every request, time 0. *)
Definition quiet_host : Host :=
  fresh_host 0 {| scrollTop := 0; scrollHeight := 1000; clientHeight := 500 |}
    (fun _ => None) [].

(** An event that leaves the props at [p]. *)
Definition unchanged (p : Props) (e : Event) : Prop :=
  match e with
  | Render _ p' => p' = p
  | Scroll _ _ => True
  end.

(** The host with other failures in store. *)
Definition with_failures (throws : EventData -> option Js.Error)
    (net : list FetchOutcome) (h : Host) : Host :=
  {| clock := clock h; metrics := metrics h; listeners := listeners h;
     allocated := allocated h; stringifyThrows := throws;
     network := net; trace := trace h |}.

(** The names of the scroll-depth events, whatever the screen. *)
Definition is_scroll_event (name : string) : bool :=
  String.prefix "scroll_depth_over_70%_on_" name.

Definition scroll_events (tr : list Effect) : list string :=
  filter is_scroll_event (emitted tr).

(** *** Concrete screens and notifications *)

(** The node of [quiet_host] scrolled to [top]. *)
Definition scrolled_to (top : Q) : Metrics :=
  {| scrollTop := top; scrollHeight := 1000; clientHeight := 500 |}.

(** A node whose content fits: nothing to scroll. *)
Definition fitting (top : Q) : Metrics :=
  {| scrollTop := top; scrollHeight := 400; clientHeight := 500 |}.

Definition otp_screen : Props :=
  {| screenName := "otp_screen"; lineProfile := Some mockProfile |}.

Definition welcome_without_profile : Props :=
  {| screenName := "welcome"; lineProfile := None |}.

(** Three notifications at 20, 80 and 90 percent. *)
Definition three_scrolls : list (Z * Metrics) :=
  [(1000, scrolled_to 100); (2000, scrolled_to 400); (3000, scrolled_to 450)].

(* ================================================================== *)
(** ** The screens of the application

    The components below the tracking hook.  A handler is a function of the
    values it closes over; its result is the list of what it does, in the
    order of its statements: its calls to [trackEvent] and to the setters.
    Strings hold code units below 256. *)

From Stdlib Require DecimalString.

(** One call [trackEvent(name, lineProfile)]. *)
Definition Call : Type := string * option LineProfile.

(** An entry of the lists [policies] and [claims]: [{ id, name, desc }]. *)
Module Entry.
Record t := { id : nat; name : string; desc : string }.
End Entry.

(** An entry of the list [privileges]: [{ name, desc, imgSrc }]. *)
Module Privilege.
Record t := { name : string; desc : string; imgSrc : string }.
End Privilege.

(** [`${n}`] for a non-negative integer. *)
Definition decimal (n : nat) : string :=
  DecimalString.NilZero.string_of_uint (Nat.to_uint n).

(** [s.replace(/\s+/g, '_')]: every maximal run of white space becomes one
    underscore.  The white space of [\s] below 256: tab, line feed, vertical
    tab, form feed, carriage return, space, no-break space. *)
Definition is_space (c : ascii) : bool :=
  let n := nat_of_ascii c in
  (Nat.leb 9 n && Nat.leb n 13) || Nat.eqb n 32 || Nat.eqb n 160.

Fixpoint replace_runs (in_run : bool) (s : string) : string :=
  match s with
  | EmptyString => EmptyString
  | String c rest =>
      if is_space c
      then if in_run then replace_runs true rest
           else String "_" (replace_runs true rest)
      else String c (replace_runs false rest)
  end.

Definition replace_spaces (s : string) : string := replace_runs false s.

(** The object [userData].  Every object the application stores there has
    the key [isNew]; the other keys come with the login or the form. *)
Record UserData := {
  firstName : option string;
  lastName : option string;
  phone : option string;
  nid : option string;
  interests : option (list string);
  isNew : bool
}.

(** The object [formData] of [NewCustomerForm], and the [id]s of the four
    [InputField]s, which are the keys [handleFormChange] writes. *)
Module FormData.

Record t := {
  firstName : string;
  lastName : string;
  phone : string;
  nid : string
}.

Inductive Field := FirstName | LastName | Phone | Nid.

(** [{ ...prev, [id]: value }] *)
Definition update (id : Field) (value : string) (prev : t) : t :=
  match id with
  | FirstName => {| firstName := value; lastName := lastName prev;
                    phone := phone prev; nid := nid prev |}
  | LastName => {| firstName := firstName prev; lastName := value;
                   phone := phone prev; nid := nid prev |}
  | Phone => {| firstName := firstName prev; lastName := lastName prev;
                phone := value; nid := nid prev |}
  | Nid => {| firstName := firstName prev; lastName := lastName prev;
              phone := phone prev; nid := value |}
  end.

(** [prev[id]] *)
Definition get (id : Field) (d : t) : string :=
  match id with
  | FirstName => firstName d
  | LastName => lastName d
  | Phone => phone d
  | Nid => nid d
  end.

End FormData.

(** What a handler does, in the order of its statements: calls to
    [trackEvent] and to the setters of the [useState] cells (those of [App]
    reach the screens as props).  A setter called with a function receives
    the latest value. *)
Inductive Update :=
| TrackEvent (name : string) (lineProfile : option LineProfile)
| SetScreen (v : string)
| SetUserData (f : UserData -> UserData)
| SetLineProfile (p : LineProfile)
| SetSelectedPolicy (p : Entry.t)
| SetSelectedClaim (c : Entry.t)
| SetFormData (f : FormData.t -> FormData.t)
| SetInterests (f : list string -> list string)
| SetConsent (b : bool)
| SetFormError (e : string)
| SetOtp (v : string)
| SetOtpError (e : string).

Module WelcomeScreen.

Definition handleNavigation (lineProfile : option LineProfile)
    (screen : string) (isNew : bool) (buttonId : string) : list Update :=
  [ TrackEvent ("click_" ++ buttonId) lineProfile;
    SetUserData (fun prev =>
      {| firstName := firstName prev; lastName := lastName prev;
         phone := phone prev; nid := nid prev;
         interests := interests prev; isNew := isNew |});
    SetScreen screen ].

End WelcomeScreen.

Module ExistingCustomerLogin.

Definition handleLogin (lineProfile : option LineProfile) : list Update :=
  [ TrackEvent "click_okta_login" lineProfile;
    SetUserData (fun prev =>
      {| firstName := Some "Valued Customer"; lastName := lastName prev;
         phone := phone prev; nid := nid prev;
         interests := interests prev; isNew := false |});
    SetScreen "completed" ].

End ExistingCustomerLogin.

Module NewCustomerForm.

(** The four [useState] cells. *)
Record Local := {
  formData : FormData.t;
  interests : list string;
  consent : bool;
  error : string
}.

Definition initial : Local :=
  {| formData := {| FormData.firstName := ""; FormData.lastName := "";
                    FormData.phone := ""; FormData.nid := "" |};
     interests := [];
     consent := false;
     error := "" |}.

Definition productCategories : list string :=
  ["Health insurance"; "Life insurance"; "Tax saving"].

Definition handleFormChange (id : FormData.Field) (value : string)
    : list Update :=
  [ SetFormData (FormData.update id value) ].

(** [checked ? [...prev, value] : prev.filter(i => i !== value)] *)
Definition toggled (value : string) (checked : bool) (prev : list string)
    : list string :=
  if checked then (prev ++ [value])%list
  else filter (fun i => negb (i =? value)%string) prev.

Definition handleInterestChange (value : string) (checked : bool)
    : list Update :=
  [ SetInterests (toggled value checked) ].

(** [interests.includes(category)], the [checked] attribute of a checkbox. *)
Definition includes (l : list string) (category : string) : bool :=
  existsb (fun i => (i =? category)%string) l.

(** The [onChange] of the consent checkbox. *)
Definition consentChange (lineProfile : option LineProfile) (checked : bool)
    : list Update :=
  [ SetConsent checked; TrackEvent "click_pdpa_consent" lineProfile ].

(** [!s] on a string. *)
Definition blank (s : string) : bool := (s =? "")%string.

Definition handleSubmit (lineProfile : option LineProfile) (l : Local)
    : list Update :=
  let d := formData l in
  if blank (FormData.firstName d) || blank (FormData.lastName d)
     || blank (FormData.phone d) || blank (FormData.nid d)
  then [ SetFormError "All personal information fields are required." ]
  else if negb (consent l)
  then [ SetFormError "You must accept the PDPA consent to proceed." ]
  else
    [ TrackEvent "click_request_otp" lineProfile;
      SetFormError "";
      SetUserData (fun prev =>
        Build_UserData (Some (FormData.firstName d))
          (Some (FormData.lastName d)) (Some (FormData.phone d))
          (Some (FormData.nid d)) (Some (interests l)) true);
      SetScreen "otp" ].

End NewCustomerForm.

Module OtpScreen.

Record Local := {
  otp : string;
  error : string
}.

Definition initial : Local := {| otp := ""; error := "" |}.

Definition handleSubmit (lineProfile : option LineProfile) (l : Local)
    : list Update :=
  TrackEvent "click_verify_otp" lineProfile
  :: if (otp l =? "999999")%string
     then [ SetOtpError ""; SetScreen "completed" ]
     else [ SetOtpError "Invalid OTP. Please try again." ].

End OtpScreen.

Module CompletedScreen.

(** [userData?.firstName || 'customer'] in the greeting. *)
Definition greeted (userData : UserData) : string :=
  Js.or (firstName userData) "customer".

Definition allFeatures (lineProfile : option LineProfile) : list Update :=
  [ TrackEvent "click_all_features" lineProfile; SetScreen "features_menu" ].

Definition startOver (lineProfile : option LineProfile) : list Update :=
  [ TrackEvent "click_start_over" lineProfile; SetScreen "welcome" ].

End CompletedScreen.

Module FeaturesMenuScreen.

(** The screens the items of the menu lead to, in the order of the list:
    the first two are rendered under [userData && !userData.isNew]. *)
Definition items (userData : UserData) : list string :=
  ((if negb (isNew userData) then ["my_policies"; "my_claims"] else [])
   ++ ["privileges"])%list.

Definition handleItemClick (lineProfile : option LineProfile)
    (screenName : string) : list Update :=
  [ TrackEvent ("click_menu_" ++ screenName) lineProfile;
    SetScreen screenName ].

End FeaturesMenuScreen.

Module MyPoliciesScreen.

Definition policies : list Entry.t :=
  [ {| Entry.id := 1; Entry.name := "Health Insurance";
       Entry.desc := "AIA Health Happy - Policy #74839201" |};
    {| Entry.id := 2; Entry.name := "Life Insurance";
       Entry.desc := "AIA 20 Pay Life (Par) - Policy #58493028" |};
    {| Entry.id := 3; Entry.name := "Tax Saving";
       Entry.desc := "AIA Annuity Fix - Policy #94820134" |} ].

Definition click (lineProfile : option LineProfile) (p : Entry.t)
    : list Update :=
  [ TrackEvent ("click_policy_details_" ++ decimal (Entry.id p)) lineProfile;
    SetSelectedPolicy p;
    SetScreen "policy_details" ].

End MyPoliciesScreen.

Module MyClaimsScreen.

Definition claims : list Entry.t :=
  [ {| Entry.id := 1; Entry.name := "OPD Claim";
       Entry.desc := "Submitted: 15/06/2025 - Status: Approved" |};
    {| Entry.id := 2; Entry.name := "Accident Claim";
       Entry.desc := "Submitted: 02/05/2025 - Status: Approved" |};
    {| Entry.id := 3; Entry.name := "Dental Claim";
       Entry.desc := "Submitted: 20/04/2025 - Status: Rejected" |} ].

Definition click (lineProfile : option LineProfile) (c : Entry.t)
    : list Update :=
  [ TrackEvent ("click_claim_details_" ++ decimal (Entry.id c)) lineProfile;
    SetSelectedClaim c;
    SetScreen "claim_details" ].

End MyClaimsScreen.

Module PrivilegesScreen.

Definition privileges : list Privilege.t :=
  [ {| Privilege.name := "Free coverage campaign";
       Privilege.desc := "Additional COVID-19 coverage until Dec 2025.";
       Privilege.imgSrc :=
         "https://placehold.co/80x80/D31145/FFFFFF?text=Health" |};
    {| Privilege.name := "GRAB food voucher";
       Privilege.desc := "THB 100 voucher. Valid until 30/09/2025.";
       Privilege.imgSrc :=
         "https://placehold.co/80x80/28a745/FFFFFF?text=Food" |};
    {| Privilege.name := "Major Cineplex voucher";
       Privilege.desc := "Buy 1 Get 1 Free for any movie.";
       Privilege.imgSrc :=
         "https://placehold.co/80x80/ffc107/000000?text=Movie" |} ].

Definition click (lineProfile : option LineProfile) (p : Privilege.t)
    : list Update :=
  [ TrackEvent ("click_privilege_" ++ replace_spaces (Privilege.name p))
      lineProfile ].

End PrivilegesScreen.

(** The two screens of details take their entry from the props they are
    rendered with: [({ setScreen, policy, lineProfile })] and
    [({ setScreen, claim, lineProfile })]. *)
Module PolicyDetailsScreen.

Definition policy (props : string -> option Entry.t) : option Entry.t :=
  props "policy".

End PolicyDetailsScreen.

Module ClaimDetailsScreen.

Definition claim (props : string -> option Entry.t) : option Entry.t :=
  props "claim".

End ClaimDetailsScreen.

(** [App]: its state, with the cells of the two screens that have some, the
    rendering [switch], and what each control of each screen triggers. *)
Module App.

Record State := {
  screen : string;
  userData : UserData;
  lineProfile : option LineProfile;
  selectedPolicy : option Entry.t;
  selectedClaim : option Entry.t;
  form : NewCustomerForm.Local;
  otpScreen : OtpScreen.Local
}.

(** The [useState] calls of [App], and of the two screens at their mount. *)
Definition initial : State :=
  {| screen := "welcome";
     userData := {| firstName := None; lastName := None; phone := None;
                    nid := None; interests := None; isNew := true |};
     lineProfile := None;
     selectedPolicy := None;
     selectedClaim := None;
     form := NewCustomerForm.initial;
     otpScreen := OtpScreen.initial |}.

(** The entries of the object [props] that [renderScreen] spreads into every
    screen: the selected policy under [selectedPolicy], the selected claim
    under [selectedClaim], and no entry under another key. *)
Definition props (a : State) (key : string) : option Entry.t :=
  if (key =? "selectedPolicy")%string then selectedPolicy a
  else if (key =? "selectedClaim")%string then selectedClaim a
  else None.

(** One update applied to the state. *)
Definition apply (u : Update) (a : State) : State :=
  match u with
  | TrackEvent _ _ => a
  | SetScreen v =>
      {| screen := v; userData := userData a; lineProfile := lineProfile a;
         selectedPolicy := selectedPolicy a; selectedClaim := selectedClaim a;
         form := form a; otpScreen := otpScreen a |}
  | SetUserData f =>
      {| screen := screen a; userData := f (userData a);
         lineProfile := lineProfile a;
         selectedPolicy := selectedPolicy a; selectedClaim := selectedClaim a;
         form := form a; otpScreen := otpScreen a |}
  | SetLineProfile p =>
      {| screen := screen a; userData := userData a; lineProfile := Some p;
         selectedPolicy := selectedPolicy a; selectedClaim := selectedClaim a;
         form := form a; otpScreen := otpScreen a |}
  | SetSelectedPolicy p =>
      {| screen := screen a; userData := userData a;
         lineProfile := lineProfile a;
         selectedPolicy := Some p; selectedClaim := selectedClaim a;
         form := form a; otpScreen := otpScreen a |}
  | SetSelectedClaim c =>
      {| screen := screen a; userData := userData a;
         lineProfile := lineProfile a;
         selectedPolicy := selectedPolicy a; selectedClaim := Some c;
         form := form a; otpScreen := otpScreen a |}
  | SetFormData f =>
      {| screen := screen a; userData := userData a;
         lineProfile := lineProfile a;
         selectedPolicy := selectedPolicy a; selectedClaim := selectedClaim a;
         form := {| NewCustomerForm.formData :=
                      f (NewCustomerForm.formData (form a));
                    NewCustomerForm.interests :=
                      NewCustomerForm.interests (form a);
                    NewCustomerForm.consent := NewCustomerForm.consent (form a);
                    NewCustomerForm.error := NewCustomerForm.error (form a) |};
         otpScreen := otpScreen a |}
  | SetInterests f =>
      {| screen := screen a; userData := userData a;
         lineProfile := lineProfile a;
         selectedPolicy := selectedPolicy a; selectedClaim := selectedClaim a;
         form := {| NewCustomerForm.formData :=
                      NewCustomerForm.formData (form a);
                    NewCustomerForm.interests :=
                      f (NewCustomerForm.interests (form a));
                    NewCustomerForm.consent := NewCustomerForm.consent (form a);
                    NewCustomerForm.error := NewCustomerForm.error (form a) |};
         otpScreen := otpScreen a |}
  | SetConsent b =>
      {| screen := screen a; userData := userData a;
         lineProfile := lineProfile a;
         selectedPolicy := selectedPolicy a; selectedClaim := selectedClaim a;
         form := {| NewCustomerForm.formData :=
                      NewCustomerForm.formData (form a);
                    NewCustomerForm.interests :=
                      NewCustomerForm.interests (form a);
                    NewCustomerForm.consent := b;
                    NewCustomerForm.error := NewCustomerForm.error (form a) |};
         otpScreen := otpScreen a |}
  | SetFormError e =>
      {| screen := screen a; userData := userData a;
         lineProfile := lineProfile a;
         selectedPolicy := selectedPolicy a; selectedClaim := selectedClaim a;
         form := {| NewCustomerForm.formData :=
                      NewCustomerForm.formData (form a);
                    NewCustomerForm.interests :=
                      NewCustomerForm.interests (form a);
                    NewCustomerForm.consent := NewCustomerForm.consent (form a);
                    NewCustomerForm.error := e |};
         otpScreen := otpScreen a |}
  | SetOtp v =>
      {| screen := screen a; userData := userData a;
         lineProfile := lineProfile a;
         selectedPolicy := selectedPolicy a; selectedClaim := selectedClaim a;
         form := form a;
         otpScreen := {| OtpScreen.otp := v;
                         OtpScreen.error := OtpScreen.error (otpScreen a) |} |}
  | SetOtpError e =>
      {| screen := screen a; userData := userData a;
         lineProfile := lineProfile a;
         selectedPolicy := selectedPolicy a; selectedClaim := selectedClaim a;
         form := form a;
         otpScreen := {| OtpScreen.otp := OtpScreen.otp (otpScreen a);
                         OtpScreen.error := e |} |}
  end.

Definition applyAll (us : list Update) (a : State) : State :=
  fold_left (fun a u => apply u a) us a.

(** The calls to [trackEvent] among the updates, in order. *)
Definition calls (us : list Update) : list Call :=
  flat_map (fun u => match u with
                     | TrackEvent name p => [(name, p)]
                     | _ => []
                     end) us.

(** The components [renderScreen] chooses from. *)
Inductive Component :=
| WelcomeScreen
| ExistingCustomerLogin
| NewCustomerForm
| OtpScreen
| CompletedScreen
| FeaturesMenuScreen
| MyPoliciesScreen
| PolicyDetailsScreen
| MyClaimsScreen
| ClaimDetailsScreen
| PrivilegesScreen.

Definition Component_eq_dec (x y : Component) : {x = y} + {x <> y}.
Proof. decide equality. Defined.

(** The [switch] of [renderScreen]. *)
Definition renderScreen (screen : string) : Component :=
  if (screen =? "existing_customer_login")%string then ExistingCustomerLogin
  else if (screen =? "new_customer_form")%string then NewCustomerForm
  else if (screen =? "otp")%string then OtpScreen
  else if (screen =? "completed")%string then CompletedScreen
  else if (screen =? "features_menu")%string then FeaturesMenuScreen
  else if (screen =? "my_policies")%string then MyPoliciesScreen
  else if (screen =? "policy_details")%string then PolicyDetailsScreen
  else if (screen =? "my_claims")%string then MyClaimsScreen
  else if (screen =? "claim_details")%string then ClaimDetailsScreen
  else if (screen =? "privileges")%string then PrivilegesScreen
  else WelcomeScreen.

(** The deep link of the mount effect: the [switch] on
    [window.location.hash], entered when the hash is not empty. *)
Definition deepLink (hash : string) : list Update :=
  if (hash =? "")%string then []
  else if (hash =? "#policies")%string then
    [ SetUserData (fun _ => {| firstName := None; lastName := None;
                               phone := None; nid := None;
                               interests := None; isNew := false |});
      SetScreen "my_policies" ]
  else if (hash =? "#claims")%string then
    [ SetUserData (fun _ => {| firstName := None; lastName := None;
                               phone := None; nid := None;
                               interests := None; isNew := false |});
      SetScreen "my_claims" ]
  else if (hash =? "#privileges")%string then [ SetScreen "privileges" ]
  else [ SetScreen "welcome" ].

(** What can happen to the mounted application: the controls of the screens
    (list items by their position) and the profile promise resolving. *)
Inductive Control :=
| ExistingCustomerButton
| NewCustomerButton
| OktaLoginButton
| FormInput (id : FormData.Field) (value : string)
| InterestCheckbox (position : nat)
| ConsentCheckbox
| RequestOtpButton
| OtpInput (value : string)
| VerifyButton
| AllFeaturesButton
| StartOverButton
| MenuItem (position : nat)
| PolicyItem (position : nat)
| ClaimItem (position : nat)
| PrivilegeItem (position : nat)
| BackButton
| ProfileResolved (profile : LineProfile).

(** The handler of a control in the state it is rendered in; [None] when the
    screen on display does not render the control, or renders it disabled.
    A screen of details renders its Back button after the guard
    [if (!policy) return null]. *)
Definition handle (c : Control) (a : State) : option (list Update) :=
  let p := lineProfile a in
  match c with
  | ProfileResolved profile => Some [ SetLineProfile profile ]
  | _ =>
  match renderScreen (screen a), c with
  | WelcomeScreen, ExistingCustomerButton =>
      Some (WelcomeScreen.handleNavigation p "existing_customer_login" false
              "existing_customer_button")
  | WelcomeScreen, NewCustomerButton =>
      Some (WelcomeScreen.handleNavigation p "new_customer_form" true
              "new_customer_button")
  | ExistingCustomerLogin, OktaLoginButton =>
      Some (ExistingCustomerLogin.handleLogin p)
  | ExistingCustomerLogin, BackButton => Some [ SetScreen "welcome" ]
  | NewCustomerForm, FormInput id value =>
      Some (NewCustomerForm.handleFormChange id value)
  | NewCustomerForm, InterestCheckbox position =>
      match nth_error NewCustomerForm.productCategories position with
      | Some category =>
          Some (NewCustomerForm.handleInterestChange category
                  (negb (NewCustomerForm.includes
                           (NewCustomerForm.interests (form a)) category)))
      | None => None
      end
  | NewCustomerForm, ConsentCheckbox =>
      Some (NewCustomerForm.consentChange p
              (negb (NewCustomerForm.consent (form a))))
  | NewCustomerForm, RequestOtpButton =>
      if NewCustomerForm.consent (form a)
      then Some (NewCustomerForm.handleSubmit p (form a))
      else None
  | NewCustomerForm, BackButton => Some [ SetScreen "welcome" ]
  | OtpScreen, OtpInput value => Some [ SetOtp value ]
  | OtpScreen, VerifyButton => Some (OtpScreen.handleSubmit p (otpScreen a))
  | OtpScreen, BackButton => Some [ SetScreen "new_customer_form" ]
  | CompletedScreen, AllFeaturesButton => Some (CompletedScreen.allFeatures p)
  | CompletedScreen, StartOverButton => Some (CompletedScreen.startOver p)
  | FeaturesMenuScreen, MenuItem position =>
      match nth_error (FeaturesMenuScreen.items (userData a)) position with
      | Some screenName => Some (FeaturesMenuScreen.handleItemClick p screenName)
      | None => None
      end
  | FeaturesMenuScreen, BackButton => Some [ SetScreen "welcome" ]
  | MyPoliciesScreen, PolicyItem position =>
      match nth_error MyPoliciesScreen.policies position with
      | Some policy => Some (MyPoliciesScreen.click p policy)
      | None => None
      end
  | MyPoliciesScreen, BackButton => Some [ SetScreen "features_menu" ]
  | PolicyDetailsScreen, BackButton =>
      match PolicyDetailsScreen.policy (props a) with
      | Some _ => Some [ SetScreen "my_policies" ]
      | None => None
      end
  | MyClaimsScreen, ClaimItem position =>
      match nth_error MyClaimsScreen.claims position with
      | Some claim => Some (MyClaimsScreen.click p claim)
      | None => None
      end
  | MyClaimsScreen, BackButton => Some [ SetScreen "features_menu" ]
  | ClaimDetailsScreen, BackButton =>
      match ClaimDetailsScreen.claim (props a) with
      | Some _ => Some [ SetScreen "my_claims" ]
      | None => None
      end
  | PrivilegesScreen, PrivilegeItem position =>
      match nth_error PrivilegesScreen.privileges position with
      | Some privilege => Some (PrivilegesScreen.click p privilege)
      | None => None
      end
  | PrivilegesScreen, BackButton => Some [ SetScreen "features_menu" ]
  | _, _ => None
  end
  end.

(** After the updates React renders again: a screen that replaces another is
    mounted with new cells. *)
Definition commit (before after : State) : State :=
  if Component_eq_dec (renderScreen (screen before))
       (renderScreen (screen after))
  then after
  else
    {| screen := screen after; userData := userData after;
       lineProfile := lineProfile after;
       selectedPolicy := selectedPolicy after;
       selectedClaim := selectedClaim after;
       form := NewCustomerForm.initial;
       otpScreen := OtpScreen.initial |}.

Definition step (c : Control) (a : State) : option State :=
  match handle c a with
  | Some us => Some (commit a (applyAll us a))
  | None => None
  end.

Fixpoint run (cs : list Control) (a : State) : option State :=
  match cs with
  | [] => Some a
  | c :: rest =>
      match step c a with
      | Some a' => run rest a'
      | None => None
      end
  end.

(** The updates of the mount effect of [App], in the order they are made:
    the setters of the deep link run in the effect itself, the setter of the
    profile runs when the promise of [mockLiff.getProfile()] resolves.
    [resolved] holds the profile when it is there by the time React renders
    the updates of the effect, and [None] when React renders them before. *)
Definition mountEffect (hash : string) (resolved : option LineProfile)
    : list Update :=
  (deepLink hash
   ++ match resolved with
      | Some profile => [ SetLineProfile profile ]
      | None => []
      end)%list.

(** The application once mounted with [window.location.hash = hash]. *)
Definition boot (hash : string) : State :=
  commit initial (applyAll (deepLink hash) initial).

End App.

(** The application in the browser: the state of [App], the hook instance of
    the screen on display, and the host with the cells of that instance. *)
Module Session.

(** What React holds besides the host: the state of [App] and the hook
    instance of the screen on display. *)
Record T := {
  app : App.State;
  instance : option Fiber
}.

(** The name the screen on display passes to [useInteractionTracking];
    [None] for a details screen without its entry, which returns before it
    calls the hook. *)
Definition trackedAs (a : App.State) : option string :=
  match App.renderScreen (App.screen a) with
  | App.WelcomeScreen => Some "welcome"
  | App.ExistingCustomerLogin => Some "existing_customer_login"
  | App.NewCustomerForm => Some "new_customer_form"
  | App.OtpScreen => Some "otp_screen"
  | App.CompletedScreen => Some "completed_screen"
  | App.FeaturesMenuScreen => Some "features_menu"
  | App.MyPoliciesScreen => Some "my_policies_list"
  | App.PolicyDetailsScreen =>
      match PolicyDetailsScreen.policy (App.props a) with
      | Some policy => Some ("policy_details_" ++ decimal (Entry.id policy))
      | None => None
      end
  | App.MyClaimsScreen => Some "my_claims_list"
  | App.ClaimDetailsScreen =>
      match ClaimDetailsScreen.claim (App.props a) with
      | Some claim => Some ("claim_details_" ++ decimal (Entry.id claim))
      | None => None
      end
  | App.PrivilegesScreen => Some "privileges_list"
  end.

(** The props of the hook on a render of the state [a]. *)
Definition props (a : App.State) : option Props :=
  match trackedAs a with
  | Some name => Some (Build_Props name (App.lineProfile a))
  | None => None
  end.

(** The calls of a handler, made one after the other. *)
Fixpoint perform (calls : list Call) : M unit :=
  match calls with
  | [] => ret tt
  | (name, profile) :: rest =>
      detached (trackEvent name profile) ;; perform rest
  end.

(** A screen comes on display: its [Card] is a new node bound to the handle
    the hook returns. *)
Definition enter (t : Z) (p : option Props) (s : State)
    : Completion (option Fiber) * State :=
  match p with
  | Some p =>
      match mount t p true (host s) with
      | (Normal f, s') => (Normal (Some f), s')
      | (Throw e, s') => (Throw e, s')
      end
  | None => (Normal None, s)
  end.

(** A screen leaves the display. *)
Definition leave (t : Z) (f : option Fiber) : M unit :=
  match f with
  | Some f => unmount t f
  | None => ret tt
  end.

(** React after the updates of a handler: the screen on display renders
    again when it is the same component, and is replaced otherwise, the
    cleanup of the one that leaves running before the effect of the one that
    enters. *)
Definition render (t : Z) (before after : App.State) (f : option Fiber)
    : M (option Fiber) :=
  match App.Component_eq_dec (App.renderScreen (App.screen before))
          (App.renderScreen (App.screen after)), f, props after with
  | left _, Some f, Some p => f' <- rerender t p f ;; ret (Some f')
  | _, _, p => leave t f ;; enter t p
  end.

(** The updates [us] of a handler or of an effect at time [t]: the calls to
    [trackEvent] are made as the handler runs, then React renders the state
    the setters leave. *)
Definition update (t : Z) (us : list Update) (m : T) : M T :=
  let after := App.commit (app m) (App.applyAll us (app m)) in
  modify (with_host (set_clock t)) ;;
  perform (App.calls us) ;;
  f <- render t (app m) after (instance m) ;;
  ret {| app := after; instance := f |}.

(** The application is opened at time [t] in the host [h] with
    [window.location.hash = hash].  The first render shows the welcome
    screen without profile and its effect runs; then the mount effect of
    [App] asks for the profile and follows the deep link, and React renders
    what it set.  Whether that render comes before the promise of the
    profile resolves or after depends on the version of React: with
    [resolved = None] it comes before (the profile arrives later, as
    [ProfileResolved]), with [resolved = Some profile] the two are rendered
    together. *)
Definition start (t : Z) (h : Host) (hash : string)
    (resolved : option LineProfile) : Completion T * State :=
  (f <- enter t (props App.initial) ;;
   update t (App.mountEffect hash resolved)
     {| app := App.initial; instance := f |})
    {| refs := useRefs t; host := h |}.

(** What happens to the application: a control is used, or the screen on
    display is scrolled. *)
Inductive Happening :=
| Use (c : App.Control)
| ScrollTo (m : Metrics).

(** One happening at time [t]; [None] when the control is not there. *)
Definition step (t : Z) (e : Happening) (m : T) : option (M T) :=
  match e with
  | ScrollTo metrics => Some (scroll t metrics ;; ret m)
  | Use c =>
      match App.handle c (app m) with
      | None => None
      | Some us => Some (update t us m)
      end
  end.

Fixpoint run (es : list (Z * Happening)) (m : T) (s : State)
    : option (Completion T * State) :=
  match es with
  | [] => Some (Normal m, s)
  | (t, e) :: rest =>
      match step t e m with
      | None => None
      | Some k =>
          match k s with
          | (Normal m', s') => run rest m' s'
          | (Throw x, s') => Some (Throw x, s')
          end
      end
  end.

(** The whole of a visit: opened at [t] in [h] with [hash], then [es]. *)
Definition visit (t : Z) (h : Host) (hash : string)
    (resolved : option LineProfile) (es : list (Z * Happening))
    : option (Completion T * State) :=
  match start t h hash resolved with
  | (Normal m, s) => run es m s
  | (Throw x, s) => Some (Throw x, s)
  end.

End Session.

(** *** Notions used in the statements about the screens *)

(** Some code unit of [s] is white space. *)
Fixpoint has_space (s : string) : bool :=
  match s with
  | EmptyString => false
  | String c rest => is_space c || has_space rest
  end.

(** The four fields of the form are filled in. *)
Definition complete (d : FormData.t) : bool :=
  negb (NewCustomerForm.blank (FormData.firstName d))
  && negb (NewCustomerForm.blank (FormData.lastName d))
  && negb (NewCustomerForm.blank (FormData.phone d))
  && negb (NewCustomerForm.blank (FormData.nid d)).

(** The screens that show policies or claims. *)
Definition shows_contracts (c : App.Component) : bool :=
  match c with
  | App.MyPoliciesScreen | App.PolicyDetailsScreen
  | App.MyClaimsScreen | App.ClaimDetailsScreen => true
  | _ => false
  end.

(** The two screens of details. *)
Definition is_details (c : App.Component) : bool :=
  match c with
  | App.PolicyDetailsScreen | App.ClaimDetailsScreen => true
  | _ => false
  end.

(** The screens that follow a registration or a login. *)
Definition after_sign_up (c : App.Component) : bool :=
  match c with
  | App.OtpScreen | App.CompletedScreen => true
  | _ => false
  end.

(** The values [setScreen] is ever called with, and the initial one. *)
Definition screens : list string :=
  [ "welcome"; "existing_customer_login"; "new_customer_form"; "otp";
    "completed"; "features_menu"; "my_policies"; "policy_details";
    "my_claims"; "claim_details"; "privileges" ].

(** What holds of the state of the application after any run of controls. *)
Record Sound (a : App.State) : Prop := {
  sound_screen : In (App.screen a) screens;
  sound_policy :
    App.renderScreen (App.screen a) = App.PolicyDetailsScreen ->
    exists p, App.selectedPolicy a = Some p /\ In p MyPoliciesScreen.policies;
  sound_claim :
    App.renderScreen (App.screen a) = App.ClaimDetailsScreen ->
    exists c, App.selectedClaim a = Some c /\ In c MyClaimsScreen.claims;
  sound_contracts :
    shows_contracts (App.renderScreen (App.screen a)) = true ->
    isNew (App.userData a) = false;
  sound_interests :
    NoDup (NewCustomerForm.interests (App.form a))
    /\ incl (NewCustomerForm.interests (App.form a))
         NewCustomerForm.productCategories;
  sound_error :
    In (NewCustomerForm.error (App.form a))
       [""; "All personal information fields are required."];
  sound_name :
    after_sign_up (App.renderScreen (App.screen a)) = true ->
    exists s, firstName (App.userData a) = Some s
              /\ NewCustomerForm.blank s = false
}.

(** *** Notions used in the statements about a visit *)

(** The state after the calls of a handler. *)
Definition performed (calls : list Call) (s : State) : State :=
  fold_left (fun s call => tracked (fst call) (snd call) s) calls s.

(** The records the calls of a handler hand over at time [t]. *)
Definition handed (t : Z) (calls : list Call) : list Action :=
  map (fun call => Sent (eventData (fst call) (snd call) t)) calls.

(** The rejections left unhandled among some actions. *)
Definition unhandled (l : list Action) : list Action :=
  filter (fun a => match a with Unhandled _ => true | _ => false end) l.

(** A screen with its hook is on display: the hook instance is the one whose
    listener sits on the node, under the name and the profile of that
    screen. *)
Definition Shown (m : Session.T) (s : State) : Prop :=
  Sound (Session.app m)
  /\ exists f,
       Session.instance m = Some f
       /\ wired f s
       /\ mainRef (refs s) = Some cardNode
       /\ Session.trackedAs (Session.app m) = Some (screenName (deps f))
       /\ same_object (lineProfile (deps f))
            (App.lineProfile (Session.app m)) = true.

(** A screen that returned before its hook is on display: there is no hook
    instance and no listener, and the cells left behind count the duration
    as evaluated. *)
Definition Blank (m : Session.T) (s : State) : Prop :=
  Sound (Session.app m)
  /\ Session.instance m = None
  /\ Session.trackedAs (Session.app m) = None
  /\ listeners (host s) = []
  /\ hasTrackedViewDuration (refs s) = true.

(** What holds of a visit at every moment. *)
Definition Settled (m : Session.T) (s : State) : Prop :=
  Shown m s \/ Blank m s.

(** The props the hook gets on the render of [after] are those of the effect
    in force and the component is the same: the effect does not run again. *)
Definition kept (before after : App.State) (f : Fiber) : bool :=
  match App.Component_eq_dec (App.renderScreen (App.screen before))
          (App.renderScreen (App.screen after)), Session.props after with
  | left _, Some p => same_deps (deps f) p
  | _, _ => false
  end.

(** What a teardown at [t] followed by the effect for the state [after]
    does, in order: the listener of [f] leaves the node, the duration is
    reported if it was not evaluated yet and more than 5000 ms have passed,
    the view is reported if there is a profile, a new listener is
    attached. *)
Definition rerun (t : Z) (f : Fiber) (s : State) (after : App.State)
    (name : string) : list Action :=
  (Detached (handlerId (handler (destroy f)))
   :: (if negb (hasTrackedViewDuration (refs s))
          && (5000 <? t - viewStartTime (refs s))
       then [Sent (eventData (duration_name (screenName (deps f)))
                     (lineProfile (deps f)) t)]
       else [])
   ++ match App.lineProfile after with
      | Some _ => [Sent (eventData (view_name name) (App.lineProfile after) t)]
      | None => []
      end
   ++ [Attached (allocated (host s))])%list.

(** What the teardown at [t] of a screen does when nothing with a hook
    follows: the listener of [f] leaves the node and the duration is
    reported if it was not evaluated yet and more than 5000 ms have
    passed. *)
Definition torn_down (t : Z) (f : Fiber) (s : State) : list Action :=
  (Detached (handlerId (handler (destroy f)))
   :: (if negb (hasTrackedViewDuration (refs s))
          && (5000 <? t - viewStartTime (refs s))
       then [Sent (eventData (duration_name (screenName (deps f)))
                     (lineProfile (deps f)) t)]
       else []))%list.

(** The render of [after] shows the same component as that of [before],
    under the same name and with the same profile object. *)
Definition same_screen (before after : App.State) : bool :=
  (if App.Component_eq_dec (App.renderScreen (App.screen before))
        (App.renderScreen (App.screen after)) then true else false)
  && match Session.trackedAs before, Session.trackedAs after with
     | Some a, Some b => (a =? b)%string
     | _, _ => false
     end
  && same_object (App.lineProfile before) (App.lineProfile after).

(** The names the nine screens with a hook pass to it. *)
Definition hook_names : list string :=
  [ "welcome"; "existing_customer_login"; "new_customer_form"; "otp_screen";
    "completed_screen"; "features_menu"; "my_policies_list";
    "my_claims_list"; "privileges_list" ].

(** The names under which the application reports: a click, or the view, the
    duration or the scroll depth of a screen with a hook. *)
Definition known_event (name : string) : bool :=
  String.prefix "click_" name
  || existsb (fun S => (name =? view_name S)%string
                       || (name =? duration_name S)%string
                       || (name =? scroll_name S)%string) hook_names.

(** *** Concrete uses of the application *)

(** The form is opened and filled in, one interest ticked, the consent
    given. *)
Definition fills_in_form : list App.Control :=
  [ App.NewCustomerButton;
    App.FormInput FormData.FirstName "Ann";
    App.FormInput FormData.LastName "Lee";
    App.FormInput FormData.Phone "0812345678";
    App.FormInput FormData.Nid "1234567890123";
    App.InterestCheckbox 2;
    App.ConsentCheckbox ].

(** The form is opened, only the first name typed, the consent given. *)
Definition fills_in_first_name : list App.Control :=
  [ App.NewCustomerButton;
    App.FormInput FormData.FirstName "Ann";
    App.ConsentCheckbox ].

(** A visit: the profile arrives after a tenth of a second, the form is
    opened at two seconds, scrolled to 80 percent and typed in. *)
Definition opens_form : list (Z * Session.Happening) :=
  [ (100, Session.Use (App.ProfileResolved mockProfile));
    (2000, Session.Use App.NewCustomerButton);
    (3000, Session.ScrollTo (scrolled_to 400));
    (4000, Session.Use (App.FormInput FormData.FirstName "Ann")) ].

(** A visit opened on a deep link to one of the lists: the list is scrolled
    to 80 percent at three seconds. *)
Definition scrolls_list : list (Z * Session.Happening) :=
  [ (3000, Session.ScrollTo (scrolled_to 400)) ].

(** A host whose [JSON.stringify] throws on the view of the welcome screen
    and whose collector rejects the first request and answers the second
    with status 500. *)
Definition failing_host : Host :=
  with_failures
    (fun d => if (eventName d =? "view_welcome")%string
              then Some (Js.mkError "TypeError" "cyclic object value")
              else None)
    [Rejected (Js.mkError "TypeError" "Failed to fetch"); Resolved 500]
    quiet_host.

(* ================================================================== *)
(** * Properties *)

Lemma actions_app (a b : list Effect) :
  actions (a ++ b) = (actions a ++ actions b)%list.
Proof. apply flat_map_app. Qed.

Lemma records_app (a b : list Effect) :
  records (a ++ b) = (records a ++ records b)%list.
Proof. unfold records. rewrite actions_app. apply flat_map_app. Qed.

Lemma emitted_app (a b : list Effect) :
  emitted (a ++ b) = (emitted a ++ emitted b)%list.
Proof. unfold emitted. rewrite records_app. apply map_app. Qed.

Lemma actions_settle d h : actions (settle d h) = [].
Proof.
  unfold settle. destruct (stringifyThrows h d); [reflexivity|].
  destruct (network h) as [|[] ?]; reflexivity.
Qed.

(** ** [trackEvent] *)

Section TrackEvent.

Variables (name : string) (p : option LineProfile) (s : State).

Lemma trackEvent_eq : trackEvent name p s = (Normal tt, tracked name p s).
Proof.
  unfold tracked, trackEvent, build, bind, new_Date, Date_toISOString,
    console_log, modify, try_catch,
    stringify, await_fetch, console_error, ret; simpl.
  destruct (stringifyThrows _ _); [reflexivity|].
  destruct (network _) as [|[] ?]; reflexivity.
Qed.

Lemma detached_trackEvent :
  detached (trackEvent name p) s = (Normal tt, tracked name p s).
Proof. unfold detached. now rewrite trackEvent_eq. Qed.

Ltac run_trackEvent :=
  unfold tracked, trackEvent, build, bind, new_Date, Date_toISOString,
    console_log, modify, try_catch,
    stringify, await_fetch, console_error, ret, settle; simpl;
  destruct (stringifyThrows _ _); [|destruct (network _) as [|[] ?]]; simpl.

Lemma tracked_refs : refs (tracked name p s) = refs s.
Proof. run_trackEvent; reflexivity. Qed.

Lemma tracked_clock : clock (host (tracked name p s)) = clock (host s).
Proof. run_trackEvent; reflexivity. Qed.

Lemma tracked_metrics : metrics (host (tracked name p s)) = metrics (host s).
Proof. run_trackEvent; reflexivity. Qed.

Lemma tracked_listeners :
  listeners (host (tracked name p s)) = listeners (host s).
Proof. run_trackEvent; reflexivity. Qed.

Lemma tracked_allocated :
  allocated (host (tracked name p s)) = allocated (host s).
Proof. run_trackEvent; reflexivity. Qed.

Lemma tracked_stringifyThrows :
  stringifyThrows (host (tracked name p s)) = stringifyThrows (host s).
Proof. run_trackEvent; reflexivity. Qed.

Lemma tracked_trace :
  trace (host (tracked name p s))
  = (trace (host s)
       ++ ConsoleLog (eventData name p (clock (host s)))
       :: settle (eventData name p (clock (host s))) (host s))%list.
Proof. run_trackEvent; now rewrite <- ?app_assoc. Qed.

Lemma tracked_actions :
  actions (trace (host (tracked name p s)))
  = (actions (trace (host s))
       ++ [Sent (eventData name p (clock (host s)))])%list.
Proof.
  rewrite tracked_trace, actions_app. simpl. now rewrite actions_settle.
Qed.

End TrackEvent.

Global Opaque tracked.


Create Rewrite HintDb tracker.
#[global] Hint Rewrite tracked_refs tracked_clock tracked_metrics
  tracked_listeners tracked_allocated tracked_stringifyThrows
  tracked_actions : tracker.

(** ** [handleScroll] and the cleanup in closed form *)

Lemma handleScroll_eq h s : handleScroll h s = (Normal tt, scrolled h s).
Proof.
  unfold handleScroll, scrolled, fires, bind, get, ret, modify; simpl.
  destruct (mainRef (refs s)) as [[]|]; [|reflexivity].
  destruct (hasTrackedScroll (refs s)); [reflexivity|]. simpl.
  destruct (Qle_bool _ _); [reflexivity|]. simpl.
  destruct (gt _ _); [|reflexivity].
  now rewrite detached_trackEvent.
Qed.

Lemma cleanup_eq k s : cleanup k s = (Normal tt, torn k s).
Proof.
  unfold cleanup, torn, detach, bind, get, ret, modify, when, Date_now,
    removeEventListener; simpl.
  destruct (currentRef k) as [[]|]; simpl.
  - destruct (hasTrackedViewDuration (refs s)); [reflexivity|]. simpl.
    destruct (gt _ _); [|reflexivity].
    now rewrite detached_trackEvent.
  - destruct (hasTrackedViewDuration (refs s)); [reflexivity|]. simpl.
    destruct (gt _ _); [|reflexivity].
    now rewrite detached_trackEvent.
Qed.

(** ** The two thresholds *)

Lemma gt_iff a b : gt a b = true <-> (b < a)%Q.
Proof.
  unfold gt. rewrite negb_true_iff. split.
  - intros H. apply Qnot_le_lt. intro Hle.
    apply Qle_bool_iff in Hle. congruence.
  - intros H. destruct (Qle_bool a b) eqn:E; [|reflexivity].
    apply Qle_bool_iff in E. exfalso. exact (Qlt_not_le _ _ H E).
Qed.

Lemma gt_dec a b : gt a b = if Qlt_le_dec b a then true else false.
Proof.
  destruct (Qlt_le_dec b a) as [H|H].
  - now apply gt_iff.
  - destruct (gt a b) eqn:E; [|reflexivity].
    apply gt_iff in E. exfalso. exact (Qlt_not_le _ _ E H).
Qed.

Lemma no_scrollbar_iff m :
  Qle_bool (scrollHeight m) (clientHeight m) = false
  <-> (0 < scrollHeight m - clientHeight m)%Q.
Proof.
  unfold Qminus. rewrite <- Qlt_minus_iff. split.
  - intros H. apply Qnot_le_lt. intro Hle.
    apply Qle_bool_iff in Hle. congruence.
  - intros H. destruct (Qle_bool _ _) eqn:E; [|reflexivity].
    apply Qle_bool_iff in E. exfalso. exact (Qlt_not_le _ _ H E).
Qed.

(** The duration test in milliseconds. *)
Lemma duration_over_5s now start :
  (5 < duration now start)%Q <-> 5000 < now - start.
Proof.
  unfold duration, Qlt, Qdiv, Qmult, Qinv, inject_Z. simpl. lia.
Qed.

(** The test of the cleanup, in milliseconds. *)
Lemma gt_duration now start :
  gt (duration now start) 5 = (5000 <? now - start).
Proof.
  rewrite gt_dec. destruct (Qlt_le_dec 5 (duration now start)) as [H|H].
  - apply duration_over_5s in H. symmetry. now apply Z.ltb_lt.
  - symmetry. apply Z.ltb_ge. apply Z.le_ngt. intros L.
    apply duration_over_5s in L. exact (Qlt_not_le _ _ L H).
Qed.

(** ** Projections of the closed forms *)

Lemma scrolled_refs h s :
  refs (scrolled h s)
  = set_hasTrackedScroll (hasTrackedScroll (refs s) || fires s) (refs s).
Proof.
  unfold scrolled. destruct (fires s) eqn:F; simpl.
  - rewrite tracked_refs, orb_true_r. reflexivity.
  - rewrite orb_false_r. now destruct (refs s).
Qed.

Lemma scrolled_actions h s :
  actions (trace (host (scrolled h s)))
  = (actions (trace (host s))
       ++ if fires s
          then [Sent (eventData (scroll_name (h_screenName h))
                        (h_lineProfile h) (clock (host s)))]
          else [])%list.
Proof.
  unfold scrolled. destruct (fires s); simpl.
  - now rewrite tracked_actions.
  - now rewrite app_nil_r.
Qed.

Lemma scrolled_clock h s : clock (host (scrolled h s)) = clock (host s).
Proof. unfold scrolled. destruct (fires s); simpl; now autorewrite with tracker. Qed.

Lemma scrolled_metrics h s : metrics (host (scrolled h s)) = metrics (host s).
Proof. unfold scrolled. destruct (fires s); simpl; now autorewrite with tracker. Qed.

Lemma scrolled_listeners h s :
  listeners (host (scrolled h s)) = listeners (host s).
Proof. unfold scrolled. destruct (fires s); simpl; now autorewrite with tracker. Qed.

Lemma scrolled_allocated h s :
  allocated (host (scrolled h s)) = allocated (host s).
Proof. unfold scrolled. destruct (fires s); simpl; now autorewrite with tracker. Qed.

#[global] Hint Rewrite scrolled_refs scrolled_actions scrolled_clock
  scrolled_metrics scrolled_listeners scrolled_allocated : tracker.

Lemma detach_refs k s : refs (detach k s) = refs s.
Proof. unfold detach. now destruct (currentRef k). Qed.

Lemma detach_clock k s : clock (host (detach k s)) = clock (host s).
Proof. unfold detach. now destruct (currentRef k). Qed.

Lemma torn_refs k s :
  refs (torn k s) = set_hasTrackedViewDuration true (refs s).
Proof.
  unfold torn. rewrite detach_refs.
  destruct (hasTrackedViewDuration (refs s)) eqn:E.
  - rewrite detach_refs. destruct (refs s); simpl in *. now subst.
  - destruct (gt _ _); simpl; now rewrite ?tracked_refs, detach_refs.
Qed.

Lemma torn_clock k s : clock (host (torn k s)) = clock (host s).
Proof.
  unfold torn. destruct (hasTrackedViewDuration _); [apply detach_clock|].
  destruct (gt _ _); simpl; now rewrite ?tracked_clock, detach_clock.
Qed.

Lemma torn_metrics k s : metrics (host (torn k s)) = metrics (host s).
Proof.
  assert (D : metrics (host (detach k s)) = metrics (host s))
    by (unfold detach; now destruct (currentRef k)).
  unfold torn. destruct (hasTrackedViewDuration _); [exact D|].
  destruct (gt _ _); simpl; now rewrite ?tracked_metrics.
Qed.

Lemma torn_allocated k s : allocated (host (torn k s)) = allocated (host s).
Proof.
  assert (D : allocated (host (detach k s)) = allocated (host s))
    by (unfold detach; now destruct (currentRef k)).
  unfold torn. destruct (hasTrackedViewDuration _); [exact D|].
  destruct (gt _ _); simpl; now rewrite ?tracked_allocated.
Qed.

Lemma torn_listeners k s :
  listeners (host (torn k s))
  = match currentRef k with
    | Some _ => filter (fun x => negb (same_function (handler k) x))
                  (listeners (host s))
    | None => listeners (host s)
    end.
Proof.
  assert (D : listeners (host (detach k s))
              = match currentRef k with
                | Some _ => filter (fun x => negb (same_function (handler k) x))
                              (listeners (host s))
                | None => listeners (host s)
                end)
    by (unfold detach; now destruct (currentRef k)).
  unfold torn. destruct (hasTrackedViewDuration _); [exact D|].
  destruct (gt _ _); simpl; now rewrite ?tracked_listeners.
Qed.

Lemma torn_actions k s :
  actions (trace (host (torn k s)))
  = (actions (trace (host s))
       ++ match currentRef k with
          | Some _ => [Detached (handlerId (handler k))]
          | None => []
          end
       ++ if reports s
          then [Sent (eventData (duration_name (h_screenName (handler k)))
                        (h_lineProfile (handler k)) (clock (host s)))]
          else [])%list.
Proof.
  assert (D : actions (trace (host (detach k s)))
              = (actions (trace (host s))
                   ++ match currentRef k with
                      | Some _ => [Detached (handlerId (handler k))]
                      | None => []
                      end)%list).
  { unfold detach. destruct (currentRef k); simpl.
    - now rewrite actions_app.
    - now rewrite app_nil_r. }
  unfold torn, reports. rewrite detach_refs, detach_clock.
  destruct (hasTrackedViewDuration (refs s)); simpl.
  - now rewrite D, app_nil_r.
  - destruct (gt _ _); simpl.
    + now rewrite tracked_actions, D, detach_clock, <- app_assoc.
    + now rewrite D, app_nil_r.
Qed.

#[global] Hint Rewrite torn_refs torn_clock torn_metrics torn_allocated
  torn_listeners torn_actions : tracker.

(** ** The effect in closed form *)

Lemma effect_eq S P s :
  effect S P s = (Normal (closure S P s), effected S P s).
Proof.
  unfold effect, effected, closure, new_function, bind, get, ret, new_handler,
    addEventListener, modify.
  destruct P as [o|]; simpl.
  - rewrite detached_trackEvent; simpl.
    rewrite tracked_refs, tracked_allocated.
    destruct (mainRef (refs s)) as [[]|]; reflexivity.
  - destruct (mainRef (refs s)) as [[]|]; reflexivity.
Qed.

Lemma effected_refs S P s : refs (effected S P s) = refs s.
Proof.
  unfold effected. destruct P; simpl; rewrite ?tracked_refs;
    destruct (mainRef (refs s)); simpl; now rewrite ?tracked_refs.
Qed.

Lemma effected_clock S P s : clock (host (effected S P s)) = clock (host s).
Proof.
  unfold effected. destruct P; simpl; rewrite ?tracked_refs;
    destruct (mainRef (refs s)); simpl; now rewrite ?tracked_clock.
Qed.

Lemma effected_metrics S P s : metrics (host (effected S P s)) = metrics (host s).
Proof.
  unfold effected. destruct P; simpl; rewrite ?tracked_refs;
    destruct (mainRef (refs s)); simpl; now rewrite ?tracked_metrics.
Qed.

Lemma effected_allocated S P s :
  allocated (host (effected S P s)) = Datatypes.S (allocated (host s)).
Proof.
  unfold effected. destruct P; simpl; rewrite ?tracked_refs;
    destruct (mainRef (refs s)); simpl; now rewrite ?tracked_allocated.
Qed.

Lemma effected_listeners S P s :
  listeners (host (effected S P s))
  = match mainRef (refs s) with
    | Some _ =>
        if existsb (same_function (new_function S P s)) (listeners (host s))
        then listeners (host s)
        else (listeners (host s) ++ [new_function S P s])%list
    | None => listeners (host s)
    end.
Proof.
  unfold effected. destruct P; simpl; rewrite ?tracked_refs;
    destruct (mainRef (refs s)); simpl; now rewrite ?tracked_listeners.
Qed.

Lemma effected_actions S P s :
  actions (trace (host (effected S P s)))
  = (actions (trace (host s))
       ++ match P with
          | Some _ => [Sent (eventData (view_name S) P (clock (host s)))]
          | None => []
          end
       ++ match mainRef (refs s) with
          | Some _ => [Attached (allocated (host s))]
          | None => []
          end)%list.
Proof.
  unfold effected. destruct P; simpl; rewrite ?tracked_refs;
    destruct (mainRef (refs s)); simpl;
    rewrite ?actions_app, ?tracked_actions; simpl;
    now rewrite <- ?app_assoc, ?app_nil_r.
Qed.

#[global] Hint Rewrite effected_refs effected_clock effected_metrics
  effected_allocated effected_listeners effected_actions : tracker.

(** ** The life cycle in closed form *)

Lemma mount_eq t p bound h :
  mount t p bound h
  = (Normal {| deps := p;
               destroy := closure (screenName p) (lineProfile p)
                            (committed t bound h) |},
     effected (screenName p) (lineProfile p) (committed t bound h)).
Proof.
  destruct p as [S P]. unfold mount, bind, ret. simpl.
  fold (committed t bound h). now rewrite effect_eq.
Qed.

Lemma mount_wired t p bound h :
  wired {| deps := p;
           destroy := closure (screenName p) (lineProfile p)
                        (committed t bound h) |}
        (effected (screenName p) (lineProfile p) (committed t bound h)).
Proof.
  unfold wired. autorewrite with tracker. simpl.
  destruct bound; simpl; repeat split; try reflexivity; lia.
Qed.

Lemma same_function_refl h : same_function h h = true.
Proof. apply Nat.eqb_refl. Qed.

Lemma scroll_eq f t m s :
  wired f s ->
  scroll t m s = (Normal tt, scrolled (handler (destroy f)) (observed t m s)).
Proof.
  intros (_ & L & _). unfold scroll, bind, get, modify. simpl.
  fold (observed t m s). rewrite L.
  destruct (mainRef (refs s)) eqn:E; simpl.
  - unfold bind. now rewrite handleScroll_eq.
  - unfold scrolled, fires. simpl. now rewrite E.
Qed.

Lemma scroll_wired f t m s :
  wired f s -> wired f (scrolled (handler (destroy f)) (observed t m s)).
Proof.
  intros (C & L & N). unfold wired. autorewrite with tracker. simpl.
  repeat split; tauto.
Qed.

Lemma at_time_wired f t s : wired f s -> wired f (at_time t s).
Proof. unfold wired. simpl. tauto. Qed.

Lemma rerender_eq t p f s :
  rerender t p f s
  = if same_deps (deps f) p then (Normal f, at_time t s)
    else
      let s1 := torn (destroy f) (at_time t s) in
      (Normal {| deps := p;
                 destroy := closure (screenName p) (lineProfile p) s1 |},
       effected (screenName p) (lineProfile p) s1).
Proof.
  destruct p as [S P]. unfold rerender, bind, get, modify, ret. simpl.
  fold (at_time t s).
  destruct (same_deps (deps f) _); [reflexivity|].
  now rewrite cleanup_eq, effect_eq.
Qed.

Lemma filter_out_self h :
  filter (fun x => negb (same_function h x)) [h] = [].
Proof. simpl. now rewrite same_function_refl. Qed.

Lemma rerender_wired t p f s :
  wired f s ->
  forall f' s', rerender t p f s = (Normal f', s') -> wired f' s'.
Proof.
  intros (C & L & N) f' s'. rewrite rerender_eq.
  destruct (same_deps (deps f) p); simpl; intros E; inversion E; subst.
  - unfold wired. simpl. tauto.
  - unfold wired, closure. simpl. autorewrite with tracker. simpl.
    rewrite C, L.
    destruct (mainRef (refs s)); simpl; rewrite ?same_function_refl; simpl;
      repeat split; try reflexivity; lia.
Qed.

Lemma unmount_eq t f s :
  unmount t f s
  = (Normal tt, torn (destroy f) (with_refs (set_mainRef None) (at_time t s))).
Proof.
  unfold unmount, bind, modify. simpl. now rewrite cleanup_eq.
Qed.

Lemma dispatch_eq hs s :
  dispatch hs s = (Normal tt, fold_left (fun s h => scrolled h s) hs s).
Proof.
  revert s. induction hs as [|h hs IH]; intros s; simpl; [reflexivity|].
  unfold bind. now rewrite handleScroll_eq, IH.
Qed.

Lemma scroll_total t m s : scroll t m s = (Normal tt, settled t m s).
Proof.
  unfold scroll, settled, bind, get, modify. simpl.
  fold (observed t m s). now rewrite dispatch_eq.
Qed.

Lemma step_total e f s : exists f' s', step e f s = (Normal f', s').
Proof.
  destruct e as [t p|t m]; simpl.
  - rewrite rerender_eq. destruct (same_deps _ _); eauto.
  - unfold bind, ret. rewrite scroll_total. eauto.
Qed.

Lemma run_total evs : forall f s, exists f' s', run evs f s = (Normal f', s').
Proof.
  induction evs as [|e evs IH]; intros f s; simpl.
  - unfold ret. eauto.
  - unfold bind. destruct (step_total e f s) as (f1 & s1 & E). rewrite E.
    apply IH.
Qed.

(** ** How the cells of one instance may change *)

Lemma le_refl b : Bool.le b b.
Proof. now destruct b. Qed.

Lemma le_trans a b c : Bool.le a b -> Bool.le b c -> Bool.le a c.
Proof. destruct a, b, c; simpl; congruence. Qed.

Lemma evolves_refl r : evolves r r.
Proof. unfold evolves. auto using le_refl. Qed.

Lemma evolves_trans a b c : evolves a b -> evolves b c -> evolves a c.
Proof.
  unfold evolves. intros (V1 & S1 & D1) (V2 & S2 & D2).
  repeat split; [congruence | eapply le_trans | eapply le_trans]; eassumption.
Qed.

Lemma scrolled_evolves h s : evolves (refs s) (refs (scrolled h s)).
Proof.
  rewrite scrolled_refs. unfold evolves. simpl.
  repeat split; [|apply le_refl].
  destruct (hasTrackedScroll (refs s)); simpl; auto.
Qed.

Lemma torn_evolves k s : evolves (refs s) (refs (torn k s)).
Proof.
  rewrite torn_refs. unfold evolves. simpl.
  repeat split; [apply le_refl|].
  destruct (hasTrackedViewDuration (refs s)); simpl; auto.
Qed.

Lemma settled_evolves t m s : evolves (refs s) (refs (settled t m s)).
Proof.
  unfold settled.
  assert (G : forall hs x, evolves (refs x)
                (refs (fold_left (fun s h => scrolled h s) hs x))).
  { induction hs as [|h hs IH]; intros x; simpl; [apply evolves_refl|].
    eapply evolves_trans; [apply scrolled_evolves | apply IH]. }
  exact (G _ (observed t m s)).
Qed.

Lemma step_evolves e f s : evolves (refs s) (refs (snd (step e f s))).
Proof.
  destruct e as [t p|t m]; simpl.
  - rewrite rerender_eq. destruct (same_deps _ _); simpl.
    + apply evolves_refl.
    + rewrite effected_refs.
      exact (torn_evolves (destroy f) (at_time t s)).
  - unfold bind, ret. rewrite scroll_total. simpl. apply settled_evolves.
Qed.

Lemma run_evolves evs : forall f s, evolves (refs s) (refs (snd (run evs f s))).
Proof.
  induction evs as [|e evs IH]; intros f s; simpl.
  - apply evolves_refl.
  - unfold bind. destruct (step_total e f s) as (f1 & s1 & E).
    pose proof (step_evolves e f s) as H1. rewrite E in *. simpl in H1.
    eapply evolves_trans; [exact H1 | apply IH].
Qed.

(** ** A run of events that leaves the dependencies alone *)

Lemma fires_observed t m s : fires (observed t m s) = armed s && triggers m.
Proof.
  unfold fires, armed, triggers. simpl.
  destruct (mainRef (refs s)); [|reflexivity]. now rewrite andb_assoc.
Qed.

Lemma first_trigger_exists evs :
  existsb triggering evs
  = match first_trigger evs with Some _ => true | None => false end.
Proof.
  induction evs as [|[t p|t m] evs IH]; simpl; auto.
  destruct (triggers m); simpl; auto.
Qed.

Lemma set_hasTrackedScroll_same r b :
  b = hasTrackedScroll r -> set_hasTrackedScroll b r = r.
Proof. intros ->. now destruct r. Qed.

Lemma run_stable evs : forall f s,
  wired f s ->
  Forall (stays f) evs ->
  exists s',
    run evs f s = (Normal f, s')
    /\ wired f s'
    /\ refs s'
       = set_hasTrackedScroll
           (hasTrackedScroll (refs s) || armed s && existsb triggering evs)
           (refs s)
    /\ allocated (host s') = allocated (host s)
    /\ actions (trace (host s'))
       = (actions (trace (host s))
            ++ if armed s
               then match first_trigger evs with
                    | Some t =>
                        [Sent (eventData (scroll_name (screenName (deps f)))
                                 (lineProfile (deps f)) t)]
                    | None => []
                    end
               else [])%list.
Proof.
  induction evs as [|[t p|t m] evs IH]; intros f s W St.
  - exists s. simpl. unfold ret. repeat split; try apply W.
    + rewrite andb_false_r, orb_false_r. now destruct (refs s).
    + destruct (armed s); now rewrite app_nil_r.
  - inversion St as [|? ? Hs St']; subst. simpl in Hs.
    simpl. unfold bind. rewrite rerender_eq, Hs.
    destruct (IH f _ (at_time_wired f t s W) St')
      as (s' & R & W' & Rf & Al & Ac).
    exists s'. split; [exact R|]. split; [exact W'|].
    split; [exact Rf|]. split; [exact Al|exact Ac].
  - inversion St as [|? ? _ St']; subst.
    simpl. unfold bind, ret. rewrite (scroll_eq f t m s W).
    pose proof (scroll_wired f t m s W) as W1.
    destruct (IH f _ W1 St') as (s' & R & W' & Rf & Al & Ac).
    exists s'. rewrite R. split; [reflexivity|]. split; [exact W'|].
    destruct W as (_ & _ & NS & NP & _).
    assert (A1 : armed (scrolled (handler (destroy f)) (observed t m s))
                 = armed s && negb (triggers m)).
    { unfold armed at 1. rewrite scrolled_refs, fires_observed. simpl.
      unfold armed. destruct (mainRef (refs s)); [|reflexivity].
      destruct (hasTrackedScroll (refs s)), (triggers m); reflexivity. }
    rewrite A1 in *.
    rewrite Rf, Al, Ac. autorewrite with tracker. rewrite fires_observed.
    simpl. rewrite NS, NP.
    destruct (armed s) eqn:A, (triggers m) eqn:T; simpl;
      rewrite <- ?app_assoc, ?app_nil_r, ?orb_false_r, ?orb_true_r;
      repeat split; try reflexivity.
    all: unfold armed in A; destruct (refs s) as [v d sc mr]; simpl in *;
      destruct mr, sc; simpl in *; try discriminate; reflexivity.
Qed.

Lemma notifications_stay f ns : Forall (stays f) (notifications ns).
Proof. induction ns; simpl; constructor; simpl; auto. Qed.

Lemma notifications_triggering ns :
  existsb triggering (notifications ns)
  = existsb (fun n => triggers (snd n)) ns.
Proof. induction ns as [|n ns IH]; simpl; now rewrite ?IH. Qed.

Lemma run_wired evs : forall f s,
  wired f s ->
  exists f' s',
    run evs f s = (Normal f', s')
    /\ wired f' s'
    /\ mainRef (refs s') = mainRef (refs s).
Proof.
  induction evs as [|[t p|t m] evs IH]; intros f s W; simpl.
  - exists f, s. unfold ret. auto.
  - unfold bind.
    destruct (rerender t p f s) as [[f1|e] s1] eqn:E.
    + pose proof (rerender_wired t p f s W f1 s1 E) as W1.
      destruct (IH f1 s1 W1) as (f' & s' & R & W' & M').
      exists f', s'. split; [exact R|]. split; [exact W'|].
      rewrite M'. rewrite rerender_eq in E.
      destruct (same_deps _ _); inversion E; subst; simpl;
        autorewrite with tracker; reflexivity.
    + rewrite rerender_eq in E. destruct (same_deps _ _); discriminate.
  - unfold bind, ret. rewrite (scroll_eq f t m s W).
    destruct (IH f _ (scroll_wired f t m s W)) as (f' & s' & R & W' & M').
    exists f', s'. split; [exact R|]. split; [exact W'|].
    rewrite M'. now autorewrite with tracker.
Qed.

Lemma records_of_actions tr tr' l :
  actions tr' = (actions tr ++ l)%list ->
  records tr' = (records tr ++ sent l)%list.
Proof. unfold records, sent. intros ->. apply flat_map_app. Qed.

Lemma emitted_of_actions tr tr' l :
  actions tr' = (actions tr ++ l)%list ->
  emitted tr' = (emitted tr ++ map eventName (sent l))%list.
Proof.
  intros H. unfold emitted. rewrite (records_of_actions _ _ _ H).
  apply map_app.
Qed.

(** ** Scroll depth *)

Lemma triggers_scrollable m :
  (0 < scrollableRange m)%Q -> triggers m = over70 (0, m).
Proof.
  intros H. apply no_scrollbar_iff in H. unfold triggers, over70.
  rewrite H. simpl. apply gt_dec.
Qed.

Lemma triggers_no_scrollbar m :
  (scrollHeight m <= clientHeight m)%Q -> triggers m = false.
Proof.
  intros H. apply Qle_bool_iff in H. unfold triggers. now rewrite H.
Qed.

Lemma existsb_over70 ns :
  Forall (fun n => (0 < scrollableRange (snd n))%Q) ns ->
  existsb (fun n => triggers (snd n)) ns = existsb over70 ns.
Proof.
  induction 1 as [|n ns H _ IH]; simpl; [reflexivity|].
  rewrite IH, (triggers_scrollable _ H). reflexivity.
Qed.

Lemma Forall_firstn {A} (P : A -> Prop) k l :
  Forall P l -> Forall P (firstn k l).
Proof.
  intros H. revert k. induction H; intros [|k]; simpl; constructor; auto.
Qed.

Lemma armed_mount t p bound h :
  armed (effected (screenName p) (lineProfile p) (committed t bound h)) = bound.
Proof. unfold armed. rewrite effected_refs. now destruct bound. Qed.

(** C1: on a screen whose scrollable range is positive at every
    notification, after the first [k] scroll notifications (for every [k]) the
    event [scroll_depth_over_70%_on_<screenName>] has been emitted exactly once
    if one of these [k] notifications showed a scroll percentage
    [scrollTop / (scrollHeight - clientHeight) * 100] strictly above 70 (the
    [percentage] of the specification, computed on numbers) and not at all
    otherwise, and the scroll-reported flag tells which.  So the event leaves
    at the first notification above 70, the flag is true from then on, and no
    later notification emits anything.  ([bound]: the screen attached the
    returned handle to its node, as every screen of the application does;
    without a node nothing is ever emitted.) *)
Theorem scroll_depth_reported_once :
  forall t0 p bound h ns k,
    Forall (fun n => (0 < scrollableRange (snd n))%Q) ns ->
    exists f0 s0 s,
      mount t0 p bound h = (Normal f0, s0)
      /\ run (notifications (firstn k ns)) f0 s0 = (Normal f0, s)
      /\ emitted (trace (host s))
         = (emitted (trace (host s0))
              ++ if bound && existsb over70 (firstn k ns)
                 then [scroll_name (screenName p)]
                 else [])%list
      /\ hasTrackedScroll (refs s) = bound && existsb over70 (firstn k ns).
Proof.
  intros t0 p bound h ns k Pos.
  rewrite mount_eq.
  destruct (run_stable (notifications (firstn k ns)) _ _
              (mount_wired t0 p bound h) (notifications_stay _ _))
    as (s & R & _ & Rf & _ & Ac).
  do 3 eexists. split; [reflexivity|]. split; [exact R|].
  pose proof (first_trigger_exists (notifications (firstn k ns))) as FT.
  rewrite armed_mount in Rf, Ac.
  rewrite notifications_triggering, existsb_over70 in Rf, FT
    by (apply Forall_firstn; exact Pos).
  split.
  - rewrite (emitted_of_actions _ _ _ Ac). f_equal. rewrite FT.
    destruct bound; simpl; [|reflexivity].
    destruct (first_trigger _); reflexivity.
  - rewrite Rf. simpl. rewrite effected_refs. reflexivity.
Qed.

Lemma existsb_no_scrollbar (ns : list (Z * Metrics)) :
  Forall (fun n => (scrollHeight (snd n) <= clientHeight (snd n))%Q) ns ->
  existsb (fun n => triggers (snd n)) ns = false.
Proof.
  induction 1 as [|n ns H _ IH]; simpl; [reflexivity|].
  now rewrite IH, (triggers_no_scrollbar _ H).
Qed.

(** C4: on a screen whose node never overflows ([scrollHeight <=
    clientHeight] at every notification), no run of scroll notifications,
    whatever their number and their [scrollTop], emits anything, and the
    scroll-reported flag stays false. *)
Theorem no_scrollbar_no_scroll_event :
  forall t0 p bound h ns,
    Forall (fun n => (scrollHeight (snd n) <= clientHeight (snd n))%Q) ns ->
    exists f0 s0 s,
      mount t0 p bound h = (Normal f0, s0)
      /\ run (notifications ns) f0 s0 = (Normal f0, s)
      /\ emitted (trace (host s)) = emitted (trace (host s0))
      /\ hasTrackedScroll (refs s) = false.
Proof.
  intros t0 p bound h ns Fit.
  rewrite mount_eq.
  destruct (run_stable (notifications ns) _ _
              (mount_wired t0 p bound h) (notifications_stay _ _))
    as (s & R & _ & Rf & _ & Ac).
  do 3 eexists. split; [reflexivity|]. split; [exact R|].
  pose proof (first_trigger_exists (notifications ns)) as FT.
  rewrite notifications_triggering, (existsb_no_scrollbar _ Fit) in Rf, FT.
  split.
  - rewrite (emitted_of_actions _ _ _ Ac).
    destruct (first_trigger _); [discriminate|].
    destruct (armed _); simpl; now rewrite app_nil_r.
  - rewrite Rf. simpl. rewrite effected_refs, andb_false_r. reflexivity.
Qed.

(** ** Scroll depth over a whole life, renders included *)

Lemma scroll_events_of_actions tr tr' l :
  actions tr' = (actions tr ++ l)%list ->
  List.length (scroll_events tr')
  = (List.length (scroll_events tr)
     + List.length (filter is_scroll_event (map eventName (sent l))))%nat.
Proof.
  intros H. unfold scroll_events.
  now rewrite (emitted_of_actions _ _ _ H), filter_app, length_app.
Qed.

Lemma scroll_event_counted (b : bool) S P t :
  List.length
    (filter is_scroll_event
       (map eventName
          (sent (if b then [Sent (eventData (scroll_name S) P t)] else []))))
  = if b then 1%nat else 0%nat.
Proof. destruct b, S; reflexivity. Qed.

Lemma run_lifetime evs : forall f s,
  wired f s ->
  exists f' s',
    run evs f s = (Normal f', s')
    /\ wired f' s'
    /\ hasTrackedScroll (refs s')
       = hasTrackedScroll (refs s) || armed s && existsb triggering evs
    /\ List.length (scroll_events (trace (host s')))
       = (List.length (scroll_events (trace (host s)))
          + if armed s && existsb triggering evs then 1 else 0)%nat.
Proof.
  induction evs as [|[t p|t m] evs IH]; intros f s W.
  - exists f, s. simpl. unfold ret.
    rewrite andb_false_r, orb_false_r, Nat.add_0_r. auto.
  - simpl. unfold bind.
    destruct (rerender t p f s) as [[f1|e] s1] eqn:E;
      [|rewrite rerender_eq in E; destruct (same_deps _ _); discriminate].
    pose proof (rerender_wired t p f s W f1 s1 E) as W1.
    destruct (IH f1 s1 W1) as (f' & s' & R & W' & Fl & Ct).
    exists f', s'. split; [exact R|]. split; [exact W'|].
    rewrite rerender_eq in E.
    assert (Same : refs s1 = refs s \/
                   refs s1 = set_hasTrackedViewDuration true (refs s)).
    { destruct (same_deps _ _); inversion E; subst; simpl; [now left|].
      right. now autorewrite with tracker. }
    assert (A : armed s1 = armed s
                /\ hasTrackedScroll (refs s1) = hasTrackedScroll (refs s)).
    { unfold armed. destruct Same as [-> | ->]; simpl; auto. }
    assert (C : List.length (scroll_events (trace (host s1)))
                = List.length (scroll_events (trace (host s)))).
    { destruct (same_deps _ _); inversion E; subst; simpl; [reflexivity|].
      assert (X : exists l,
                 actions (trace (host (effected (screenName p) (lineProfile p)
                                         (torn (destroy f) (at_time t s)))))
                 = (actions (trace (host s)) ++ l)%list
                 /\ filter is_scroll_event (map eventName (sent l)) = []).
      { eexists. split.
        - autorewrite with tracker. simpl. rewrite <- app_assoc. reflexivity.
        - destruct (currentRef (destroy f)), (reports (at_time t s)),
            (lineProfile p), (mainRef (refs s)); reflexivity. }
      destruct X as (l & X & N).
      rewrite (scroll_events_of_actions _ _ _ X), N. simpl. lia. }
    destruct A as (A1 & A2). rewrite A1, A2, C in *. simpl. auto.
  - simpl. unfold bind, ret. rewrite (scroll_eq f t m s W).
    destruct (IH f _ (scroll_wired f t m s W)) as (f' & s' & R & W' & Fl & Ct).
    exists f', s'. split; [exact R|]. split; [exact W'|].
    assert (A1 : armed (scrolled (handler (destroy f)) (observed t m s))
                 = armed s && negb (triggers m)).
    { unfold armed at 1. rewrite scrolled_refs, fires_observed. simpl.
      unfold armed. destruct (mainRef (refs s)); [|reflexivity].
      destruct (hasTrackedScroll (refs s)), (triggers m); reflexivity. }
    rewrite A1 in *.
    rewrite (scroll_events_of_actions _ _ _
               (scrolled_actions (handler (destroy f)) (observed t m s)))
      in Ct.
    rewrite scrolled_refs, fires_observed in *. simpl in *.
    rewrite scroll_event_counted in Ct.
    rewrite Fl, Ct.
    destruct (armed s) eqn:A, (triggers m), (hasTrackedScroll (refs s));
      simpl; rewrite ?orb_false_r, ?orb_true_r, ?Nat.add_0_r;
      split; reflexivity.
Qed.

(** The same invariant over a whole life: after any run of renders
    (whatever props they bring) and scroll notifications, the instance has
    emitted one scroll-depth event if its flag is set and none otherwise, and
    the flag is set exactly when the node was bound and some notification
    passed both tests of [handleScroll]. *)
Theorem scroll_depth_once_in_a_lifetime :
  forall t0 p bound h evs,
    exists f0 s0 f s,
      mount t0 p bound h = (Normal f0, s0)
      /\ run evs f0 s0 = (Normal f, s)
      /\ hasTrackedScroll (refs s) = bound && existsb triggering evs
      /\ List.length (scroll_events (trace (host s)))
         = (List.length (scroll_events (trace h))
            + if hasTrackedScroll (refs s) then 1 else 0)%nat.
Proof.
  intros t0 p bound h evs. rewrite mount_eq.
  destruct (run_lifetime evs _ _ (mount_wired t0 p bound h))
    as (f & s & R & _ & Fl & Ct).
  rewrite armed_mount, effected_refs in *. simpl in Fl.
  do 2 eexists. exists f, s.
  split; [reflexivity|]. split; [exact R|]. split; [exact Fl|].
  rewrite Ct, Fl. f_equal.
  assert (X : exists l,
             actions (trace (host (effected (screenName p) (lineProfile p)
                                     (committed t0 bound h))))
             = (actions (trace h) ++ l)%list
             /\ filter is_scroll_event (map eventName (sent l)) = []).
  { eexists. split.
    - rewrite effected_actions. simpl. reflexivity.
    - destruct (lineProfile p), bound; reflexivity. }
  destruct X as (l & X & N).
  rewrite (scroll_events_of_actions _ _ _ X), N. simpl. lia.
Qed.

(** ** Teardown *)

Lemma unmount_spec t f s :
  exists s',
    unmount t f s = (Normal tt, s')
    /\ refs s' = set_hasTrackedViewDuration true (set_mainRef None (refs s))
    /\ listeners (host s')
       = match currentRef (destroy f) with
         | Some _ => filter (fun x => negb (same_function (handler (destroy f)) x))
                       (listeners (host s))
         | None => listeners (host s)
         end
    /\ actions (trace (host s'))
       = (actions (trace (host s))
            ++ match currentRef (destroy f) with
               | Some _ => [Detached (handlerId (handler (destroy f)))]
               | None => []
               end
            ++ if negb (hasTrackedViewDuration (refs s))
                  && gt (duration t (viewStartTime (refs s))) 5
               then [Sent (eventData
                             (duration_name (h_screenName (handler (destroy f))))
                             (h_lineProfile (handler (destroy f))) t)]
               else [])%list.
Proof.
  rewrite unmount_eq. eexists. split; [reflexivity|].
  autorewrite with tracker. unfold reports. simpl. auto.
Qed.

Lemma cleanup_spec k s :
  exists s',
    cleanup k s = (Normal tt, s')
    /\ emitted (trace (host s'))
       = (emitted (trace (host s))
            ++ if negb (hasTrackedViewDuration (refs s))
                  && if Qlt_le_dec 5 (duration (clock (host s))
                                        (viewStartTime (refs s)))
                     then true else false
               then [duration_name (h_screenName (handler k))]
               else [])%list
    /\ hasTrackedViewDuration (refs s') = true.
Proof.
  rewrite cleanup_eq. eexists. split; [reflexivity|]. split.
  - rewrite (emitted_of_actions _ _ _ (torn_actions k s)). f_equal.
    unfold reports. rewrite gt_dec.
    destruct (currentRef k), (hasTrackedViewDuration (refs s)),
      (Qlt_le_dec 5 _); reflexivity.
  - now rewrite torn_refs.
Qed.



(** ** The view event and the profile *)

(** C3, refuted as stated: the welcome screen mounts while the profile is
    still [null] (no view event), the profile arrives 40 ms later, the screen
    renders again and the same instance emits [view_welcome]. *)
Lemma view_event_after_late_profile :
  exists f0 s0 f1 s1,
    mount 0 {| screenName := "welcome"; lineProfile := None |} true quiet_host
    = (Normal f0, s0)
    /\ emitted (trace (host s0)) = []
    /\ run [Render 40 {| screenName := "welcome";
                         lineProfile := Some mockProfile |}] f0 s0
       = (Normal f1, s1)
    /\ viewStartTime (refs s1) = viewStartTime (refs s0)
    /\ emitted (trace (host s1)) = ["view_welcome"].
Proof.
  let r0 := eval vm_compute in
    (mount 0 {| screenName := "welcome"; lineProfile := None |} true
       quiet_host) in
  match r0 with
  | (Normal ?f0, ?s0) =>
      exists f0, s0;
      let r1 := eval vm_compute in
        (run [Render 40 {| screenName := "welcome";
                           lineProfile := Some mockProfile |}] f0 s0) in
      match r1 with
      | (Normal ?f1, ?s1) => exists f1, s1
      end
  end.
  repeat split; vm_compute; reflexivity.
Qed.

Lemma same_deps_refl p : same_deps p p = true.
Proof.
  unfold same_deps. rewrite String.eqb_refl. simpl.
  destruct (lineProfile p); simpl; [apply Nat.eqb_refl | reflexivity].
Qed.

Lemma unchanged_stays f evs :
  Forall (unchanged (deps f)) evs -> Forall (stays f) evs.
Proof.
  induction 1 as [|[t p|t m] evs H _ IH]; constructor; simpl in *; auto.
  subst. apply same_deps_refl.
Qed.

Lemma view_is_not_scroll S S' : view_name S <> scroll_name S'.
Proof. unfold view_name, scroll_name. simpl. discriminate. Qed.

(** C3, amended: an instance activated while the profile is [null] emits no
    view event at activation, and none as long as the props stay the same
    (scroll notifications and renders with the [null] profile); when a render
    brings a profile, the effect runs again and the instance emits
    [view_<screenName>] then, after what the teardown of the earlier run
    emits. *)
Theorem view_event_waits_for_profile :
  forall t0 S bound h evs t1 o,
    Forall (unchanged {| screenName := S; lineProfile := None |}) evs ->
    exists f0 s0 s1 f2 s2 sofar,
      mount t0 {| screenName := S; lineProfile := None |} bound h
      = (Normal f0, s0)
      /\ emitted (trace (host s0)) = emitted (trace h)
      /\ run evs f0 s0 = (Normal f0, s1)
      /\ emitted (trace (host s1)) = (emitted (trace h) ++ sofar)%list
      /\ ~ In (view_name S) sofar
      /\ rerender t1 {| screenName := S; lineProfile := Some o |} f0 s1
         = (Normal f2, s2)
      /\ emitted (trace (host s2))
         = (emitted (trace (host s1))
              ++ (if Qlt_le_dec 5 (duration t1 t0)
                  then [duration_name S] else [])
              ++ [view_name S])%list.
Proof.
  intros t0 S bound h evs t1 o Same.
  set (p := {| screenName := S; lineProfile := None |}) in *.
  rewrite mount_eq.
  set (f0 := {| deps := p;
                destroy := closure (screenName p) (lineProfile p)
                             (committed t0 bound h) |}).
  destruct (run_stable evs f0 _ (mount_wired t0 p bound h)
              (unchanged_stays f0 evs Same))
    as (s1 & R & _ & Rf & _ & Ac).
  rewrite effected_refs in Rf.
  assert (A0 : actions (trace (host (effected (screenName p) (lineProfile p)
                                       (committed t0 bound h))))
               = (actions (trace h)
                    ++ if bound then [Attached (allocated h)] else [])%list).
  { rewrite effected_actions. simpl. now destruct bound. }
  exists f0, (effected (screenName p) (lineProfile p) (committed t0 bound h)),
    s1.
  do 2 eexists.
  exists (map eventName
            (sent (if armed (effected (screenName p) (lineProfile p)
                               (committed t0 bound h))
                   then match first_trigger evs with
                        | Some t =>
                            [Sent (eventData (scroll_name S) None t)]
                        | None => []
                        end
                   else []))).
  split; [reflexivity|].
  split.
  { rewrite (emitted_of_actions _ _ _ A0).
    destruct bound; simpl; now rewrite app_nil_r. }
  split; [exact R|].
  split.
  { rewrite (emitted_of_actions _ _ _ Ac), (emitted_of_actions _ _ _ A0).
    simpl. destruct bound; simpl; now rewrite app_nil_r. }
  split.
  { destruct (armed _); simpl; [|tauto].
    destruct (first_trigger evs); simpl; [|tauto].
    intros [E|[]]. symmetry in E. exact (view_is_not_scroll _ _ E). }
  rewrite rerender_eq. simpl.
  replace (same_deps p {| screenName := S; lineProfile := Some o |})
    with false
    by (unfold same_deps; simpl; now rewrite andb_false_r).
  split; [reflexivity|].
  match goal with
  | |- emitted (trace (host ?x)) = _ =>
      assert (A2 : exists l, actions (trace (host x))
                             = (actions (trace (host s1)) ++ l)%list
                             /\ map eventName (sent l)
                                = ((if Qlt_le_dec 5 (duration t1 t0)
                                    then [duration_name S] else [])
                                   ++ [view_name S])%list)
  end.
  { eexists. split.
    - autorewrite with tracker. simpl. rewrite <- app_assoc. reflexivity.
    - unfold reports. simpl. rewrite Rf. simpl. rewrite gt_dec.
      destruct (Qlt_le_dec 5 (duration t1 t0)); destruct bound; reflexivity. }
  destruct A2 as (l & A2 & N2).
  now rewrite (emitted_of_actions _ _ _ A2), N2.
Qed.

(** ** The listener *)

Lemma listeners_wired f s :
  wired f s ->
  listeners (host s)
  = match mainRef (refs s) with
    | Some _ => [handler (destroy f)]
    | None => []
    end.
Proof. intros (_ & L & _). exact L. Qed.

(** C7: whatever happened to the instance since it was mounted (any renders,
    any scroll notifications), its teardown first removes the scroll listener
    from the node (the [Detached] action comes before the duration event, if
    any, and does not depend on the flags) and leaves no listener on the node.
    The same holds when the teardown runs because a dependency changed: the
    listener of the earlier run is on the node afterwards only if the props
    were the same, that is if no teardown took place. *)
Theorem listener_released_on_teardown :
  forall t0 p bound h evs t1 p',
    exists f0 s0 f1 s1 s2 f3 s3,
      mount t0 p bound h = (Normal f0, s0)
      /\ run evs f0 s0 = (Normal f1, s1)
      /\ listeners (host s1) = (if bound then [handler (destroy f1)] else [])
      /\ unmount t1 f1 s1 = (Normal tt, s2)
      /\ actions (trace (host s2))
         = (actions (trace (host s1))
              ++ (if bound
                  then [Detached (handlerId (handler (destroy f1)))]
                  else [])
              ++ if negb (hasTrackedViewDuration (refs s1))
                    && gt (duration t1 (viewStartTime (refs s1))) 5
                 then [Sent (eventData
                               (duration_name (screenName (deps f1)))
                               (lineProfile (deps f1)) t1)]
                 else [])%list
      /\ listeners (host s2) = []
      /\ rerender t1 p' f1 s1 = (Normal f3, s3)
      /\ existsb (same_function (handler (destroy f1))) (listeners (host s3))
         = bound && same_deps (deps f1) p'.
Proof.
  intros t0 p bound h evs t1 p'.
  rewrite mount_eq.
  destruct (run_wired evs _ _ (mount_wired t0 p bound h))
    as (f1 & s1 & R & W & MR).
  rewrite effected_refs in MR. simpl in MR.
  pose proof (listeners_wired _ _ W) as L. rewrite MR in L.
  destruct (unmount_spec t1 f1 s1) as (s2 & U & _ & L2 & Ac2).
  destruct W as (C & _ & NS & NP & Fr). rewrite MR in C.
  assert (RR : exists f3 s3,
             rerender t1 p' f1 s1 = (Normal f3, s3)
             /\ existsb (same_function (handler (destroy f1)))
                  (listeners (host s3))
                = bound && same_deps (deps f1) p').
  { rewrite rerender_eq.
    destruct (same_deps (deps f1) p'); simpl; do 2 eexists;
      (split; [reflexivity|]).
    - simpl. rewrite L. destruct bound; simpl; [|reflexivity].
      now rewrite same_function_refl.
    - autorewrite with tracker. simpl. rewrite C, L, MR.
      destruct bound; simpl; [|reflexivity].
      rewrite same_function_refl. simpl.
      unfold same_function, new_function. simpl. autorewrite with tracker.
      simpl. rewrite orb_false_r. apply Nat.eqb_neq. lia. }
  destruct RR as (f3 & s3 & RR & L3).
  do 2 eexists. exists f1, s1, s2, f3, s3.
  split; [reflexivity|]. split; [exact R|].
  split; [rewrite L; now destruct bound|].
  split; [exact U|].
  split; [rewrite Ac2, C, NS, NP; now destruct bound|].
  split; [|split; [exact RR | exact L3]].
  rewrite L2, C, L. destruct bound; simpl; [|reflexivity].
  now rewrite same_function_refl.
Qed.

(** ** Events sent without a profile *)

(** C9: with a [null] profile the instance still reports the scroll depth
    and the duration: mounted at [t0] (no view event), a notification above 70
    at [t] and a teardown more than five seconds after [t0] hand two records
    to the transport, whose three profile fields are the fallback literals. *)
Theorem events_without_profile :
  forall t0 S h t m t1,
    (0 < scrollableRange m)%Q ->
    (70 < scrollPercent m)%Q ->
    (5 < duration t1 t0)%Q ->
    exists f0 s0 s1 s2,
      mount t0 {| screenName := S; lineProfile := None |} true h
      = (Normal f0, s0)
      /\ records (trace (host s0)) = records (trace h)
      /\ scroll t m s0 = (Normal tt, s1)
      /\ unmount t1 f0 s1 = (Normal tt, s2)
      /\ records (trace (host s2))
         = (records (trace h)
              ++ [ {| eventName := scroll_name S;
                      eventTimestamp := JsDate.toISOString t;
                      prop1 := "Unknown"; prop2 := "N/A"; prop3 := "Unknown" |};
                   {| eventName := duration_name S;
                      eventTimestamp := JsDate.toISOString t1;
                      prop1 := "Unknown"; prop2 := "N/A"; prop3 := "Unknown" |}
                 ])%list.
Proof.
  intros t0 S h t m t1 Pos Over Long.
  set (p := {| screenName := S; lineProfile := None |}).
  rewrite mount_eq.
  set (f0 := {| deps := p;
                destroy := closure (screenName p) (lineProfile p)
                             (committed t0 true h) |}).
  set (s0 := effected (screenName p) (lineProfile p) (committed t0 true h)).
  pose proof (mount_wired t0 p true h) as W. fold f0 s0 in W.
  destruct (unmount_spec t1 f0 (scrolled (handler (destroy f0))
                                  (observed t m s0)))
    as (s2 & U & _ & _ & Ac2).
  exists f0, s0, (scrolled (handler (destroy f0)) (observed t m s0)), s2.
  assert (A0 : actions (trace (host s0))
               = (actions (trace h) ++ [Attached (allocated h)])%list).
  { unfold s0. rewrite effected_actions. reflexivity. }
  split; [reflexivity|].
  split; [rewrite (records_of_actions _ _ _ A0); simpl; now rewrite app_nil_r|].
  split; [exact (scroll_eq f0 t m s0 W)|].
  split; [exact U|].
  assert (F : fires (observed t m s0) = true).
  { rewrite fires_observed. unfold s0 at 1. rewrite armed_mount. simpl.
    rewrite (triggers_scrollable _ Pos). unfold over70. simpl.
    destruct (Qlt_le_dec 70 _) as [|Le]; [reflexivity|].
    exfalso. exact (Qlt_not_le _ _ Over Le). }
  assert (G : gt (duration t1 t0) 5 = true) by now apply gt_iff.
  revert Ac2. autorewrite with tracker. rewrite F. simpl. rewrite G.
  rewrite actions_app, <- !app_assoc. intros Ac2.
  rewrite (records_of_actions _ _ _ Ac2). reflexivity.
Qed.

(** ** The profile arrives while the screen is mounted *)

(** C10: an instance mounted at [t0] with a [null] profile and a bound
    node; at [t1] a render brings a profile.  The effect runs again: the
    teardown of the first run removes its listener, evaluates the duration
    against the time elapsed so far (reporting it, without profile, exactly
    when more than five seconds have passed, [5000 < t1 - t0] in
    milliseconds) and consumes the duration flag; then [view_<screenName>] is
    emitted with the profile and a new listener is attached.  At the final
    unmount only the listener is removed: no duration is evaluated, however
    long the instance lived.  (Scroll notifications may come in between.) *)
Theorem profile_arrival_reruns_effect :
  forall t0 S h ns1 t1 o ns2 t2,
    exists f0 s0 s1 f2 s2 s3 s4,
      mount t0 {| screenName := S; lineProfile := None |} true h
      = (Normal f0, s0)
      /\ run (notifications ns1) f0 s0 = (Normal f0, s1)
      /\ hasTrackedViewDuration (refs s1) = false
      /\ rerender t1 {| screenName := S; lineProfile := Some o |} f0 s1
         = (Normal f2, s2)
      /\ actions (trace (host s2))
         = (actions (trace (host s1))
              ++ [Detached (allocated h)]
              ++ (if 5000 <? t1 - t0
                  then [Sent (eventData (duration_name S) None t1)]
                  else [])
              ++ [Sent (eventData (view_name S) (Some o) t1);
                  Attached (Datatypes.S (allocated h))])%list
      /\ hasTrackedViewDuration (refs s2) = true
      /\ listeners (host s2)
         = [ {| handlerId := Datatypes.S (allocated h);
                h_screenName := S; h_lineProfile := Some o |} ]
      /\ run (notifications ns2) f2 s2 = (Normal f2, s3)
      /\ unmount t2 f2 s3 = (Normal tt, s4)
      /\ actions (trace (host s4))
         = (actions (trace (host s3))
              ++ [Detached (Datatypes.S (allocated h))])%list
      /\ listeners (host s4) = [].
Proof.
  intros t0 S h ns1 t1 o ns2 t2.
  set (p := {| screenName := S; lineProfile := None |}).
  set (p' := {| screenName := S; lineProfile := Some o |}).
  rewrite mount_eq.
  set (f0 := {| deps := p;
                destroy := closure (screenName p) (lineProfile p)
                             (committed t0 true h) |}).
  pose proof (mount_wired t0 p true h) as W0. fold f0 in W0.
  destruct (run_stable (notifications ns1) f0 _ W0 (notifications_stay _ _))
    as (s1 & R1 & W1 & Rf1 & Al1 & _).
  rewrite effected_refs in Rf1. rewrite effected_allocated in Al1.
  simpl in Al1.
  pose proof (listeners_wired _ _ W1) as L1.
  assert (M1 : mainRef (refs s1) = Some cardNode) by now rewrite Rf1.
  rewrite M1 in L1.
  set (f2 := {| deps := p';
                destroy := closure S (Some o)
                             (torn (destroy f0) (at_time t1 s1)) |}).
  set (s2 := effected S (Some o) (torn (destroy f0) (at_time t1 s1))).
  assert (RR : rerender t1 p' f0 s1 = (Normal f2, s2)).
  { rewrite rerender_eq.
    replace (same_deps (deps f0) p') with false
      by (unfold same_deps; simpl; now rewrite andb_false_r).
    reflexivity. }
  pose proof (rerender_wired t1 p' f0 s1 W1 f2 s2 RR) as W2.
  assert (Es : effected S (Some o) (torn (destroy f0) (at_time t1 s1)) = s2)
    by reflexivity.
  clearbody s2.
  assert (Rf2 : refs s2 = set_hasTrackedViewDuration true (refs s1)).
  { rewrite <- Es. now autorewrite with tracker. }
  assert (Al2 : allocated (host s2) = Datatypes.S (Datatypes.S (allocated h))).
  { rewrite <- Es. autorewrite with tracker. simpl. now rewrite Al1. }
  assert (Id2 : handlerId (handler (destroy f2)) = Datatypes.S (allocated h)).
  { simpl. autorewrite with tracker. simpl. exact Al1. }
  assert (H2 : handler (destroy f2)
               = {| handlerId := Datatypes.S (allocated h);
                    h_screenName := S; h_lineProfile := Some o |}).
  { unfold f2, closure, new_function. simpl. autorewrite with tracker.
    simpl. now rewrite Al1. }
  destruct (run_stable (notifications ns2) f2 _ W2 (notifications_stay _ _))
    as (s3 & R3 & W3 & Rf3 & _ & _).
  destruct (unmount_spec t2 f2 s3) as (s4 & U & _ & L4 & Ac4).
  pose proof (listeners_wired _ _ W3) as L3.
  destruct W3 as (Cr3 & _).
  assert (M3 : mainRef (refs s3) = Some cardNode)
    by (rewrite Rf3, Rf2; simpl; exact M1).
  rewrite M3 in *.
  exists f0. eexists. exists s1, f2, s2, s3, s4.
  split; [reflexivity|]. split; [exact R1|].
  split; [now rewrite Rf1|].
  split; [exact RR|].
  split.
  { rewrite <- Es. autorewrite with tracker. unfold reports. simpl.
    rewrite M1, Rf1. simpl. rewrite gt_duration.
    destruct (5000 <? t1 - t0); simpl;
      now rewrite Al1, <- ?app_assoc. }
  split; [now rewrite Rf2|].
  split.
  { rewrite (listeners_wired _ _ W2), Rf2, H2. simpl. now rewrite M1. }
  split; [exact R3|]. split; [exact U|].
  split.
  { rewrite Ac4, Cr3, Id2, Rf3, Rf2. simpl. now rewrite ?app_nil_r. }
  rewrite L4, Cr3, L3. apply filter_out_self.
Qed.

(** ** The transport *)

(** C5: whatever the event name, the profile and the way the host behaves
    ([JSON.stringify] throwing or not, [fetch] resolving with any status or
    rejecting), [trackEvent] completes normally: the promise it returns is
    never rejected.  A failure shows as one [console.error] after the record
    was logged, and nowhere else: calling [trackEvent] without awaiting it
    reports no unhandled rejection, the cells of the instance are untouched,
    the three callers inside the hook complete normally too, and the cells
    they leave behind are the same under any other failures. *)
Theorem trackEvent_never_rejects :
  forall name p s,
    let d := eventData name p (clock (host s)) in
    fst (trackEvent name p s) = Normal tt
    /\ trace (host (snd (trackEvent name p s)))
       = (trace (host s)
            ++ ConsoleLog d
            :: match stringifyThrows (host s) d with
               | Some e => [ConsoleError e]
               | None =>
                   Fetch (request d)
                   :: match network (host s) with
                      | Rejected e :: _ => [ConsoleError e]
                      | _ => []
                      end
               end)%list
    /\ detached (trackEvent name p) s = trackEvent name p s
    /\ refs (snd (trackEvent name p s)) = refs s
    /\ (forall h, fst (handleScroll h s) = Normal tt)
    /\ (forall k, fst (cleanup k s) = Normal tt)
    /\ (forall S P, exists k, fst (effect S P s) = Normal k)
    /\ (forall h throws net,
          refs (snd (handleScroll h (with_host (with_failures throws net) s)))
          = refs (snd (handleScroll h s)))
    /\ (forall k throws net,
          refs (snd (cleanup k (with_host (with_failures throws net) s)))
          = refs (snd (cleanup k s))).
Proof.
  intros name p s d. subst d.
  split; [now rewrite trackEvent_eq|].
  split; [rewrite trackEvent_eq; simpl; apply tracked_trace|].
  split; [now rewrite detached_trackEvent, trackEvent_eq|].
  split; [rewrite trackEvent_eq; simpl; apply tracked_refs|].
  split; [intros h; now rewrite handleScroll_eq|].
  split; [intros k; now rewrite cleanup_eq|].
  split; [intros S P; rewrite effect_eq; eexists; reflexivity|].
  split.
  - intros h throws net. rewrite !handleScroll_eq. simpl.
    now rewrite !scrolled_refs.
  - intros k throws net. rewrite !cleanup_eq. simpl.
    now rewrite !torn_refs.
Qed.

(** ** The timestamp read back

    What [pad] writes is read back digit by digit; the date [civil] gives
    is checked on every day of one era of 400 years, the other eras follow
    by the period of the calendar. *)

Lemma digit_value_digit z :
  Iso8601.digit_value (JsDate.digit z) = Some (z mod 10).
Proof.
  unfold JsDate.digit, Iso8601.digit_value.
  assert (B : 0 <= z mod 10 < 10) by (apply Z.mod_pos_bound; lia).
  rewrite nat_ascii_embedding by lia.
  replace (48 + Z.to_nat (z mod 10) - 48)%nat with (Z.to_nat (z mod 10))
    by lia.
  rewrite Z2Nat.id by lia.
  destruct (Nat.leb 48 _) eqn:E1; [|apply Nat.leb_gt in E1; lia].
  destruct (Nat.leb _ 57) eqn:E2; [reflexivity|apply Nat.leb_gt in E2; lia].
Qed.

Lemma digits_snoc k : forall acc s,
  Iso8601.digits (S k) acc s
  = match Iso8601.digits k acc s with
    | Some (a, r) => Iso8601.digits 1 a r
    | None => None
    end.
Proof.
  induction k as [|k IH]; intros acc s; [reflexivity|].
  destruct s as [|c rest]; [reflexivity|].
  change (Iso8601.digits (S (S k)) acc (String c rest))
    with (match Iso8601.digit_value c with
          | Some v => Iso8601.digits (S k) (10 * acc + v) rest
          | None => None
          end).
  change (Iso8601.digits (S k) acc (String c rest))
    with (match Iso8601.digit_value c with
          | Some v => Iso8601.digits k (10 * acc + v) rest
          | None => None
          end).
  destruct (Iso8601.digit_value c); [apply IH|reflexivity].
Qed.

Lemma append_assoc (a b c : string) : ((a ++ b) ++ c = a ++ (b ++ c))%string.
Proof. induction a as [|x a IH]; simpl; [reflexivity|]. now rewrite IH. Qed.

Lemma digits_pad k : forall z acc rest,
  0 <= z ->
  Iso8601.digits k acc (JsDate.pad k z ++ rest)
  = Some (acc * 10 ^ Z.of_nat k + z mod 10 ^ Z.of_nat k, rest).
Proof.
  induction k as [|k IH]; intros z acc rest Hz.
  - simpl. rewrite Z.mod_1_r. f_equal. f_equal. lia.
  - rewrite digits_snoc. cbn [JsDate.pad]. rewrite append_assoc.
    rewrite IH by (apply Z.div_pos; lia).
    cbn [append Iso8601.digits]. rewrite digit_value_digit.
    f_equal. f_equal.
    rewrite Nat2Z.inj_succ, Z.pow_succ_r by lia.
    rewrite (Z.rem_mul_r z 10 (10 ^ Z.of_nat k)) by lia. lia.
Qed.

Lemma digits_pad_small k z rest :
  0 <= z < 10 ^ Z.of_nat k ->
  Iso8601.digits k 0 (JsDate.pad k z ++ rest) = Some (z, rest).
Proof.
  intros H. rewrite digits_pad by lia. rewrite Z.mod_small by lia.
  reflexivity.
Qed.

Lemma era_days_ok_spec depth : forall lo x,
  era_days_ok depth lo = true ->
  lo <= x < lo + 2 ^ Z.of_nat depth -> x < 146097 ->
  era_day_ok x = true.
Proof.
  induction depth as [|d IH]; intros lo x H Hx Hb.
  - simpl in *. assert (x = lo) by lia. subst.
    destruct (lo <? 146097) eqn:E; [exact H|]. apply Z.ltb_ge in E. lia.
  - cbn [era_days_ok] in H. destruct (era_days_ok d lo) eqn:E; [|discriminate].
    rewrite Nat2Z.inj_succ, Z.pow_succ_r in Hx by lia.
    destruct (Z_lt_ge_dec x (lo + 2 ^ Z.of_nat d)).
    + apply (IH lo); [exact E|lia|exact Hb].
    + apply (IH (lo + 2 ^ Z.of_nat d)); [exact H|lia|exact Hb].
Qed.

Lemma era_checked : era_days_ok 18 0 = true.
Proof. vm_compute. reflexivity. Qed.

Lemma leap_period y e : Iso8601.leap (y + 400 * e) = Iso8601.leap y.
Proof.
  unfold Iso8601.leap.
  replace ((y + 400 * e) mod 4) with (y mod 4)
    by (replace (y + 400 * e) with (y + (100 * e) * 4) by lia;
        now rewrite Z.mod_add).
  replace ((y + 400 * e) mod 100) with (y mod 100)
    by (replace (y + 400 * e) with (y + (4 * e) * 100) by lia;
        now rewrite Z.mod_add).
  replace ((y + 400 * e) mod 400) with (y mod 400)
    by (replace (y + 400 * e) with (y + e * 400) by lia;
        now rewrite Z.mod_add).
  reflexivity.
Qed.

Lemma dayNumber_period y m d e :
  Iso8601.dayNumber (y + 400 * e) m d = Iso8601.dayNumber y m d + 146097 * e.
Proof.
  unfold Iso8601.dayNumber, Iso8601.daysBeforeMonth, Iso8601.daysBeforeYear.
  rewrite leap_period.
  replace ((y + 400 * e - 1969) / 4) with ((y - 1969) / 4 + 100 * e)
    by (replace (y + 400 * e - 1969) with (y - 1969 + (100 * e) * 4) by lia;
        now rewrite Z.div_add).
  replace ((y + 400 * e - 1901) / 100) with ((y - 1901) / 100 + 4 * e)
    by (replace (y + 400 * e - 1901) with (y - 1901 + (4 * e) * 100) by lia;
        now rewrite Z.div_add).
  replace ((y + 400 * e - 1601) / 400) with ((y - 1601) / 400 + e)
    by (replace (y + 400 * e - 1601) with (y - 1601 + e * 400) by lia;
        now rewrite Z.div_add).
  lia.
Qed.

Lemma daysInMonth_period y m e :
  Iso8601.daysInMonth (y + 400 * e) m = Iso8601.daysInMonth y m.
Proof. unfold Iso8601.daysInMonth. now rewrite leap_period. Qed.

(** The date [civil] gives is a date of the calendar, and the one of the
    day. *)
Lemma civil_dayNumber days :
  let '(y, m, d) := JsDate.civil days in
  1 <= m <= 12 /\ 1 <= d <= Iso8601.daysInMonth y m
  /\ Iso8601.dayNumber y m d = days
  /\ 400 * ((days + 719468) / 146097) <= y
     <= 400 * ((days + 719468) / 146097) + 400.
Proof.
  set (z := days + 719468). set (era := z / 146097).
  set (doe := z - era * 146097).
  assert (B : 0 <= doe < 146097).
  { unfold doe, era. pose proof (Z.mod_pos_bound z 146097 ltac:(lia)).
    rewrite Z.mod_eq in H by lia. lia. }
  pose proof (era_days_ok_spec 18 0 doe era_checked ltac:(simpl; lia)
                ltac:(lia)) as C.
  change (JsDate.civil days) with (civil_of_doe doe era).
  unfold era_day_ok in C. unfold civil_of_doe in *.
  set (yoe := (doe - doe / 1460 + doe / 36524 - doe / 146096) / 365) in *.
  set (doy := doe - (365 * yoe + yoe / 4 - yoe / 100)) in *.
  set (mp := (5 * doy + 2) / 153) in *.
  set (d := doy - (153 * mp + 2) / 5 + 1) in *.
  set (m := if mp <? 10 then mp + 3 else mp - 9) in *.
  set (c := if m <=? 2 then 1 else 0) in *.
  replace (yoe + 0 * 400 + c) with (yoe + c) in C by lia.
  replace (yoe + era * 400 + c) with (yoe + c + 400 * era) by lia.
  rewrite daysInMonth_period, dayNumber_period.
  repeat (apply andb_prop in C; destruct C as [C ?]).
  repeat match goal with
         | H : (_ <=? _) = true |- _ => apply Z.leb_le in H
         | H : (_ =? _) = true |- _ => apply Z.eqb_eq in H
         end.
  unfold doe in *. lia.
Qed.

Lemma year_digits s v r :
  Iso8601.digits 4 0 s = Some (v, r) -> Iso8601.year s = Some (v, r).
Proof.
  intros H. destruct s as [|c rest]; [discriminate|].
  unfold Iso8601.year, Iso8601.literal.
  destruct (Ascii.eqb "+" c) eqn:E1.
  { apply Ascii.eqb_eq in E1. subst c. discriminate. }
  destruct (Ascii.eqb "-" c) eqn:E2.
  { apply Ascii.eqb_eq in E2. subst c. discriminate. }
  exact H.
Qed.

Lemma year_of_year_string y rest :
  -1000000 < y < 1000000 ->
  Iso8601.year (JsDate.year_string y ++ rest) = Some (y, rest).
Proof.
  intros B. unfold JsDate.year_string.
  destruct ((0 <=? y) && (y <=? 9999)) eqn:E.
  - apply andb_prop in E. destruct E as [E1 E2].
    apply Z.leb_le in E1, E2.
    apply year_digits. apply digits_pad_small. simpl. lia.
  - destruct (y <? 0) eqn:N.
    + apply Z.ltb_lt in N. rewrite append_assoc.
      change ("-" ++ (JsDate.pad 6 (Z.abs y) ++ rest))
        with (String "-" (JsDate.pad 6 (Z.abs y) ++ rest)).
      unfold Iso8601.year. cbn [Iso8601.literal]. simpl Ascii.eqb.
      cbv iota. rewrite digits_pad_small by (simpl; lia).
      destruct (Z.abs y =? 0) eqn:Z0; [apply Z.eqb_eq in Z0; lia|].
      f_equal. f_equal. lia.
    + apply Z.ltb_ge in N. rewrite append_assoc.
      change ("+" ++ (JsDate.pad 6 (Z.abs y) ++ rest))
        with (String "+" (JsDate.pad 6 (Z.abs y) ++ rest)).
      unfold Iso8601.year. cbn [Iso8601.literal]. simpl Ascii.eqb.
      cbv iota. rewrite digits_pad_small by (simpl; lia).
      f_equal. f_equal. lia.
Qed.

Lemma literal_cons c s : Iso8601.literal c (String c s) = Some s.
Proof. unfold Iso8601.literal. now rewrite Ascii.eqb_refl. Qed.

(** Reading back the text [toISOString] writes gives the time. *)
Lemma parse_toISOString t :
  time_value t -> Iso8601.parse (JsDate.toISOString t) = Some t.
Proof.
  intros V. unfold time_value in V. unfold JsDate.toISOString.
  pose proof (civil_dayNumber (t / JsDate.msPerDay)) as C.
  destruct (JsDate.civil (t / JsDate.msPerDay)) as [[y m] d].
  destruct C as (Bm & Bd & Dn & By).
  unfold JsDate.msPerDay in *.
  set (ms := t mod 86400000).
  assert (Bms : 0 <= ms < 86400000) by (apply Z.mod_pos_bound; lia).
  assert (Bdays : -100000000 <= t / 86400000 <= 100000000).
  { split; [apply Z.div_le_lower_bound|apply Z.div_le_upper_bound]; lia. }
  assert (Bera : -690 <= (t / 86400000 + 719468) / 146097 <= 690).
  { split; [apply Z.div_le_lower_bound|apply Z.div_le_upper_bound]; lia. }
  assert (Bdim : Iso8601.daysInMonth y m <= 31).
  { unfold Iso8601.daysInMonth.
    destruct (m =? 2); [destruct (Iso8601.leap y); lia|].
    destruct (_ || _); lia. }
  assert (Bh : 0 <= ms / 3600000 < 24).
  { split; [apply Z.div_pos; lia|apply Z.div_lt_upper_bound; lia]. }
  pose proof (Z.mod_pos_bound (ms / 60000) 60 ltac:(lia)) as Bmi.
  pose proof (Z.mod_pos_bound (ms / 1000) 60 ltac:(lia)) as Bs.
  pose proof (Z.mod_pos_bound ms 1000 ltac:(lia)) as Bml.
  unfold Iso8601.parse.
  rewrite year_of_year_string by lia.
  repeat (cbn [Iso8601.then_ append];
          rewrite ?literal_cons;
          rewrite ?digits_pad_small by (simpl; lia)).
  rewrite String.eqb_refl.
  repeat match goal with
         | |- context [?a <=? ?b] =>
             let E := fresh in
             destruct (a <=? b) eqn:E; [|apply Z.leb_gt in E; lia]
         end.
  cbn [andb]. f_equal. unfold Iso8601.instant. rewrite Dn.
  pose proof (Z.div_mod t 86400000 ltac:(lia)) as Dt. fold ms in Dt.
  pose proof (Z.div_mod ms 3600000 ltac:(lia)) as D1.
  pose proof (Z.div_mod ms 60000 ltac:(lia)) as D2.
  pose proof (Z.div_mod ms 1000 ltac:(lia)) as D3.
  pose proof (Z.div_mod (ms / 60000) 60 ltac:(lia)) as D4.
  pose proof (Z.div_mod (ms / 1000) 60 ltac:(lia)) as D5.
  pose proof (Z.mod_pos_bound ms 3600000 ltac:(lia)).
  pose proof (Z.mod_pos_bound ms 60000 ltac:(lia)).
  assert (Q1 : ms / 60000 / 60 = ms / 3600000)
    by (rewrite Z.div_div by lia; reflexivity).
  assert (Q2 : ms / 1000 / 60 = ms / 60000)
    by (rewrite Z.div_div by lia; reflexivity).
  rewrite Q1 in D4. rewrite Q2 in D5. lia.
Qed.

(** ** The payload *)

Lemma build_eq name p s :
  build name p s = (Normal (eventData name p (clock (host s))), s).
Proof. reflexivity. Qed.

(** C6: for every event name, every profile (or [null]) and in every state
    of the host, building the record completes normally (the [Date] of
    [new Date()] is never the invalid one [toISOString] throws on, and [?.]
    reads a [null] profile as [undefined]) and changes nothing.  The record
    carries the name as given; a timestamp that reads, as a text of
    ISO 8601, as the current time (whenever this is a time value); and three
    profile fields, each one the profile's own value or, when the profile is
    [null] or lacks the field (or holds the empty string there), the literal
    ["Unknown"], ["N/A"], ["Unknown"].  [trackEvent] hands over exactly this
    record and completes normally. *)
Theorem eventData_fields :
  forall name p s,
    exists d,
      build name p s = (Normal d, s)
      /\ eventName d = name
      /\ (time_value (clock (host s)) ->
          Iso8601.parse (eventTimestamp d) = Some (clock (host s)))
      /\ prop1 d
         = match p with
           | Some {| displayName := Some v |} =>
               if (v =? "")%string then "Unknown" else v
           | _ => "Unknown"
           end
      /\ prop2 d
         = match p with
           | Some {| pictureUrl := Some v |} =>
               if (v =? "")%string then "N/A" else v
           | _ => "N/A"
           end
      /\ prop3 d
         = match p with
           | Some {| userId := Some v |} =>
               if (v =? "")%string then "Unknown" else v
           | _ => "Unknown"
           end
      /\ fst (trackEvent name p s) = Normal tt
      /\ records (trace (host (snd (trackEvent name p s))))
         = (records (trace (host s)) ++ [d])%list.
Proof.
  intros name p s. exists (eventData name p (clock (host s))).
  split; [apply build_eq|]. split; [reflexivity|].
  split; [intros V; exact (parse_toISOString _ V)|].
  split; [destruct p as [[i [dn|] pu uid]|]; reflexivity|].
  split; [destruct p as [[i dn [pu|] uid]|]; reflexivity|].
  split; [destruct p as [[i dn pu [uid|]]|]; reflexivity|].
  rewrite trackEvent_eq. simpl. split; [reflexivity|].
  exact (records_of_actions _ _ _ (tracked_actions name p s)).
Qed.

(** ** The cells of one instance *)

(** C8: the cells are created at mount with [viewStartTime] the time of the
    first render and both flags false; [handleScroll] changes at most
    [hasTrackedScroll] (it can only set it), the teardown changes only
    [hasTrackedViewDuration] (to true), the effect and [trackEvent] change no
    cell; over any run of renders and scroll notifications, and through the
    unmount, [viewStartTime] keeps its value and a flag that is true stays
    true. *)
Theorem tracker_state_frame :
  (forall t p bound h,
      refs (snd (mount t p bound h))
      = {| viewStartTime := t;
           hasTrackedViewDuration := false;
           hasTrackedScroll := false;
           mainRef := if bound then Some cardNode else None |})
  /\ (forall h s,
        refs (snd (handleScroll h s))
        = set_hasTrackedScroll (hasTrackedScroll (refs s) || fires s) (refs s))
  /\ (forall k s,
        refs (snd (cleanup k s)) = set_hasTrackedViewDuration true (refs s))
  /\ (forall S P s, refs (snd (effect S P s)) = refs s)
  /\ (forall name p s, refs (snd (trackEvent name p s)) = refs s)
  /\ (forall evs f s,
        viewStartTime (refs (snd (run evs f s))) = viewStartTime (refs s)
        /\ Bool.le (hasTrackedScroll (refs s))
             (hasTrackedScroll (refs (snd (run evs f s))))
        /\ Bool.le (hasTrackedViewDuration (refs s))
             (hasTrackedViewDuration (refs (snd (run evs f s)))))
  /\ (forall t f s,
        viewStartTime (refs (snd (unmount t f s))) = viewStartTime (refs s)
        /\ hasTrackedScroll (refs (snd (unmount t f s)))
           = hasTrackedScroll (refs s)
        /\ hasTrackedViewDuration (refs (snd (unmount t f s))) = true).
Proof.
  split; [intros; rewrite mount_eq; simpl; now rewrite effected_refs|].
  split; [intros; rewrite handleScroll_eq; apply scrolled_refs|].
  split; [intros; rewrite cleanup_eq; apply torn_refs|].
  split; [intros; rewrite effect_eq; apply effected_refs|].
  split; [intros; rewrite trackEvent_eq; apply tracked_refs|].
  split; [intros; apply run_evolves|].
  intros t f s. rewrite unmount_eq. simpl. rewrite torn_refs. simpl. auto.
Qed.

(* ================================================================== *)
(** * The properties on concrete runs *)

(** Three notifications at 20, 80 and 90 percent on the OTP screen, seen
    after the second one. *)
Lemma scroll_depth_reported_once_witness :
  Forall (fun n => (0 < scrollableRange (snd n))%Q) three_scrolls
  /\ exists f0 s0 s,
       mount 0 otp_screen true quiet_host = (Normal f0, s0)
       /\ run (notifications (firstn 2 three_scrolls)) f0 s0 = (Normal f0, s)
       /\ emitted (trace (host s))
          = (emitted (trace (host s0))
               ++ if true && existsb over70 (firstn 2 three_scrolls)
                  then [scroll_name (screenName otp_screen)]
                  else [])%list
       /\ hasTrackedScroll (refs s)
          = true && existsb over70 (firstn 2 three_scrolls).
Proof.
  assert (P : Forall (fun n => (0 < scrollableRange (snd n))%Q) three_scrolls)
    by (repeat constructor).
  split; [exact P|].
  exact (scroll_depth_reported_once 0 otp_screen true quiet_host
           three_scrolls 2 P).
Defined.

(** Two notifications on a node whose content fits. *)
Lemma no_scrollbar_no_scroll_event_witness :
  Forall (fun n => (scrollHeight (snd n) <= clientHeight (snd n))%Q)
    [(1000, fitting 300); (2000, fitting 999)]
  /\ exists f0 s0 s,
       mount 0 otp_screen true quiet_host = (Normal f0, s0)
       /\ run (notifications [(1000, fitting 300); (2000, fitting 999)]) f0 s0
          = (Normal f0, s)
       /\ emitted (trace (host s)) = emitted (trace (host s0))
       /\ hasTrackedScroll (refs s) = false.
Proof.
  assert (P : Forall (fun n => (scrollHeight (snd n) <= clientHeight (snd n))%Q)
                [(1000, fitting 300); (2000, fitting 999)])
    by (repeat constructor; unfold Qle; simpl; lia).
  split; [exact P|].
  exact (no_scrollbar_no_scroll_event 0 otp_screen true quiet_host _ P).
Defined.

(** The welcome screen: a scroll and a render without profile, then the
    profile at seven seconds. *)
Lemma view_event_waits_for_profile_witness :
  Forall (unchanged {| screenName := "welcome"; lineProfile := None |})
    [Scroll 1000 (scrolled_to 400); Render 2000 welcome_without_profile]
  /\ exists f0 s0 s1 f2 s2 sofar,
       mount 0 {| screenName := "welcome"; lineProfile := None |} true
         quiet_host
       = (Normal f0, s0)
       /\ emitted (trace (host s0)) = emitted (trace quiet_host)
       /\ run [Scroll 1000 (scrolled_to 400);
               Render 2000 welcome_without_profile] f0 s0
          = (Normal f0, s1)
       /\ emitted (trace (host s1)) = (emitted (trace quiet_host) ++ sofar)%list
       /\ ~ In (view_name "welcome") sofar
       /\ rerender 7000 {| screenName := "welcome";
                           lineProfile := Some mockProfile |} f0 s1
          = (Normal f2, s2)
       /\ emitted (trace (host s2))
          = (emitted (trace (host s1))
               ++ (if Qlt_le_dec 5 (duration 7000 0)
                   then [duration_name "welcome"] else [])
               ++ [view_name "welcome"])%list.
Proof.
  assert (P : Forall (unchanged {| screenName := "welcome";
                                   lineProfile := None |})
                [Scroll 1000 (scrolled_to 400);
                 Render 2000 welcome_without_profile])
    by (repeat constructor).
  split; [exact P|].
  exact (view_event_waits_for_profile 0 "welcome" true quiet_host _ 7000
           mockProfile P).
Defined.

(** The welcome screen without profile, scrolled to 80 percent at three
    seconds and left at six. *)
Lemma events_without_profile_witness :
  (0 < scrollableRange (scrolled_to 400))%Q
  /\ (70 < scrollPercent (scrolled_to 400))%Q
  /\ (5 < duration 6000 0)%Q
  /\ exists f0 s0 s1 s2,
       mount 0 {| screenName := "welcome"; lineProfile := None |} true
         quiet_host
       = (Normal f0, s0)
       /\ records (trace (host s0)) = records (trace quiet_host)
       /\ scroll 3000 (scrolled_to 400) s0 = (Normal tt, s1)
       /\ unmount 6000 f0 s1 = (Normal tt, s2)
       /\ records (trace (host s2))
          = (records (trace quiet_host)
               ++ [ {| eventName := scroll_name "welcome";
                       eventTimestamp := JsDate.toISOString 3000;
                       prop1 := "Unknown"; prop2 := "N/A";
                       prop3 := "Unknown" |};
                    {| eventName := duration_name "welcome";
                       eventTimestamp := JsDate.toISOString 6000;
                       prop1 := "Unknown"; prop2 := "N/A";
                       prop3 := "Unknown" |} ])%list.
Proof.
  assert (P1 : (0 < scrollableRange (scrolled_to 400))%Q) by reflexivity.
  assert (P2 : (70 < scrollPercent (scrolled_to 400))%Q) by reflexivity.
  assert (P3 : (5 < duration 6000 0)%Q) by reflexivity.
  repeat (split; [assumption|]).
  exact (events_without_profile 0 "welcome" quiet_host 3000 (scrolled_to 400)
           6000 P1 P2 P3).
Defined.

(** The two scenarios of the specification, and the built-in on known dates. *)

Example otp_screen_scrolled_and_left_after_6s :
  exists f0 s0 s1 s2,
    mount 0 otp_screen true quiet_host = (Normal f0, s0)
    /\ scroll 3000 (scrolled_to 400) s0 = (Normal tt, s1)
    /\ unmount 6000 f0 s1 = (Normal tt, s2)
    /\ emitted (trace (host s2))
       = ["view_otp_screen"; "scroll_depth_over_70%_on_otp_screen";
          "view_duration_over_5s_on_otp_screen"]
    /\ listeners (host s2) = [].
Proof.
  let r0 := eval vm_compute in (mount 0 otp_screen true quiet_host) in
  match r0 with
  | (Normal ?f0, ?s0) =>
      exists f0, s0;
      let r1 := eval vm_compute in (scroll 3000 (scrolled_to 400) s0) in
      match r1 with
      | (_, ?s1) =>
          exists s1;
          let r2 := eval vm_compute in (unmount 6000 f0 s1) in
          match r2 with
          | (_, ?s2) => exists s2
          end
      end
  end.
  repeat split; vm_compute; reflexivity.
Qed.

Example otp_screen_left_after_2s :
  exists f0 s0 s1,
    mount 0 otp_screen true
      (fresh_host 0 (fitting 0) (fun _ => None) []) = (Normal f0, s0)
    /\ unmount 2000 f0 s0 = (Normal tt, s1)
    /\ emitted (trace (host s1)) = ["view_otp_screen"].
Proof.
  let r0 := eval vm_compute in
    (mount 0 otp_screen true (fresh_host 0 (fitting 0) (fun _ => None) [])) in
  match r0 with
  | (Normal ?f0, ?s0) =>
      exists f0, s0;
      let r1 := eval vm_compute in (unmount 2000 f0 s0) in
      match r1 with
      | (_, ?s1) => exists s1
      end
  end.
  repeat split; vm_compute; reflexivity.
Qed.

(** The collector cannot be reached when the screen is mounted: the record
    is logged and requested, the listener attached, and the failure is
    logged once. *)
Example collector_unreachable :
  exists f0 s0,
    mount 0 otp_screen true
      (fresh_host 0 (scrolled_to 0) (fun _ => None)
         [Rejected (Js.mkError "TypeError" "Failed to fetch")])
    = (Normal f0, s0)
    /\ actions (trace (host s0))
       = [Sent (eventData "view_otp_screen" (Some mockProfile) 0);
          Attached 0]
    /\ filter (fun e => match e with
                        | ConsoleError _ | Fetch _ => true
                        | _ => false
                        end) (trace (host s0))
       = [Fetch (request (eventData "view_otp_screen" (Some mockProfile) 0));
          ConsoleError (Js.mkError "TypeError" "Failed to fetch")].
Proof.
  let r0 := eval vm_compute in
    (mount 0 otp_screen true
       (fresh_host 0 (scrolled_to 0) (fun _ => None)
          [Rejected (Js.mkError "TypeError" "Failed to fetch")])) in
  match r0 with
  | (Normal ?f0, ?s0) => exists f0, s0
  end.
  repeat split; vm_compute; reflexivity.
Qed.


(** The percentage is the one of the numbers.  The number [16.8] is
    [4728779608739021 / 2^48], a little above the decimal: on a range of 24
    pixels its exact percentage is above 70, the three operations give 70,
    and the notification reports nothing. *)
Example percentage_at_the_threshold :
  (Number.value (Number.read 16.8) == 4728779608739021 # 281474976710656)%Q
  /\ (70 < (4728779608739021 # 281474976710656) / (524 - 500) * 100)%Q
  /\ (percentage (4728779608739021 # 281474976710656) 524 500 == 70)%Q
  /\ (percentage 16.8 524 500 == 70)%Q
  /\ (70 < percentage 16.9 524 500)%Q
  /\ exists f0 s0 s1,
       mount 0 otp_screen true quiet_host = (Normal f0, s0)
       /\ run [Scroll 1000 {| scrollTop := 16.8; scrollHeight := 524;
                              clientHeight := 500 |}] f0 s0
          = (Normal f0, s1)
       /\ emitted (trace (host s1)) = ["view_otp_screen"]
       /\ hasTrackedScroll (refs s1) = false.
Proof.
  split; [vm_compute; reflexivity|]. split; [reflexivity|].
  split; [vm_compute; reflexivity|]. split; [vm_compute; reflexivity|].
  split; [vm_compute; reflexivity|].
  let r0 := eval vm_compute in (mount 0 otp_screen true quiet_host) in
  match r0 with
  | (Normal ?f0, ?s0) =>
      exists f0, s0;
      let r1 := eval vm_compute in
        (run [Scroll 1000 {| scrollTop := 16.8; scrollHeight := 524;
                             clientHeight := 500 |}] f0 s0) in
      match r1 with
      | (Normal _, ?s1) => exists s1
      end
  end.
  repeat split; vm_compute; reflexivity.
Qed.

Example timestamp_read :
  Iso8601.parse "2024-02-29T12:34:56.789Z" = Some 1709210096789
  /\ Iso8601.parse "2023-02-29T12:34:56.789Z" = None
  /\ Iso8601.parse "2024-02-29 12:34:56.789Z" = None
  /\ Iso8601.parse "1969-12-31T23:59:59.999Z" = Some (-1)
  /\ Iso8601.parse "+275760-09-13T00:00:00.000Z" = Some 8640000000000000.
Proof. repeat split; vm_compute; reflexivity. Qed.

Example toISOString_epoch :
  JsDate.toISOString 0 = "1970-01-01T00:00:00.000Z".
Proof. vm_compute. reflexivity. Qed.

Example toISOString_2023 :
  JsDate.toISOString 1700000000123 = "2023-11-14T22:13:20.123Z".
Proof. vm_compute. reflexivity. Qed.

Example toISOString_leap_day :
  JsDate.toISOString 1709210096789 = "2024-02-29T12:34:56.789Z".
Proof. vm_compute. reflexivity. Qed.

Example toISOString_before_epoch :
  JsDate.toISOString (-1) = "1969-12-31T23:59:59.999Z".
Proof. vm_compute. reflexivity. Qed.

(* ================================================================== *)
(** * The screens *)

(** ** White space in the names of privileges *)

Lemma underscore_is_no_space : is_space "_" = false.
Proof. reflexivity. Qed.

Lemma replace_runs_no_space b s : has_space (replace_runs b s) = false.
Proof.
  revert b. induction s as [|c s IH]; intros b; simpl; [reflexivity|].
  destruct (is_space c) eqn:E.
  - destruct b; simpl; now rewrite ?IH.
  - simpl. now rewrite E, IH.
Qed.

Lemma replace_runs_fixed s :
  has_space s = false -> forall b, replace_runs b s = s.
Proof.
  induction s as [|c s IH]; simpl; intros H b; [reflexivity|].
  apply orb_false_iff in H. destruct H as [Hc Hs].
  now rewrite Hc, (IH Hs).
Qed.

Lemma replace_runs_length b s :
  (String.length (replace_runs b s) <= String.length s)%nat.
Proof.
  revert b. induction s as [|c s IH]; intros b; simpl; [lia|].
  pose proof (IH true). pose proof (IH false).
  destruct (is_space c); [destruct b|]; simpl; lia.
Qed.

(** The name [click_privilege_...] a privilege is tracked under holds no
    white space, whatever the name of the privilege: each run of white space
    has become one underscore, so the replacement does not lengthen the name,
    and replacing again changes nothing.  The click is tracked with the
    profile of the render and does nothing else: the screen stays. *)
Theorem privilege_click_name_has_no_space :
  forall lineProfile privilege,
    exists name,
      PrivilegesScreen.click lineProfile privilege
      = [TrackEvent name lineProfile]
      /\ name = "click_privilege_"
                ++ replace_spaces (Privilege.name privilege)
      /\ has_space name = false
      /\ (String.length (replace_spaces (Privilege.name privilege))
          <= String.length (Privilege.name privilege))%nat
      /\ replace_spaces (replace_spaces (Privilege.name privilege))
         = replace_spaces (Privilege.name privilege)
      /\ forall a, App.applyAll (PrivilegesScreen.click lineProfile privilege) a
                   = a.
Proof.
  intros lineProfile privilege. eexists. split; [reflexivity|].
  split; [reflexivity|]. split.
  - simpl. apply replace_runs_no_space.
  - split; [apply replace_runs_length|]. split; [|reflexivity].
    apply replace_runs_fixed. apply replace_runs_no_space.
Qed.

Example privilege_names_tracked :
  map (fun p => App.calls (PrivilegesScreen.click None p))
    PrivilegesScreen.privileges
  = [ [("click_privilege_Free_coverage_campaign", None)];
      [("click_privilege_GRAB_food_voucher", None)];
      [("click_privilege_Major_Cineplex_voucher", None)] ].
Proof. reflexivity. Qed.

Example runs_of_white_space :
  replace_spaces ("  a" ++ String (ascii_of_nat 9) (String (ascii_of_nat 160)
                    " b ")) = "_a_b_".
Proof. reflexivity. Qed.

(** ** The interests of the form *)

Lemma includes_In l category :
  NewCustomerForm.includes l category = true <-> In category l.
Proof.
  unfold NewCustomerForm.includes. rewrite existsb_exists. split.
  - intros (x & H & E). apply String.eqb_eq in E. now subst.
  - intros H. exists category. split; [exact H|apply String.eqb_refl].
Qed.

(** Unchecking an interest removes every occurrence of it and nothing
    else. *)
Theorem interest_unchecked_is_removed :
  forall value prev x,
    In x (NewCustomerForm.toggled value false prev)
    <-> In x prev /\ x <> value.
Proof.
  intros value prev x. unfold NewCustomerForm.toggled.
  rewrite filter_In, negb_true_iff, String.eqb_neq. tauto.
Qed.

(** Checking an interest that was not selected and unchecking it again gives
    the list back. *)
Theorem interest_checked_then_unchecked :
  forall value prev,
    NewCustomerForm.includes prev value = false ->
    NewCustomerForm.toggled value false
      (NewCustomerForm.toggled value true prev)
    = prev.
Proof.
  intros value prev H. unfold NewCustomerForm.toggled.
  rewrite filter_app. simpl. rewrite String.eqb_refl. simpl.
  rewrite app_nil_r. apply forallb_filter_id.
  apply forallb_forall. intros x Hx. apply negb_true_iff, String.eqb_neq.
  intros ->. apply includes_In in Hx. congruence.
Qed.

(** ** Submitting the form *)

(** With a field left empty, or without consent, [handleSubmit] tracks
    nothing, keeps the screen, the user data and what was typed, and only
    sets the error message: the one about the fields when a field is empty,
    whatever the consent, the one about the consent otherwise. *)
Theorem incomplete_form_is_not_submitted :
  forall lineProfile a,
    complete (NewCustomerForm.formData (App.form a))
    && NewCustomerForm.consent (App.form a) = false ->
    let us := NewCustomerForm.handleSubmit lineProfile (App.form a) in
    App.calls us = []
    /\ App.commit a (App.applyAll us a)
       = App.applyAll
           [SetFormError
              (if complete (NewCustomerForm.formData (App.form a))
               then "You must accept the PDPA consent to proceed."
               else "All personal information fields are required.")] a.
Proof.
  intros lineProfile a H us. subst us.
  unfold NewCustomerForm.handleSubmit, complete in *.
  destruct (NewCustomerForm.blank (FormData.firstName _)),
    (NewCustomerForm.blank (FormData.lastName _)),
    (NewCustomerForm.blank (FormData.phone _)),
    (NewCustomerForm.blank (FormData.nid _)),
    (NewCustomerForm.consent (App.form a));
    simpl in *; try discriminate;
    (split; [reflexivity|]); unfold App.commit; simpl;
    now destruct (App.Component_eq_dec _ _).
Qed.

(** With the four fields filled in and the consent given, [handleSubmit]
    tracks [click_request_otp] once, with the profile it was given, stores
    the four fields (none of them empty), the interests and [isNew = true] as
    the user data, dropping what was there, and shows the OTP screen. *)
Theorem complete_form_is_submitted :
  forall lineProfile a,
    complete (NewCustomerForm.formData (App.form a))
    && NewCustomerForm.consent (App.form a) = true ->
    let us := NewCustomerForm.handleSubmit lineProfile (App.form a) in
    let d := NewCustomerForm.formData (App.form a) in
    App.calls us = [("click_request_otp", lineProfile)]
    /\ App.screen (App.applyAll us a) = "otp"
    /\ App.userData (App.applyAll us a)
       = {| firstName := Some (FormData.firstName d);
            lastName := Some (FormData.lastName d);
            phone := Some (FormData.phone d);
            nid := Some (FormData.nid d);
            interests := Some (NewCustomerForm.interests (App.form a));
            isNew := true |}
    /\ map NewCustomerForm.blank
         [FormData.firstName d; FormData.lastName d; FormData.phone d;
          FormData.nid d]
       = [false; false; false; false].
Proof.
  intros lineProfile a H us d. subst us d.
  unfold NewCustomerForm.handleSubmit, complete, NewCustomerForm.blank in *.
  destruct (FormData.firstName _ =? "")%string eqn:E1,
    (FormData.lastName _ =? "")%string eqn:E2,
    (FormData.phone _ =? "")%string eqn:E3,
    (FormData.nid _ =? "")%string eqn:E4,
    (NewCustomerForm.consent (App.form a));
    simpl in *; try discriminate.
  unfold NewCustomerForm.blank. rewrite E1, E2, E3, E4.
  repeat split; reflexivity.
Qed.

(** ** Verifying the OTP *)

(** On the OTP screen the Verify button always tracks [click_verify_otp],
    once, with the current profile; the completed screen follows exactly
    when the code typed is [999999]; with any other code the screen stays,
    keeps the code typed and shows the error. *)
Theorem otp_is_checked_against_999999 :
  forall a,
    App.renderScreen (App.screen a) = App.OtpScreen ->
    exists us a',
      App.handle App.VerifyButton a = Some us
      /\ App.calls us = [("click_verify_otp", App.lineProfile a)]
      /\ App.step App.VerifyButton a = Some a'
      /\ App.renderScreen (App.screen a')
         = (if (OtpScreen.otp (App.otpScreen a) =? "999999")%string
            then App.CompletedScreen else App.OtpScreen)
      /\ ((OtpScreen.otp (App.otpScreen a) =? "999999")%string = false ->
          a' = App.applyAll
                 [SetOtpError "Invalid OTP. Please try again."] a).
Proof.
  intros a On. unfold App.step, App.handle. rewrite On.
  unfold OtpScreen.handleSubmit, App.commit.
  destruct (OtpScreen.otp (App.otpScreen a) =? "999999")%string;
    do 2 eexists; (split; [reflexivity|]); (split; [reflexivity|]);
    (split; [reflexivity|]); simpl; rewrite On.
  - simpl. split; [reflexivity|discriminate].
  - destruct (App.Component_eq_dec App.OtpScreen App.OtpScreen);
      [|congruence].
    split; [exact On|reflexivity].
Qed.

(** ** What every reachable state of the application satisfies *)

Lemma initial_interests :
  NoDup (@nil string) /\ incl (@nil string) NewCustomerForm.productCategories.
Proof. split; [constructor|intros x []]. Qed.

Lemma toggled_sound category l :
  In category NewCustomerForm.productCategories ->
  NoDup l /\ incl l NewCustomerForm.productCategories ->
  NoDup (NewCustomerForm.toggled category
           (negb (NewCustomerForm.includes l category)) l)
  /\ incl (NewCustomerForm.toggled category
             (negb (NewCustomerForm.includes l category)) l)
       NewCustomerForm.productCategories.
Proof.
  intros C (N & I). unfold NewCustomerForm.toggled.
  destruct (NewCustomerForm.includes l category) eqn:E; simpl.
  - split; [now apply NoDup_filter|].
    intros x Hx. apply filter_In in Hx. apply I, Hx.
  - split.
    + apply NoDup_app; [exact N|repeat constructor; auto|].
      intros x Hx [<-|[]]. apply includes_In in Hx. congruence.
    + intros x Hx. apply in_app_or in Hx. destruct Hx as [Hx|[<-|[]]]; auto.
Qed.

Ltac in_list := repeat (first [left; reflexivity | right]).

Ltac not_blank :=
  repeat match goal with
         | E : (_ || _)%bool = false |- _ =>
             apply orb_false_elim in E; destruct E
         end;
  assumption.

Ltac sound_fields :=
  constructor; cbn;
  [ in_list
  | first [discriminate
          | intros _; eexists; split; [reflexivity|in_list]
          | intros _; eauto ]
  | first [discriminate
          | intros _; eexists; split; [reflexivity|in_list]
          | intros _; eauto ]
  | first [discriminate | intros _; reflexivity | intros _; assumption]
  | first [assumption | apply toggled_sound; [in_list|assumption]]
  | first [assumption | in_list]
  | first [discriminate
          | intros _; assumption
          | intros _; eexists; split; [reflexivity|];
            first [reflexivity | not_blank] ] ].

Lemma boot_sound hash : Sound (App.boot hash).
Proof.
  pose proof initial_interests.
  unfold App.boot, App.deepLink.
  destruct (hash =? "")%string; [|destruct (hash =? "#policies")%string;
    [|destruct (hash =? "#claims")%string;
      [|destruct (hash =? "#privileges")%string]]];
    cbn; pose proof I as Sp; sound_fields.
Qed.

Lemma mount_sound hash resolved :
  Sound (App.commit App.initial
           (App.applyAll (App.mountEffect hash resolved) App.initial)).
Proof.
  pose proof initial_interests.
  unfold App.mountEffect, App.deepLink.
  destruct (hash =? "")%string; [|destruct (hash =? "#policies")%string;
    [|destruct (hash =? "#claims")%string;
      [|destruct (hash =? "#privileges")%string]]];
    destruct resolved; cbn; pose proof I as Sp; sound_fields.
Qed.

Lemma mount_tracked hash resolved :
  exists name,
    Session.trackedAs
      (App.commit App.initial
         (App.applyAll (App.mountEffect hash resolved) App.initial))
    = Some name.
Proof.
  unfold App.mountEffect, App.deepLink.
  destruct (hash =? "")%string; [|destruct (hash =? "#policies")%string;
    [|destruct (hash =? "#claims")%string;
      [|destruct (hash =? "#privileges")%string]]];
    destruct resolved; eexists; reflexivity.
Qed.

Lemma step_sound c a a' : Sound a -> App.step c a = Some a' -> Sound a'.
Proof.
  intros [Sc Sp Sl Sk Si Se Sn] St.
  pose proof initial_interests as I0.
  destruct a as [scr [fn ln ph ni it nw] lp sp sl f o]. simpl in *.
  unfold screens in Sc. simpl in Sc.
  unfold App.step, App.handle in St.
  repeat (destruct Sc as [<-|Sc]; [|]); try contradiction;
    destruct c; try destruct nw; cbn in St; try discriminate;
    cbn in Sp, Sl, Sk, Sn;
    try specialize (Sp eq_refl); try specialize (Sl eq_refl);
    try specialize (Sk eq_refl); try specialize (Sn eq_refl);
    try discriminate.
  all: repeat match goal with
       | H : context [nth_error _ ?p] |- _ =>
           destruct p; cbn in H; try discriminate
       | H : context [if NewCustomerForm.consent ?f then _ else _] |- _ =>
           destruct (NewCustomerForm.consent f) eqn:?; cbn in H;
           try discriminate
       | H : context [NewCustomerForm.handleSubmit _ ?f] |- _ =>
           unfold NewCustomerForm.handleSubmit in H;
           match goal with
           | E : NewCustomerForm.consent f = _ |- _ => rewrite E in H
           end;
           simpl negb in H; cbv iota in H;
           match type of H with
           | context [if ?x then _ else _] => destruct x eqn:?; cbn in H
           end
       | H : context [OtpScreen.handleSubmit _ _] |- _ =>
           unfold OtpScreen.handleSubmit in H;
           match type of H with
           | context [if ?x then _ else _] => destruct x; cbn in H
           end
       | H : context [if (OtpScreen.otp ?o =? ?v)%string then _ else _]
         |- _ => destruct (OtpScreen.otp o =? v)%string; cbn in H
       | H : context [match ?x with _ => _ end] |- _ =>
           is_var x; destruct x; cbn in H; try discriminate
       | H : match ?x with _ => _ end = Some _ |- _ =>
           destruct x eqn:?; cbn in H; try discriminate
       end.
  all: inversion St; subst; clear St.
  all: solve [sound_fields].
Qed.

Lemma run_sound cs : forall a a',
  Sound a -> App.run cs a = Some a' -> Sound a'.
Proof.
  induction cs as [|c cs IH]; simpl; intros a a' S R.
  - now inversion R; subst.
  - destruct (App.step c a) as [a1|] eqn:E; [|discriminate].
    exact (IH a1 a' (step_sound c a a1 S E) R).
Qed.

(** The screen name is always one of the eleven of the [switch] of
    [renderScreen], whatever the hash the application was opened with and
    whatever the user does: its [default] never stands in for a name that is
    not listed. *)
Theorem screen_is_always_listed :
  forall hash cs a,
    App.run cs (App.boot hash) = Some a ->
    In (App.screen a) screens.
Proof.
  intros hash cs a R.
  destruct (run_sound cs _ _ (boot_sound hash) R). auto.
Qed.

Lemma details_untracked a :
  is_details (App.renderScreen (App.screen a)) = true ->
  Session.trackedAs a = None.
Proof.
  unfold Session.trackedAs.
  destruct (App.renderScreen (App.screen a)); try discriminate; reflexivity.
Qed.

Lemma untracked_details a :
  Session.trackedAs a = None ->
  is_details (App.renderScreen (App.screen a)) = true.
Proof.
  unfold Session.trackedAs.
  destruct (App.renderScreen (App.screen a)); try discriminate; reflexivity.
Qed.

Lemma details_handle c a us :
  is_details (App.renderScreen (App.screen a)) = true ->
  App.handle c a = Some us ->
  exists profile,
    c = App.ProfileResolved profile /\ us = [SetLineProfile profile].
Proof.
  intros D H. unfold App.handle in H.
  destruct c; try (destruct (App.renderScreen (App.screen a));
                   discriminate).
  inversion H. eauto.
Qed.

Lemma details_step c a a' :
  is_details (App.renderScreen (App.screen a)) = true ->
  App.step c a = Some a' ->
  App.screen a' = App.screen a.
Proof.
  intros D St. unfold App.step in St.
  destruct (App.handle c a) as [us|] eqn:H; [|discriminate].
  destruct (details_handle c a us D H) as (profile & -> & ->).
  inversion St. unfold App.commit. simpl.
  now destruct (App.Component_eq_dec _ _).
Qed.

Lemma details_run cs : forall a a',
  is_details (App.renderScreen (App.screen a)) = true ->
  App.run cs a = Some a' ->
  App.screen a' = App.screen a.
Proof.
  induction cs as [|c cs IH]; simpl; intros a a' D R.
  - now inversion R.
  - destruct (App.step c a) as [a1|] eqn:E; [|discriminate].
    pose proof (details_step c a a1 D E) as S1.
    rewrite <- S1. apply IH; [now rewrite S1|exact R].
Qed.

(** The details of a policy or of a claim are never shown.  [renderScreen]
    hands every screen the selected entry under [selectedPolicy] or
    [selectedClaim], while the two screens read [policy] and [claim]: the
    guard [if (!policy) return null] returns on every render.  So once an
    item of a list was clicked (the entry is selected, and it is one of the
    list) the page is empty: the hook is not called, no control is rendered,
    and whatever happens afterwards the screen stays. *)
Theorem details_screens_render_nothing :
  forall hash cs a,
    App.run cs (App.boot hash) = Some a ->
    is_details (App.renderScreen (App.screen a)) = true ->
    (App.renderScreen (App.screen a) = App.PolicyDetailsScreen ->
     exists p, App.selectedPolicy a = Some p
               /\ In p MyPoliciesScreen.policies)
    /\ (App.renderScreen (App.screen a) = App.ClaimDetailsScreen ->
        exists c, App.selectedClaim a = Some c
                  /\ In c MyClaimsScreen.claims)
    /\ PolicyDetailsScreen.policy (App.props a) = None
    /\ ClaimDetailsScreen.claim (App.props a) = None
    /\ Session.trackedAs a = None
    /\ (forall c us,
          App.handle c a = Some us ->
          exists profile, c = App.ProfileResolved profile)
    /\ (forall cs' a',
          App.run cs' a = Some a' -> App.screen a' = App.screen a).
Proof.
  intros hash cs a R D.
  destruct (run_sound cs _ _ (boot_sound hash) R) as [_ Sp Sl _ _ _ _].
  split; [exact Sp|]. split; [exact Sl|].
  split; [reflexivity|]. split; [reflexivity|].
  split; [exact (details_untracked a D)|]. split.
  - intros c us H. destruct (details_handle c a us D H) as (p & -> & _).
    eauto.
  - intros cs' a'. apply details_run, D.
Qed.

(** Policies and claims are shown to existing customers only: whatever the
    hash and the controls used, when one of the four screens of policies and
    claims is on display the user data say [isNew = false]. *)
Theorem contracts_only_for_existing_customers :
  forall hash cs a,
    App.run cs (App.boot hash) = Some a ->
    shows_contracts (App.renderScreen (App.screen a)) = true ->
    isNew (App.userData a) = false.
Proof.
  intros hash cs a R.
  destruct (run_sound cs _ _ (boot_sound hash) R). auto.
Qed.

(** The interests of the form never hold a category twice and hold product
    categories only, whatever the order in which the boxes are ticked. *)
Theorem interests_have_no_duplicates :
  forall hash cs a,
    App.run cs (App.boot hash) = Some a ->
    NoDup (NewCustomerForm.interests (App.form a))
    /\ incl (NewCustomerForm.interests (App.form a))
         NewCustomerForm.productCategories.
Proof.
  intros hash cs a R.
  destruct (run_sound cs _ _ (boot_sound hash) R). auto.
Qed.

(** The message about the consent is never on display: the button that
    submits the form is disabled until the consent is given, so the second
    test of [handleSubmit] cannot fail; the form shows no message or the one
    about the fields. *)
Theorem consent_error_is_never_shown :
  forall hash cs a,
    App.run cs (App.boot hash) = Some a ->
    In (NewCustomerForm.error (App.form a))
       [""; "All personal information fields are required."].
Proof.
  intros hash cs a R.
  destruct (run_sound cs _ _ (boot_sound hash) R) as [_ _ _ _ _ E _].
  exact E.
Qed.

(** The completed screen greets by name: whatever the hash and the controls
    used, when it is on display the user data hold a first name that is not
    empty (the one typed in the form of the registration that led there, or
    [Valued Customer] after a login), so the greeting never falls back to
    [customer]. *)
Theorem completed_screen_greets_by_name :
  forall hash cs a,
    App.run cs (App.boot hash) = Some a ->
    App.renderScreen (App.screen a) = App.CompletedScreen ->
    exists s,
      firstName (App.userData a) = Some s
      /\ NewCustomerForm.blank s = false
      /\ CompletedScreen.greeted (App.userData a) = s.
Proof.
  intros hash cs a R On.
  destruct (run_sound cs _ _ (boot_sound hash) R) as [_ _ _ _ _ _ N].
  rewrite On in N. destruct (N eq_refl) as (s & F & B).
  exists s. split; [exact F|]. split; [exact B|].
  unfold CompletedScreen.greeted, Js.or. rewrite F.
  unfold NewCustomerForm.blank in B. now rewrite B.
Qed.

(** ** Entering the form *)

(** Whenever the form replaces another screen it is empty, with no interest
    ticked and the consent not given, whatever was typed or submitted
    before; coming back from the OTP screen in particular loses the input,
    while the user data keep what was submitted. *)
Theorem form_is_empty_when_entered :
  forall c a a',
    App.step c a = Some a' ->
    App.renderScreen (App.screen a) <> App.NewCustomerForm ->
    App.renderScreen (App.screen a') = App.NewCustomerForm ->
    App.form a' = NewCustomerForm.initial
    /\ (c = App.BackButton -> App.userData a' = App.userData a).
Proof.
  intros c a a' St Out In'. unfold App.step in St.
  destruct (App.handle c a) as [us|] eqn:H; [|discriminate].
  inversion St as [E]. clear St. unfold App.commit in *.
  destruct (App.Component_eq_dec _ _) as [Same|Diff].
  - subst a'. congruence.
  - subst a'. simpl. split; [reflexivity|]. intros ->.
    unfold App.handle in H.
    destruct (App.renderScreen (App.screen a)); try discriminate;
      inversion H; subst; reflexivity.
Qed.

(** ** What the controls track *)

(** Every control tracks at most one event, with the profile of the state it
    is used in.  The Back buttons, the inputs and the interest boxes track
    nothing, the button of the form tracks only a complete form, every other
    control tracks exactly one event, the Verify button also for a wrong
    code. *)
Theorem controls_track_with_the_current_profile :
  forall c a us,
    App.handle c a = Some us ->
    (forall call, In call (App.calls us) -> snd call = App.lineProfile a)
    /\ List.length (App.calls us)
       = match c with
         | App.BackButton | App.FormInput _ _ | App.InterestCheckbox _
         | App.OtpInput _ | App.ProfileResolved _ => 0%nat
         | App.RequestOtpButton =>
             if complete (NewCustomerForm.formData (App.form a))
             then 1%nat else 0%nat
         | _ => 1%nat
         end.
Proof.
  intros c a us H. unfold App.handle in H.
  destruct c; [destruct (App.renderScreen (App.screen a)) ..|];
    try discriminate;
    repeat match type of H with
           | context [nth_error ?l ?p] =>
               destruct (nth_error l p); try discriminate
           | context [if NewCustomerForm.consent ?f then _ else _] =>
               destruct (NewCustomerForm.consent f) eqn:?; try discriminate
           | context [match ?x with _ => _ end] =>
               destruct x; try discriminate
           end;
    inversion H; subst; clear H;
    unfold NewCustomerForm.handleSubmit, OtpScreen.handleSubmit, complete;
    repeat match goal with
           | E : NewCustomerForm.consent _ = _ |- _ => rewrite E
           | |- context [NewCustomerForm.blank ?x] =>
               destruct (NewCustomerForm.blank x)
           | |- context [if (?x =? ?y)%string then _ else _] =>
               destruct (x =? y)%string
           end;
    simpl; (split; [|reflexivity]);
    intros call HIn; repeat destruct HIn as [<-|HIn]; try reflexivity;
    contradiction.
Qed.

(** The cases of [App.handle]: the control, the screen that renders it, and
    what its handler tests. *)
Ltac by_control H :=
  unfold App.handle in H;
  match type of H with
  | context [match ?c with App.ProfileResolved _ => _ | _ => _ end] =>
      destruct c;
      [match type of H with
       | context [App.renderScreen ?s] => destruct (App.renderScreen s)
       end ..|]
  end;
  try discriminate;
  repeat match type of H with
         | context [nth_error ?l ?p] =>
             destruct (nth_error l p); try discriminate
         | context [if NewCustomerForm.consent ?f then _ else _] =>
             destruct (NewCustomerForm.consent f) eqn:?; try discriminate
         | context [match ?x with _ => _ end] =>
             destruct x; try discriminate
         end;
  inversion H; subst; clear H;
  unfold NewCustomerForm.handleSubmit, OtpScreen.handleSubmit;
  repeat match goal with
         | E : NewCustomerForm.consent _ = _ |- _ => rewrite E
         | |- context [NewCustomerForm.blank ?x] =>
             destruct (NewCustomerForm.blank x)
         | |- context [if (?x =? ?y)%string then _ else _] =>
             destruct (x =? y)%string
         end.

(** Every event a control tracks is named [click_...]: no control reports
    under a name of the hook ([view_...], [scroll_depth_...]). *)
Theorem control_events_are_clicks :
  forall c a us,
    App.handle c a = Some us ->
    Forall (fun call => String.prefix "click_" (fst call) = true)
      (App.calls us).
Proof.
  intros c a us H. by_control H; simpl; repeat constructor.
Qed.

(* ================================================================== *)
(** * A visit: the screens and the tracker together *)

Lemma perform_eq calls : forall s,
  Session.perform calls s = (Normal tt, performed calls s).
Proof.
  induction calls as [|[name p] calls IH]; intros s; simpl; [reflexivity|].
  unfold bind. now rewrite detached_trackEvent, IH.
Qed.

Lemma performed_refs calls : forall s, refs (performed calls s) = refs s.
Proof.
  induction calls as [|c calls IH]; intros s; simpl; [reflexivity|].
  unfold performed in *. simpl. now rewrite IH, tracked_refs.
Qed.

Lemma performed_clock calls : forall s,
  clock (host (performed calls s)) = clock (host s).
Proof.
  induction calls as [|c calls IH]; intros s; simpl; [reflexivity|].
  unfold performed in *. simpl. now rewrite IH, tracked_clock.
Qed.

Lemma performed_listeners calls : forall s,
  listeners (host (performed calls s)) = listeners (host s).
Proof.
  induction calls as [|c calls IH]; intros s; simpl; [reflexivity|].
  unfold performed in *. simpl. now rewrite IH, tracked_listeners.
Qed.

Lemma performed_allocated calls : forall s,
  allocated (host (performed calls s)) = allocated (host s).
Proof.
  induction calls as [|c calls IH]; intros s; simpl; [reflexivity|].
  unfold performed in *. simpl. now rewrite IH, tracked_allocated.
Qed.

Lemma performed_actions calls : forall s,
  actions (trace (host (performed calls s)))
  = (actions (trace (host s)) ++ handed (clock (host s)) calls)%list.
Proof.
  induction calls as [|c calls IH]; intros s; simpl.
  - now rewrite app_nil_r.
  - unfold performed in *. simpl.
    now rewrite IH, tracked_actions, tracked_clock, <- app_assoc.
Qed.

#[global] Hint Rewrite performed_refs performed_clock performed_listeners
  performed_allocated performed_actions : tracker.

Lemma performed_wired f calls s : wired f s -> wired f (performed calls s).
Proof. unfold wired. now autorewrite with tracker. Qed.

Lemma enter_eq t p s :
  Session.enter t (Some p) s
  = (Normal (Some {| deps := p;
                     destroy := closure (screenName p) (lineProfile p)
                                  (committed t true (host s)) |}),
     effected (screenName p) (lineProfile p) (committed t true (host s))).
Proof. unfold Session.enter. now rewrite mount_eq. Qed.

Lemma update_spec t m s us name0 :
  Shown m s ->
  let after := App.commit (Session.app m)
                 (App.applyAll us (Session.app m)) in
  Sound after ->
  Session.trackedAs after = Some name0 ->
  exists f f' s' name,
    Session.instance m = Some f
    /\ Session.trackedAs after = Some name
    /\ Session.update t us m s
       = (Normal {| Session.app := after; Session.instance := Some f' |}, s')
    /\ Shown {| Session.app := after; Session.instance := Some f' |} s'
    /\ (kept (Session.app m) after f = true -> f' = f)
    /\ refs s'
       = (if kept (Session.app m) after f then refs s
          else if App.Component_eq_dec
                    (App.renderScreen (App.screen (Session.app m)))
                    (App.renderScreen (App.screen after))
          then set_hasTrackedViewDuration true (refs s)
          else set_mainRef (Some cardNode) (useRefs t))
    /\ actions (trace (host s'))
       = (actions (trace (host s)) ++ handed t (App.calls us)
            ++ if kept (Session.app m) after f then []
               else rerun t f s after name)%list.
Proof.
  intros (So & f & If & W & MR & Tr & Sa) after So' Tn.
  revert Tn. generalize name0 as name. intros name Tn.
  unfold Session.update. cbv zeta. fold after.
  unfold kept, rerun, Session.render, Session.props. rewrite If, Tn.
  set (s1 := performed (App.calls us) (at_time t s)).
  assert (W1 : wired f s1)
    by (apply performed_wired, at_time_wired, W).
  assert (R1 : refs s1 = refs s)
    by (unfold s1; now autorewrite with tracker).
  assert (A1 : actions (trace (host s1))
               = (actions (trace (host s)) ++ handed t (App.calls us))%list)
    by (unfold s1; now autorewrite with tracker).
  assert (L1 : allocated (host s1) = allocated (host s))
    by (unfold s1; now autorewrite with tracker).
  assert (C1 : clock (host s1) = t)
    by (unfold s1; now autorewrite with tracker).
  destruct W as (Cu & _ & NS & NP & _).
  destruct (App.Component_eq_dec _ _) as [Same|Diff].
  - destruct (same_deps (deps f) (Build_Props name (App.lineProfile after)))
      eqn:SD.
    + exists f, f, (at_time t s1), name.
      split; [reflexivity|]. split; [reflexivity|].
      split.
      { unfold bind, modify, ret. simpl. fold (at_time t s).
        rewrite perform_eq. fold s1. rewrite rerender_eq, SD. reflexivity. }
      split.
      { split; [exact So'|]. exists f. simpl.
        split; [reflexivity|]. split; [apply at_time_wired, W1|].
        split; [now rewrite R1|].
        unfold same_deps in SD. simpl in SD.
        apply andb_true_iff in SD. destruct SD as [SN SO].
        apply String.eqb_eq in SN. rewrite SN. split; [exact Tn|exact SO]. }
      split; [intros _; reflexivity|].
      simpl. rewrite SD, A1. split; [exact R1|]. now rewrite ?app_nil_r.
    + pose (s2 := effected name (App.lineProfile after)
                    (torn (destroy f) (at_time t s1))).
      exists f. eexists. exists s2, name.
      split; [reflexivity|]. split; [reflexivity|].
      assert (RR : rerender t (Build_Props name (App.lineProfile after)) f s1
                   = (Normal {| deps := Build_Props name
                                          (App.lineProfile after);
                                destroy := closure name
                                             (App.lineProfile after)
                                             (torn (destroy f)
                                                (at_time t s1)) |}, s2))
        by (rewrite rerender_eq, SD; reflexivity).
      split.
      { unfold bind, modify, ret. simpl. fold (at_time t s).
        rewrite perform_eq. fold s1. rewrite RR. reflexivity. }
      split.
      { split; [exact So'|]. eexists. simpl.
        split; [reflexivity|].
        split; [exact (rerender_wired _ _ _ _ W1 _ _ RR)|].
        split; [unfold s2; autorewrite with tracker; simpl; now rewrite R1|].
        split; [exact Tn|]. simpl.
        destruct (App.lineProfile after); simpl;
          [apply Nat.eqb_refl|reflexivity]. }
      split; [simpl; rewrite SD; discriminate|].
      simpl. rewrite SD.
      split; [unfold s2; autorewrite with tracker; simpl; now rewrite R1|].
      unfold s2. autorewrite with tracker. unfold reports. simpl.
      rewrite ?R1, ?A1, ?L1, ?C1, ?Cu, ?MR, ?NS, ?NP, ?gt_duration. simpl.
      rewrite <- !app_assoc. reflexivity.
  - pose (s2 := effected name (App.lineProfile after)
                  (committed t true
                     (host (torn (destroy f)
                              (with_refs (set_mainRef None)
                                 (at_time t s1)))))).
    exists f. eexists. exists s2, name.
    split; [reflexivity|]. split; [reflexivity|].
    split.
    { unfold bind, modify, ret. simpl. fold (at_time t s).
      rewrite perform_eq. fold s1. unfold Session.leave.
      rewrite unmount_eq. unfold Session.enter. rewrite mount_eq.
      reflexivity. }
    split.
    { split; [exact So'|]. eexists. simpl.
      split; [reflexivity|].
      split; [exact (mount_wired t (Build_Props name (App.lineProfile after))
                       true _)|].
      split; [unfold s2; now autorewrite with tracker|].
      split; [exact Tn|]. simpl.
      destruct (App.lineProfile after); simpl;
        [apply Nat.eqb_refl|reflexivity]. }
    split; [discriminate|].
    split; [unfold s2; now autorewrite with tracker|].
    unfold s2. autorewrite with tracker. simpl.
    autorewrite with tracker. unfold reports. simpl.
    rewrite ?R1, ?A1, ?L1, ?C1, ?Cu, ?MR, ?NS, ?NP, ?gt_duration. simpl.
    rewrite <- !app_assoc. reflexivity.
Qed.

Lemma use_spec t c m s us name0 :
  Shown m s ->
  App.handle c (Session.app m) = Some us ->
  let after := App.commit (Session.app m)
                 (App.applyAll us (Session.app m)) in
  Session.trackedAs after = Some name0 ->
  exists f f' s' name k,
    Session.instance m = Some f
    /\ Session.trackedAs after = Some name
    /\ Session.step t (Session.Use c) m = Some k
    /\ k s = (Normal {| Session.app := after; Session.instance := Some f' |},
              s')
    /\ Shown {| Session.app := after; Session.instance := Some f' |} s'
    /\ (kept (Session.app m) after f = true -> f' = f)
    /\ refs s'
       = (if kept (Session.app m) after f then refs s
          else if App.Component_eq_dec
                    (App.renderScreen (App.screen (Session.app m)))
                    (App.renderScreen (App.screen after))
          then set_hasTrackedViewDuration true (refs s)
          else set_mainRef (Some cardNode) (useRefs t))
    /\ actions (trace (host s'))
       = (actions (trace (host s)) ++ handed t (App.calls us)
            ++ if kept (Session.app m) after f then []
               else rerun t f s after name)%list.
Proof.
  intros Sh H after Tn.
  assert (So' : Sound after).
  { destruct Sh as (So & _).
    apply (step_sound c (Session.app m)); [exact So|].
    unfold App.step. now rewrite H. }
  destruct (update_spec t m s us name0 Sh So' Tn)
    as (f & f' & s' & name & If & Tn' & U & Rest).
  exists f, f', s', name, (Session.update t us m).
  split; [exact If|]. split; [exact Tn'|].
  split; [unfold Session.step; now rewrite H|].
  split; [exact U|exact Rest].
Qed.

Lemma leave_spec t c m s us :
  Shown m s ->
  App.handle c (Session.app m) = Some us ->
  let after := App.commit (Session.app m)
                 (App.applyAll us (Session.app m)) in
  Session.trackedAs after = None ->
  exists f s' k,
    Session.instance m = Some f
    /\ Session.step t (Session.Use c) m = Some k
    /\ k s = (Normal {| Session.app := after; Session.instance := None |}, s')
    /\ Blank {| Session.app := after; Session.instance := None |} s'
    /\ actions (trace (host s'))
       = (actions (trace (host s)) ++ handed t (App.calls us)
            ++ torn_down t f s)%list.
Proof.
  intros (So & f & If & W & MR & Tr & Sa) H after Tn.
  assert (So' : Sound after).
  { apply (step_sound c (Session.app m)); [exact So|].
    unfold App.step. now rewrite H. }
  assert (Rn : Session.render t (Session.app m) after (Some f)
               = (Session.leave t (Some f) ;; Session.enter t None)).
  { unfold Session.render, Session.props. rewrite Tn.
    now destruct (App.Component_eq_dec _ _). }
  unfold Session.step. rewrite H. unfold Session.update. cbv zeta.
  fold after. rewrite If, Rn.
  set (s1 := performed (App.calls us) (at_time t s)).
  assert (R1 : refs s1 = refs s)
    by (unfold s1; now autorewrite with tracker).
  assert (A1 : actions (trace (host s1))
               = (actions (trace (host s)) ++ handed t (App.calls us))%list)
    by (unfold s1; now autorewrite with tracker).
  assert (C1 : clock (host s1) = t)
    by (unfold s1; now autorewrite with tracker).
  assert (L1 : listeners (host s1) = [handler (destroy f)]).
  { unfold s1. autorewrite with tracker. simpl.
    now rewrite (listeners_wired _ _ W), MR. }
  destruct W as (Cu & _ & NS & NP & _). rewrite MR in Cu.
  pose (s2 := torn (destroy f)
                (with_refs (set_mainRef None) (at_time t s1))).
  assert (K : (modify (with_host (set_clock t)) ;;
               Session.perform (App.calls us) ;;
               f0 <- (Session.leave t (Some f) ;; Session.enter t None) ;;
               ret {| Session.app := after; Session.instance := f0 |}) s
              = (Normal {| Session.app := after;
                           Session.instance := None |}, s2)).
  { unfold bind, modify, ret. simpl. fold (at_time t s).
    rewrite perform_eq. fold s1. rewrite unmount_eq. reflexivity. }
  exists f, s2. eexists. split; [reflexivity|].
  split; [reflexivity|]. split; [exact K|].
  split.
  - split; [exact So'|]. split; [reflexivity|]. split; [exact Tn|].
    unfold s2. rewrite torn_listeners, torn_refs, Cu. simpl.
    rewrite L1. simpl. rewrite same_function_refl. split; reflexivity.
  - unfold s2. rewrite torn_actions, Cu. unfold reports, torn_down. simpl.
    rewrite ?R1, ?A1, ?C1, ?NS, ?NP, ?gt_duration.
    rewrite <- !app_assoc. reflexivity.
Qed.

Lemma blank_spec t c m s us :
  Blank m s ->
  App.handle c (Session.app m) = Some us ->
  let after := App.commit (Session.app m)
                 (App.applyAll us (Session.app m)) in
  exists k,
    Session.step t (Session.Use c) m = Some k
    /\ k s = (Normal {| Session.app := after; Session.instance := None |},
              at_time t s)
    /\ Blank {| Session.app := after; Session.instance := None |}
         (at_time t s)
    /\ App.calls us = []
    /\ Session.trackedAs after = None.
Proof.
  intros (So & If & Tr & L & Hd) H after.
  assert (So' : Sound after).
  { apply (step_sound c (Session.app m)); [exact So|].
    unfold App.step. now rewrite H. }
  pose proof (untracked_details _ Tr) as D.
  destruct (details_handle c _ us D H) as (profile & -> & ->).
  assert (Sc : App.screen after = App.screen (Session.app m)).
  { apply (details_step (App.ProfileResolved profile)); [exact D|].
    reflexivity. }
  assert (Tn : Session.trackedAs after = None)
    by (apply details_untracked; now rewrite Sc).
  assert (Rn : Session.render t (Session.app m) after None
               = (Session.leave t None ;; Session.enter t None)).
  { unfold Session.render, Session.props. rewrite Tn.
    now destruct (App.Component_eq_dec _ _). }
  unfold Session.step. rewrite H. unfold Session.update. cbv zeta.
  fold after. rewrite If, Rn.
  eexists. split; [reflexivity|]. split.
  - reflexivity.
  - split; [|split; [reflexivity|exact Tn]].
    split; [exact So'|]. split; [reflexivity|]. split; [exact Tn|].
    split; [exact L|exact Hd].
Qed.

Lemma unhandled_app a b : unhandled (a ++ b) = (unhandled a ++ unhandled b)%list.
Proof. apply filter_app. Qed.

Lemma unhandled_handed t calls : unhandled (handed t calls) = [].
Proof. induction calls as [|c calls IH]; simpl; auto. Qed.

Lemma unhandled_rerun t f s after name : unhandled (rerun t f s after name) = [].
Proof.
  unfold rerun. simpl. rewrite !unhandled_app.
  destruct (negb _ && _), (App.lineProfile after); reflexivity.
Qed.

Lemma unhandled_torn_down t f s : unhandled (torn_down t f s) = [].
Proof. unfold torn_down. simpl. now destruct (negb _ && _). Qed.

(** The welcome screen as the first render leaves it. *)
Lemma entered_spec t h :
  exists f0 s0,
    Session.enter t (Session.props App.initial)
      {| refs := useRefs t; host := h |}
    = (Normal (Some f0), s0)
    /\ deps f0 = Build_Props "welcome" None
    /\ Shown {| Session.app := App.initial; Session.instance := Some f0 |}
         s0
    /\ refs s0 = set_mainRef (Some cardNode) (useRefs t)
    /\ actions (trace (host s0))
       = (actions (trace h) ++ [Attached (allocated h)])%list.
Proof.
  assert (P : Session.props App.initial = Some (Build_Props "welcome" None))
    by reflexivity.
  rewrite P, enter_eq.
  do 2 eexists. split; [reflexivity|]. split; [reflexivity|]. split.
  - split; [exact (boot_sound "")|]. eexists. simpl.
    split; [reflexivity|].
    split; [exact (mount_wired t (Build_Props "welcome" None) true h)|].
    split; [now autorewrite with tracker|]. split; reflexivity.
  - split; [now autorewrite with tracker|].
    now autorewrite with tracker.
Qed.

Lemma start_spec t h hash resolved :
  let after := App.commit App.initial
                 (App.applyAll (App.mountEffect hash resolved)
                    App.initial) in
  exists f0 s0 f s name,
    deps f0 = Build_Props "welcome" None
    /\ Shown {| Session.app := App.initial; Session.instance := Some f0 |} s0
    /\ refs s0 = set_mainRef (Some cardNode) (useRefs t)
    /\ actions (trace (host s0))
       = (actions (trace h) ++ [Attached (allocated h)])%list
    /\ Session.trackedAs after = Some name
    /\ Session.start t h hash resolved
       = (Normal {| Session.app := after; Session.instance := Some f |}, s)
    /\ Shown {| Session.app := after; Session.instance := Some f |} s
    /\ refs s
       = (if kept App.initial after f0 then refs s0
          else if App.Component_eq_dec
                    (App.renderScreen (App.screen App.initial))
                    (App.renderScreen (App.screen after))
          then set_hasTrackedViewDuration true (refs s0)
          else set_mainRef (Some cardNode) (useRefs t))
    /\ actions (trace (host s))
       = (actions (trace (host s0))
            ++ handed t (App.calls (App.mountEffect hash resolved))
            ++ if kept App.initial after f0 then []
               else rerun t f0 s0 after name)%list.
Proof.
  intros after.
  destruct (entered_spec t h) as (f0 & s0 & E & D0 & Sh0 & R0 & A0).
  destruct (mount_tracked hash resolved) as (name0 & Tn0).
  destruct (update_spec t _ s0 (App.mountEffect hash resolved) name0 Sh0
              (mount_sound hash resolved) Tn0)
    as (f0' & f & s & name & If & Tn & U & Sh & _ & Rf & Ac).
  simpl in If. inversion If; subst f0'. clear If.
  exists f0, s0, f, s, name.
  split; [exact D0|]. split; [exact Sh0|]. split; [exact R0|].
  split; [exact A0|]. split; [exact Tn|]. split.
  - unfold Session.start, bind. rewrite E. exact U.
  - split; [exact Sh|]. split; [exact Rf|exact Ac].
Qed.

(** Opened without a hash and before the profile is there, the
    application shows the welcome screen as its first render left it. *)
Lemma start_plain t h :
  exists m s,
    Session.start t h "" None = (Normal m, s)
    /\ Shown m s
    /\ Session.app m = App.initial
    /\ refs s = set_mainRef (Some cardNode) (useRefs t)
    /\ actions (trace (host s))
       = (actions (trace h) ++ [Attached (allocated h)])%list.
Proof.
  destruct (start_spec t h "" None)
    as (f0 & s0 & f & s & name & D0 & Sh0 & R0 & A0 & Tn & E & Sh & Rf & Ac).
  assert (K : kept App.initial
                (App.commit App.initial
                   (App.applyAll (App.mountEffect "" None) App.initial)) f0
              = true).
  { unfold kept. rewrite D0. reflexivity. }
  rewrite K in Rf, Ac.
  do 2 eexists. split; [exact E|]. split; [exact Sh|].
  split; [reflexivity|]. split; [now rewrite Rf|].
  rewrite Ac, A0. simpl. now rewrite app_nil_r.
Qed.

Lemma scroll_spec t metrics m s :
  Shown m s ->
  exists f k s',
    Session.instance m = Some f
    /\ Session.step t (Session.ScrollTo metrics) m = Some k
    /\ k s = (Normal m, s')
    /\ Shown m s'
    /\ actions (trace (host s'))
       = (actions (trace (host s))
            ++ if fires (observed t metrics s)
               then [Sent (eventData (scroll_name (screenName (deps f)))
                             (lineProfile (deps f)) t)]
               else [])%list.
Proof.
  intros (So & f & If & W & MR & Tr & Sa).
  exists f. do 2 eexists. split; [exact If|]. split; [reflexivity|].
  split; [unfold bind, ret; now rewrite (scroll_eq f t metrics s W)|].
  split.
  - split; [exact So|]. exists f. split; [exact If|].
    split; [apply scroll_wired, W|].
    split; [now autorewrite with tracker|]. auto.
  - destruct W as (_ & _ & NS & NP & _).
    autorewrite with tracker. simpl. now rewrite NS, NP.
Qed.

Lemma scroll_blank t metrics m s :
  Blank m s ->
  exists k,
    Session.step t (Session.ScrollTo metrics) m = Some k
    /\ k s = (Normal m, observed t metrics s)
    /\ Blank m (observed t metrics s).
Proof.
  intros (So & If & Tr & L & Hd).
  eexists. split; [reflexivity|]. split.
  - unfold bind, ret. rewrite scroll_total. unfold settled. now rewrite L.
  - split; [exact So|]. split; [exact If|]. split; [exact Tr|].
    split; [exact L|exact Hd].
Qed.

Lemma step_settled t e m s k :
  Settled m s ->
  Session.step t e m = Some k ->
  exists m' s',
    k s = (Normal m', s')
    /\ Settled m' s'
    /\ unhandled (actions (trace (host s')))
       = unhandled (actions (trace (host s))).
Proof.
  intros [Sh|Bl] E; destruct e as [c|metrics].
  - destruct (App.handle c (Session.app m)) as [us|] eqn:H;
      [|unfold Session.step in E; rewrite H in E; discriminate].
    destruct (Session.trackedAs
                (App.commit (Session.app m)
                   (App.applyAll us (Session.app m)))) as [name|] eqn:Tn.
    + destruct (use_spec t c m s us name Sh H Tn)
        as (f & f' & s' & name' & k' & _ & _ & E' & R & St' & _ & _ & Ac).
      rewrite E in E'. inversion E'; subst k'.
      do 2 eexists. split; [exact R|]. split; [left; exact St'|].
      rewrite Ac, !unhandled_app, unhandled_handed.
      destruct (kept _ _ _); [|rewrite unhandled_rerun];
        now rewrite !app_nil_r.
    + destruct (leave_spec t c m s us Sh H Tn)
        as (f & s' & k' & _ & E' & R & St' & Ac).
      rewrite E in E'. inversion E'; subst k'.
      do 2 eexists. split; [exact R|]. split; [right; exact St'|].
      rewrite Ac, !unhandled_app, unhandled_handed, unhandled_torn_down.
      now rewrite !app_nil_r.
  - destruct (scroll_spec t metrics m s Sh)
      as (f & k' & s' & _ & E' & R & St' & Ac).
    rewrite E in E'. inversion E'; subst k'.
    do 2 eexists. split; [exact R|]. split; [left; exact St'|].
    rewrite Ac, unhandled_app. destruct (fires _); now rewrite app_nil_r.
  - destruct (App.handle c (Session.app m)) as [us|] eqn:H;
      [|unfold Session.step in E; rewrite H in E; discriminate].
    destruct (blank_spec t c m s us Bl H) as (k' & E' & R & St' & _).
    rewrite E in E'. inversion E'; subst k'.
    do 2 eexists. split; [exact R|]. split; [right; exact St'|].
    reflexivity.
  - destruct (scroll_blank t metrics m s Bl) as (k' & E' & R & St').
    rewrite E in E'. inversion E'; subst k'.
    do 2 eexists. split; [exact R|]. split; [right; exact St'|].
    reflexivity.
Qed.

Lemma run_settled es : forall m s r,
  Settled m s ->
  Session.run es m s = Some r ->
  exists m' s',
    r = (Normal m', s')
    /\ Settled m' s'
    /\ unhandled (actions (trace (host s')))
       = unhandled (actions (trace (host s))).
Proof.
  induction es as [|[t e] es IH]; simpl; intros m s r St R.
  - inversion R; subst. eauto.
  - destruct (Session.step t e m) as [k|] eqn:E; [|discriminate].
    destruct (step_settled t e m s k St E) as (m1 & s1 & K & St1 & U1).
    rewrite K in R.
    destruct (IH m1 s1 r St1 R) as (m' & s' & -> & St' & U').
    exists m', s'. split; [reflexivity|]. split; [exact St'|].
    now rewrite U', U1.
Qed.

Lemma visit_settled t h hash resolved es r :
  Session.visit t h hash resolved es = Some r ->
  exists m s,
    r = (Normal m, s)
    /\ Settled m s
    /\ unhandled (actions (trace (host s))) = unhandled (actions (trace h)).
Proof.
  unfold Session.visit.
  destruct (start_spec t h hash resolved)
    as (f0 & s0 & f1 & s1 & name & _ & _ & _ & A0 & _ & -> & Sh & _ & A1).
  intros R.
  destruct (run_settled es _ s1 r (or_introl Sh) R)
    as (m & s & -> & St & U).
  exists m, s. split; [reflexivity|]. split; [exact St|].
  rewrite U, A1, A0, !unhandled_app, unhandled_handed.
  destruct (kept _ _ _); [|rewrite unhandled_rerun]; simpl;
    now rewrite !app_nil_r.
Qed.

Lemma shown_not_details m s :
  Shown m s ->
  is_details (App.renderScreen (App.screen (Session.app m))) = false.
Proof.
  intros (_ & f & _ & _ & _ & Tr & _).
  destruct (is_details _) eqn:D; [|reflexivity].
  rewrite (details_untracked _ D) in Tr. discriminate.
Qed.

(** Over a whole visit no listener of a screen that left stays behind and
    none is registered twice: whatever the controls used and the scrolling,
    the listeners in the page are exactly the one of the hook instance of
    the screen on display, and there is none while the empty page of the
    details of a policy or of a claim is on display, which is the only time
    no hook instance exists. *)
Theorem visit_keeps_one_listener :
  forall t h hash resolved es r,
    Session.visit t h hash resolved es = Some r ->
    exists m s,
      r = (Normal m, s)
      /\ listeners (host s)
         = match Session.instance m with
           | Some f => [handler (destroy f)]
           | None => []
           end
      /\ (Session.instance m = None
          <-> is_details (App.renderScreen (App.screen (Session.app m)))
              = true).
Proof.
  intros t h hash resolved es r V.
  destruct (visit_settled t h hash resolved es r V)
    as (m & s & -> & [Sh|Bl] & _);
    exists m, s; (split; [reflexivity|]).
  - pose proof (shown_not_details m s Sh) as D.
    destruct Sh as (_ & f & If & W & MR & _).
    rewrite If, (listeners_wired _ _ W), MR. split; [reflexivity|].
    rewrite D. split; discriminate.
  - destruct Bl as (_ & If & Tr & L & _). rewrite If, L.
    split; [reflexivity|]. split; [intros _|reflexivity].
    exact (untracked_details _ Tr).
Qed.

(** Over a whole visit nothing the tracking does fails: whatever the
    collector answers and whether or not [JSON.stringify] throws, every
    handler and every render completes normally, and no rejection is left
    unhandled. *)
Theorem visit_never_fails :
  forall t h hash resolved es r,
    Session.visit t h hash resolved es = Some r ->
    exists m s,
      r = (Normal m, s)
      /\ unhandled (actions (trace (host s))) = unhandled (actions (trace h)).
Proof.
  intros t h hash resolved es r V.
  destruct (visit_settled t h hash resolved es r V)
    as (m & s & -> & _ & U). eauto.
Qed.

Lemma same_object_left a b c :
  same_object a b = true -> same_object a c = same_object b c.
Proof.
  destruct a as [x|], b as [y|], c as [z|]; simpl; try discriminate; auto.
  intros E. apply Nat.eqb_eq in E. now rewrite E.
Qed.

Lemma kept_same_screen m s f after name :
  Shown m s ->
  Session.instance m = Some f ->
  Session.trackedAs after = Some name ->
  kept (Session.app m) after f = same_screen (Session.app m) after.
Proof.
  intros (_ & f0 & If & _ & _ & Tr & Sa) If' Tn.
  rewrite If in If'. inversion If'; subst f0.
  unfold kept, same_screen, Session.props. rewrite Tn, Tr.
  destruct (App.Component_eq_dec _ _); [|reflexivity]. simpl.
  unfold same_deps. simpl. now rewrite (same_object_left _ _ _ Sa).
Qed.

Lemma names_handed t calls :
  map eventName (sent (handed t calls)) = map fst calls.
Proof.
  induction calls as [|x l IH]; simpl; [reflexivity|]. now rewrite <- IH.
Qed.

Lemma tracked_name_known a name :
  Session.trackedAs a = Some name -> In name hook_names.
Proof.
  unfold Session.trackedAs, hook_names.
  destruct (App.renderScreen (App.screen a)); intros E;
    try discriminate; inversion E; simpl; tauto.
Qed.

Lemma known_names name :
  In name hook_names ->
  known_event (view_name name) = true
  /\ known_event (duration_name name) = true
  /\ known_event (scroll_name name) = true.
Proof.
  unfold hook_names. intros H.
  repeat (destruct H as [<-|H]; [repeat split; reflexivity|]).
  contradiction.
Qed.

Lemma known_clicks c a us :
  App.handle c a = Some us ->
  forallb known_event (map fst (App.calls us)) = true.
Proof. intros H. by_control H; reflexivity. Qed.

Lemma step_emits t e m s k :
  Settled m s ->
  Session.step t e m = Some k ->
  exists m' s' l,
    k s = (Normal m', s')
    /\ emitted (trace (host s')) = (emitted (trace (host s)) ++ l)%list
    /\ forallb known_event l = true.
Proof.
  intros [Sh|Bl] E; destruct e as [c|metrics].
  - destruct (App.handle c (Session.app m)) as [us|] eqn:H;
      [|unfold Session.step in E; rewrite H in E; discriminate].
    pose proof (known_clicks c _ us H) as Kc.
    destruct (Session.trackedAs
                (App.commit (Session.app m)
                   (App.applyAll us (Session.app m)))) as [name|] eqn:Tn.
    + destruct (use_spec t c m s us name Sh H Tn)
        as (f & f' & s' & name' & k' & If & Tn' & E' & R & _ & _ & _ & Ac).
      rewrite Tn in Tn'. inversion Tn'; subst name'. clear Tn'.
      rewrite E in E'. inversion E'; subst k'.
      destruct Sh as (_ & f0 & If0 & _ & _ & Tr & _).
      rewrite If in If0. inversion If0; subst f0.
      destruct (known_names _ (tracked_name_known _ _ Tr)) as (_ & Kd & _).
      destruct (known_names _ (tracked_name_known _ _ Tn)) as (Kv & _ & _).
      do 3 eexists. split; [exact R|].
      split; [exact (emitted_of_actions _ _ _ Ac)|].
      unfold sent. rewrite flat_map_app, map_app, forallb_app.
      fold (sent (handed t (App.calls us))). rewrite names_handed, Kc.
      destruct (kept _ _ _); [reflexivity|]. unfold rerun. simpl.
      rewrite !flat_map_app, !map_app, !forallb_app. simpl.
      destruct (negb _ && _), (App.lineProfile _); simpl;
        now rewrite ?Kd, ?Kv.
    + destruct (leave_spec t c m s us Sh H Tn)
        as (f & s' & k' & If & E' & R & _ & Ac).
      rewrite E in E'. inversion E'; subst k'.
      destruct Sh as (_ & f0 & If0 & _ & _ & Tr & _).
      rewrite If in If0. inversion If0; subst f0.
      destruct (known_names _ (tracked_name_known _ _ Tr)) as (_ & Kd & _).
      do 3 eexists. split; [exact R|].
      split; [exact (emitted_of_actions _ _ _ Ac)|].
      unfold sent. rewrite flat_map_app, map_app, forallb_app.
      fold (sent (handed t (App.calls us))). rewrite names_handed, Kc.
      unfold torn_down. simpl.
      destruct (negb _ && _); simpl; now rewrite ?Kd.
  - destruct (scroll_spec t metrics m s Sh)
      as (f & k' & s' & If & E' & R & _ & Ac).
    rewrite E in E'. inversion E'; subst k'.
    destruct Sh as (_ & f0 & If0 & _ & _ & Tr & _).
    rewrite If in If0. inversion If0; subst f0.
    destruct (known_names _ (tracked_name_known _ _ Tr)) as (_ & _ & Ks).
    do 3 eexists. split; [exact R|].
    split; [exact (emitted_of_actions _ _ _ Ac)|].
    destruct (fires _); simpl; now rewrite ?Ks.
  - destruct (App.handle c (Session.app m)) as [us|] eqn:H;
      [|unfold Session.step in E; rewrite H in E; discriminate].
    destruct (blank_spec t c m s us Bl H) as (k' & E' & R & _).
    rewrite E in E'. inversion E'; subst k'.
    do 2 eexists. exists []. split; [exact R|]. split; [|reflexivity].
    now rewrite app_nil_r.
  - destruct (scroll_blank t metrics m s Bl) as (k' & E' & R & _).
    rewrite E in E'. inversion E'; subst k'.
    do 2 eexists. exists []. split; [exact R|]. split; [|reflexivity].
    now rewrite app_nil_r.
Qed.

Lemma run_emits es : forall m s m' s',
  Settled m s ->
  Session.run es m s = Some (Normal m', s') ->
  exists l,
    emitted (trace (host s')) = (emitted (trace (host s)) ++ l)%list
    /\ forallb known_event l = true.
Proof.
  induction es as [|[t e] es IH]; simpl; intros m s m' s' St R.
  - inversion R; subst. exists []. now rewrite app_nil_r.
  - destruct (Session.step t e m) as [k|] eqn:E; [|discriminate].
    destruct (step_settled t e m s k St E) as (m1 & s1 & K & St1 & _).
    destruct (step_emits t e m s k St E) as (m2 & s2 & l1 & K2 & E1 & F1).
    rewrite K in K2. inversion K2; subst m2 s2. clear K2.
    rewrite K in R.
    destruct (IH m1 s1 m' s' St1 R) as (l2 & E2 & F2).
    exists (l1 ++ l2)%list. rewrite E2, E1, <- app_assoc, forallb_app, F1, F2.
    split; reflexivity.
Qed.

Lemma known_mount hash resolved :
  App.calls (App.mountEffect hash resolved) = [].
Proof.
  unfold App.mountEffect, App.deepLink.
  destruct (hash =? "")%string; [|destruct (hash =? "#policies")%string;
    [|destruct (hash =? "#claims")%string;
      [|destruct (hash =? "#privileges")%string]]];
    destruct resolved; reflexivity.
Qed.

Lemma start_emits t h hash resolved :
  exists m s l,
    Session.start t h hash resolved = (Normal m, s)
    /\ Shown m s
    /\ emitted (trace (host s)) = (emitted (trace h) ++ l)%list
    /\ forallb known_event l = true.
Proof.
  destruct (start_spec t h hash resolved)
    as (f0 & s0 & f1 & s1 & name & D0 & _ & _ & A0 & Tn & E & Sh & _ & A1).
  destruct (known_names _ (tracked_name_known _ _ Tn)) as (Kv & _ & _).
  rewrite known_mount in A1. simpl in A1. rewrite A0, <- app_assoc in A1.
  do 3 eexists. split; [exact E|]. split; [exact Sh|].
  split; [exact (emitted_of_actions _ _ _ A1)|].
  simpl. destruct (kept _ _ _); [reflexivity|]. unfold rerun. simpl.
  unfold sent. rewrite !flat_map_app, !map_app, !forallb_app. simpl.
  rewrite D0. simpl.
  destruct (negb _ && _), (App.lineProfile _); simpl;
    now rewrite ?Kv.
Qed.

(** What a visit reports, whatever the controls used and the scrolling: the
    events it adds are clicks, or the view, the duration or the scroll depth
    of one of the nine screens that call the hook.  The details of a policy
    or of a claim are never reported as viewed. *)
Theorem visit_reports_known_events :
  forall t h hash resolved es m s,
    Session.visit t h hash resolved es = Some (Normal m, s) ->
    exists l,
      emitted (trace (host s)) = (emitted (trace h) ++ l)%list
      /\ forallb known_event l = true
      /\ forall id,
           ~ In (view_name ("policy_details_" ++ id)) l
           /\ ~ In (view_name ("claim_details_" ++ id)) l.
Proof.
  intros t h hash resolved es m s V. unfold Session.visit in V.
  destruct (start_emits t h hash resolved)
    as (m0 & s0 & l0 & E0 & St0 & A0 & F0).
  rewrite E0 in V.
  destruct (run_emits es m0 s0 m s (or_introl St0) V) as (l & E & F).
  exists (l0 ++ l)%list. split.
  - now rewrite E, A0, app_assoc.
  - assert (Fa : forallb known_event (l0 ++ l) = true)
      by now rewrite forallb_app, F0, F.
    split; [exact Fa|]. intros id.
    rewrite forallb_forall in Fa.
    split; intros I; apply Fa in I; destruct id; discriminate.
Qed.

(** What using a control reports, at any moment of a visit and in this
    order: the events of its handler, then, unless the screen on display
    stays the same with the same profile, the duration of the screen shown so
    far if it was not evaluated before and exceeds five seconds, and the view
    of the screen shown next if there is a profile and the screen calls the
    hook.  A control that keeps the screen (typing, ticking, a wrong OTP)
    reports only its own event, the view is not reported again; the item of a
    policy or of a claim reports the click and the duration of the list, and
    no view of the details. *)
Theorem controls_report_in_order :
  forall t0 h hash resolved es m s t c us,
    Session.visit t0 h hash resolved es = Some (Normal m, s) ->
    App.handle c (Session.app m) = Some us ->
    let after := App.commit (Session.app m)
                   (App.applyAll us (Session.app m)) in
    exists k f' s',
      Session.step t (Session.Use c) m = Some k
      /\ k s = (Normal {| Session.app := after;
                          Session.instance := f' |}, s')
      /\ emitted (trace (host s'))
         = (emitted (trace (host s)) ++ map fst (App.calls us)
              ++ if same_screen (Session.app m) after then []
                 else (if negb (hasTrackedViewDuration (refs s))
                          && (5000 <? t - viewStartTime (refs s))
                       then match Session.trackedAs (Session.app m) with
                            | Some old => [duration_name old]
                            | None => []
                            end
                       else [])
                      ++ match Session.trackedAs after,
                               App.lineProfile after with
                         | Some new, Some _ => [view_name new]
                         | _, _ => []
                         end)%list.
Proof.
  intros t0 h hash resolved es m s t c us V H after.
  destruct (visit_settled t0 h hash resolved es _ V)
    as (m1 & s1 & E & [Sh|Bl] & _);
    inversion E; subst m1 s1; clear E.
  - destruct (Session.trackedAs after) as [name|] eqn:Tn.
    + destruct (use_spec t c m s us name Sh H Tn)
        as (f & f' & s' & name' & k & If & Tn' & E & R & _ & _ & _ & Ac).
      fold after in Tn', R, Ac. rewrite Tn in Tn'.
      inversion Tn'; subst name'. clear Tn'.
      rewrite (kept_same_screen m s f after name Sh If Tn) in Ac.
      destruct Sh as (_ & f0 & If0 & _ & _ & Tr & _).
      rewrite If in If0. inversion If0; subst f0.
      exists k, (Some f'), s'. split; [exact E|]. split; [exact R|].
      rewrite (emitted_of_actions _ _ _ Ac), Tr. f_equal.
      unfold sent at 1. rewrite flat_map_app, map_app. f_equal.
      * apply names_handed.
      * destruct (same_screen _ _); [reflexivity|]. unfold rerun. simpl.
        rewrite !flat_map_app, !map_app. simpl. rewrite app_nil_r.
        destruct (negb _ && _), (App.lineProfile after); reflexivity.
    + destruct (leave_spec t c m s us Sh H Tn)
        as (f & s' & k & If & E & R & _ & Ac).
      fold after in R.
      destruct Sh as (_ & f0 & If0 & _ & _ & Tr & _).
      rewrite If in If0. inversion If0; subst f0.
      exists k, None, s'. split; [exact E|]. split; [exact R|].
      rewrite (emitted_of_actions _ _ _ Ac), Tr. f_equal.
      unfold sent at 1. rewrite flat_map_app, map_app. f_equal.
      * apply names_handed.
      * unfold same_screen. rewrite Tr, Tn, andb_false_r. simpl.
        unfold torn_down. simpl. rewrite app_nil_r.
        destruct (negb _ && _); reflexivity.
  - destruct (blank_spec t c m s us Bl H) as (k & E & R & _ & Cs & Tn).
    fold after in R, Tn.
    destruct Bl as (_ & _ & Tr & _ & Hd).
    exists k, None, (at_time t s). split; [exact E|]. split; [exact R|].
    unfold same_screen. rewrite Cs, Tr, Tn, Hd, andb_false_r. simpl.
    now rewrite app_nil_r.
Qed.

(** A screen that replaces another starts with cells of its own: its view
    began when it was entered and neither its duration nor its scroll depth
    counts as reported, whatever the screen before had reported. *)
Theorem entered_screen_has_fresh_cells :
  forall t0 h hash resolved es m s t c us,
    Session.visit t0 h hash resolved es = Some (Normal m, s) ->
    App.handle c (Session.app m) = Some us ->
    let after := App.commit (Session.app m)
                   (App.applyAll us (Session.app m)) in
    App.renderScreen (App.screen (Session.app m))
    <> App.renderScreen (App.screen after) ->
    is_details (App.renderScreen (App.screen after)) = false ->
    exists k m' s',
      Session.step t (Session.Use c) m = Some k
      /\ k s = (Normal m', s')
      /\ refs s' = {| viewStartTime := t;
                      hasTrackedViewDuration := false;
                      hasTrackedScroll := false;
                      mainRef := Some cardNode |}.
Proof.
  intros t0 h hash resolved es m s t c us V H after Diff Nd.
  destruct (visit_settled t0 h hash resolved es _ V)
    as (m1 & s1 & E & [Sh|Bl] & _);
    inversion E; subst m1 s1; clear E.
  - destruct (Session.trackedAs after) as [name|] eqn:Tn;
      [|rewrite (untracked_details _ Tn) in Nd; discriminate].
    destruct (use_spec t c m s us name Sh H Tn)
      as (f & f' & s' & name' & k & If & _ & E & R & _ & _ & Rf & _).
    fold after in R, Rf.
    exists k. do 2 eexists. split; [exact E|]. split; [exact R|].
    rewrite Rf. unfold kept.
    destruct (App.Component_eq_dec _ _); [contradiction|reflexivity].
  - destruct Bl as (_ & _ & Tr & _).
    pose proof (untracked_details _ Tr) as D.
    exfalso. apply Diff. unfold after.
    now rewrite (details_step c (Session.app m) _ D
                   ltac:(unfold App.step; rewrite H; reflexivity)).
Qed.

(** A control that keeps the screen leaves the hook alone: typing, ticking,
    consenting or a wrong OTP do not restart the time of the view, do not
    make a scroll depth reportable again and do not register the listener
    anew. *)
Theorem kept_screen_keeps_cells :
  forall t0 h hash resolved es m s t c us,
    Session.visit t0 h hash resolved es = Some (Normal m, s) ->
    App.handle c (Session.app m) = Some us ->
    let after := App.commit (Session.app m)
                   (App.applyAll us (Session.app m)) in
    same_screen (Session.app m) after = true ->
    exists k s',
      Session.step t (Session.Use c) m = Some k
      /\ k s = (Normal {| Session.app := after;
                          Session.instance := Session.instance m |}, s')
      /\ refs s' = refs s
      /\ listeners (host s') = listeners (host s).
Proof.
  intros t0 h hash resolved es m s t c us V H after Same.
  assert (Tn : exists name, Session.trackedAs after = Some name).
  { unfold same_screen in Same.
    destruct (Session.trackedAs after); [eauto|].
    destruct (Session.trackedAs (Session.app m));
      rewrite ?andb_false_r in Same; discriminate. }
  destruct Tn as (name & Tn).
  destruct (visit_settled t0 h hash resolved es _ V)
    as (m1 & s1 & E & [Sh|Bl] & _);
    inversion E; subst m1 s1; clear E.
  - destruct (use_spec t c m s us name Sh H Tn)
      as (f & f' & s' & name' & k & If & Tn' & E & R & St' & Kf & Rf & _).
    fold after in Tn', R, Rf, Kf, St'.
    rewrite (kept_same_screen m s f after name Sh If Tn), Same in Kf, Rf.
    rewrite (Kf eq_refl) in R, St'. rewrite <- If in R.
    exists k, s'. split; [exact E|]. split; [exact R|]. split; [exact Rf|].
    destruct Sh as (_ & g & Ig & W & MR & _).
    destruct St' as (_ & g' & Ig' & W' & MR' & _). simpl in Ig'.
    rewrite If in Ig. inversion Ig; inversion Ig'; subst g g'.
    now rewrite (listeners_wired _ _ W), (listeners_wired _ _ W'), MR, MR'.
  - destruct Bl as (_ & _ & Tr & _). unfold same_screen in Same.
    rewrite Tr, andb_false_r in Same. discriminate.
Qed.

(** In a visit opened without a hash, the profile resolving at [t1] after
    the first render at [t0], the welcome screen does not report how long it
    was viewed when it is left: when the profile resolves the effect of the
    welcome screen runs again, which evaluates the duration at that moment
    (it is reported, without profile, only if more than 5000 ms passed,
    [5000 < t1 - t0]) and never again.  Whatever the times, such a visit
    that goes on to the form reports exactly these events. *)
Theorem first_screen_duration_is_evaluated_at_profile_arrival :
  forall t0 h profile t1 t2,
    exists m s,
      Session.visit t0 h "" None
        [ (t1, Session.Use (App.ProfileResolved profile));
          (t2, Session.Use App.NewCustomerButton) ]
      = Some (Normal m, s)
      /\ emitted (trace (host s))
         = (emitted (trace h)
              ++ (if 5000 <? t1 - t0
                  then ["view_duration_over_5s_on_welcome"] else [])
              ++ [ "view_welcome"; "click_new_customer_button";
                   "view_new_customer_form" ])%list.
Proof.
  intros t0 h profile t1 t2. unfold Session.visit.
  destruct (start_plain t0 h) as (m0 & s0 & -> & St0 & A0 & R0 & Ac0).
  assert (Tn1 : Session.trackedAs
                  (App.commit (Session.app m0)
                     (App.applyAll [SetLineProfile profile]
                        (Session.app m0)))
                = Some "welcome") by (rewrite A0; reflexivity).
  destruct (use_spec t1 (App.ProfileResolved profile) m0 s0
              [SetLineProfile profile] "welcome" St0 eq_refl Tn1)
    as (f0 & f1 & s1 & n1 & k1 & I0 & T1 & E1 & K1 & St1 & _ & R1 & Ac1).
  rewrite (kept_same_screen m0 s0 f0 _ n1 St0 I0 T1) in R1, Ac1.
  rewrite A0 in *.
  assert (N1 : n1 = "welcome") by (cbv in T1; congruence). subst n1.
  change (same_screen App.initial _) with false in R1, Ac1.
  set (a1 := App.commit App.initial
               (App.applyAll [SetLineProfile profile] App.initial)) in *.
  set (m1 := {| Session.app := a1; Session.instance := Some f1 |}) in *.
  change (k1 s0 = (Normal m1, s1)) in K1.
  assert (H2 : App.handle App.NewCustomerButton (Session.app m1)
               = Some (WelcomeScreen.handleNavigation (Some profile)
                         "new_customer_form" true "new_customer_button"))
    by reflexivity.
  destruct (use_spec t2 App.NewCustomerButton m1 s1 _ "new_customer_form"
              St1 H2 eq_refl)
    as (f1' & f2 & s2 & n2 & k2 & I1 & T2 & E2 & K2 & _ & _ & _ & Ac2).
  rewrite (kept_same_screen m1 s1 f1' _ n2 St1 I1 T2) in Ac2.
  assert (N2 : n2 = "new_customer_form") by (cbv in T2; congruence).
  subst n2.
  change (same_screen (Session.app m1) _) with false in Ac2.
  cbn [Session.run]. rewrite E1, K1, E2, K2.
  do 2 eexists. split; [reflexivity|].
  destruct St0 as (_ & g0 & I0' & W0 & _ & Tr0 & _).
  rewrite I0 in I0'. inversion I0'; subst g0.
  rewrite A0 in Tr0.
  assert (O0 : screenName (deps f0) = "welcome")
    by (change (Some "welcome" = Some (screenName (deps f0))) in Tr0;
        congruence).
  unfold rerun in Ac1, Ac2. rewrite R1 in Ac2. rewrite R0 in Ac1.
  simpl in Ac1, Ac2. rewrite O0 in Ac1.
  rewrite Ac1 in Ac2. rewrite <- app_assoc in Ac2.
  rewrite (emitted_of_actions _ _ _ Ac2), (emitted_of_actions _ _ _ Ac0).
  simpl. rewrite app_nil_r. f_equal.
  destruct (5000 <? t1 - t0); reflexivity.
Qed.

(* ================================================================== *)
(** * The screens on concrete uses *)

(** The state a run of controls reaches, computed. *)
Ltac reached :=
  match goal with
  | |- exists a, ?r = Some a /\ _ =>
      let v := eval vm_compute in r in
      match v with
      | Some ?a => exists a; split; [vm_compute; reflexivity|]
      end
  end.

(** The state a visit reaches, computed. *)
Ltac visited :=
  match goal with
  | |- exists m s, ?r = Some (Normal m, s) /\ _ =>
      let v := eval vm_compute in r in
      match v with
      | Some (Normal ?m, ?s) => exists m, s
      end
  end.

(** [Tax saving] ticked and unticked while [Health insurance] is
    selected. *)
Lemma interest_checked_then_unchecked_witness :
  NewCustomerForm.includes ["Health insurance"] "Tax saving" = false
  /\ NewCustomerForm.toggled "Tax saving" false
       (NewCustomerForm.toggled "Tax saving" true ["Health insurance"])
     = ["Health insurance"].
Proof.
  split; [reflexivity|].
  exact (interest_checked_then_unchecked "Tax saving" ["Health insurance"]
           eq_refl).
Defined.

(** The form with the first name only, submitted. *)
Lemma incomplete_form_is_not_submitted_witness :
  exists a,
    App.run fills_in_first_name (App.boot "") = Some a
    /\ complete (NewCustomerForm.formData (App.form a))
       && NewCustomerForm.consent (App.form a) = false
    /\ let us := NewCustomerForm.handleSubmit (Some mockProfile)
                   (App.form a) in
       App.calls us = []
       /\ App.commit a (App.applyAll us a)
          = App.applyAll
              [SetFormError
                 (if complete (NewCustomerForm.formData (App.form a))
                  then "You must accept the PDPA consent to proceed."
                  else "All personal information fields are required.")] a.
Proof.
  reached.
  match goal with |- ?H /\ _ => assert (P : H) by reflexivity end.
  split; [exact P|].
  exact (incomplete_form_is_not_submitted (Some mockProfile) _ P).
Defined.

(** The form filled in, submitted. *)
Lemma complete_form_is_submitted_witness :
  exists a,
    App.run fills_in_form (App.boot "") = Some a
    /\ complete (NewCustomerForm.formData (App.form a))
       && NewCustomerForm.consent (App.form a) = true
    /\ let us := NewCustomerForm.handleSubmit (Some mockProfile)
                   (App.form a) in
       let d := NewCustomerForm.formData (App.form a) in
       App.calls us = [("click_request_otp", Some mockProfile)]
       /\ App.screen (App.applyAll us a) = "otp"
       /\ App.userData (App.applyAll us a)
          = {| firstName := Some (FormData.firstName d);
               lastName := Some (FormData.lastName d);
               phone := Some (FormData.phone d);
               nid := Some (FormData.nid d);
               interests := Some (NewCustomerForm.interests (App.form a));
               isNew := true |}
       /\ map NewCustomerForm.blank
            [FormData.firstName d; FormData.lastName d; FormData.phone d;
             FormData.nid d]
          = [false; false; false; false].
Proof.
  reached.
  match goal with |- ?H /\ _ => assert (P : H) by reflexivity end.
  split; [exact P|].
  exact (complete_form_is_submitted (Some mockProfile) _ P).
Defined.

(** The OTP screen after the form, with the code [123456] typed. *)
Lemma otp_is_checked_against_999999_witness :
  exists a,
    App.run (fills_in_form ++ [App.RequestOtpButton; App.OtpInput "123456"])
      (App.boot "")
    = Some a
    /\ App.renderScreen (App.screen a) = App.OtpScreen
    /\ exists us a',
         App.handle App.VerifyButton a = Some us
         /\ App.calls us = [("click_verify_otp", App.lineProfile a)]
         /\ App.step App.VerifyButton a = Some a'
         /\ App.renderScreen (App.screen a')
            = (if (OtpScreen.otp (App.otpScreen a) =? "999999")%string
               then App.CompletedScreen else App.OtpScreen)
         /\ ((OtpScreen.otp (App.otpScreen a) =? "999999")%string = false ->
             a' = App.applyAll
                    [SetOtpError "Invalid OTP. Please try again."] a).
Proof.
  reached.
  match goal with |- ?H /\ _ => assert (P : H) by reflexivity end.
  split; [exact P|].
  exact (otp_is_checked_against_999999 _ P).
Defined.

(** The deep link to the policies, the second policy opened. *)
Lemma details_screens_render_nothing_witness :
  exists a,
    App.run [App.PolicyItem 1] (App.boot "#policies") = Some a
    /\ is_details (App.renderScreen (App.screen a)) = true
    /\ (App.renderScreen (App.screen a) = App.PolicyDetailsScreen ->
        exists p, App.selectedPolicy a = Some p
                  /\ In p MyPoliciesScreen.policies)
    /\ (App.renderScreen (App.screen a) = App.ClaimDetailsScreen ->
        exists c, App.selectedClaim a = Some c
                  /\ In c MyClaimsScreen.claims)
    /\ PolicyDetailsScreen.policy (App.props a) = None
    /\ ClaimDetailsScreen.claim (App.props a) = None
    /\ Session.trackedAs a = None
    /\ (forall c us,
          App.handle c a = Some us ->
          exists profile, c = App.ProfileResolved profile)
    /\ (forall cs' a',
          App.run cs' a = Some a' -> App.screen a' = App.screen a).
Proof.
  assert (R : exists a,
             App.run [App.PolicyItem 1] (App.boot "#policies") = Some a
             /\ is_details (App.renderScreen (App.screen a)) = true)
    by (reached; reflexivity).
  destruct R as (a & R & D). exists a. split; [exact R|]. split; [exact D|].
  exact (details_screens_render_nothing "#policies" [App.PolicyItem 1] a
           R D).
Defined.

(** The deep link to the privileges, then back to the menu. *)
Lemma screen_is_always_listed_witness :
  exists a,
    App.run [App.BackButton] (App.boot "#privileges") = Some a
    /\ In (App.screen a) screens.
Proof.
  assert (R : exists a,
             App.run [App.BackButton] (App.boot "#privileges") = Some a
             /\ True) by (reached; exact I).
  destruct R as (a & R & _). exists a. split; [exact R|].
  exact (screen_is_always_listed "#privileges" [App.BackButton] a R).
Defined.

(** An existing customer logs in and opens the claims from the menu. *)
Lemma contracts_only_for_existing_customers_witness :
  exists a,
    App.run [App.ExistingCustomerButton; App.OktaLoginButton;
             App.AllFeaturesButton; App.MenuItem 1] (App.boot "")
    = Some a
    /\ shows_contracts (App.renderScreen (App.screen a)) = true
    /\ isNew (App.userData a) = false.
Proof.
  assert (R : exists a,
             App.run [App.ExistingCustomerButton; App.OktaLoginButton;
                      App.AllFeaturesButton; App.MenuItem 1] (App.boot "")
             = Some a
             /\ shows_contracts (App.renderScreen (App.screen a)) = true)
    by (reached; reflexivity).
  destruct R as (a & R & S). exists a. split; [exact R|]. split; [exact S|].
  exact (contracts_only_for_existing_customers "" _ a R S).
Defined.

(** Three boxes ticked, the first one unticked and ticked again. *)
Lemma interests_have_no_duplicates_witness :
  exists a,
    App.run [App.NewCustomerButton; App.InterestCheckbox 0;
             App.InterestCheckbox 2; App.InterestCheckbox 1;
             App.InterestCheckbox 0; App.InterestCheckbox 0] (App.boot "")
    = Some a
    /\ NoDup (NewCustomerForm.interests (App.form a))
    /\ incl (NewCustomerForm.interests (App.form a))
         NewCustomerForm.productCategories.
Proof.
  assert (R : exists a,
             App.run [App.NewCustomerButton; App.InterestCheckbox 0;
                      App.InterestCheckbox 2; App.InterestCheckbox 1;
                      App.InterestCheckbox 0; App.InterestCheckbox 0]
               (App.boot "")
             = Some a /\ True) by (reached; exact I).
  destruct R as (a & R & _). exists a. split; [exact R|].
  exact (interests_have_no_duplicates "" _ a R).
Defined.

(** The form with the first name only, submitted with the consent given. *)
Lemma consent_error_is_never_shown_witness :
  exists a,
    App.run (fills_in_first_name ++ [App.RequestOtpButton]) (App.boot "")
    = Some a
    /\ In (NewCustomerForm.error (App.form a))
         [""; "All personal information fields are required."].
Proof.
  assert (R : exists a,
             App.run (fills_in_first_name ++ [App.RequestOtpButton])
               (App.boot "")
             = Some a /\ True) by (reached; exact I).
  destruct R as (a & R & _). exists a. split; [exact R|].
  exact (consent_error_is_never_shown "" _ a R).
Defined.

(** Back from the OTP screen to the form that was submitted. *)
Lemma form_is_empty_when_entered_witness :
  exists a,
    App.run (fills_in_form ++ [App.RequestOtpButton]) (App.boot "") = Some a
    /\ exists a',
         App.step App.BackButton a = Some a'
         /\ App.renderScreen (App.screen a) <> App.NewCustomerForm
         /\ App.renderScreen (App.screen a') = App.NewCustomerForm
         /\ App.form a' = NewCustomerForm.initial
         /\ (App.BackButton = App.BackButton
             -> App.userData a' = App.userData a).
Proof.
  reached.
  match goal with
  | |- exists a', ?st = Some a' /\ _ =>
      let v := eval vm_compute in st in
      match v with
      | Some ?a' => exists a'; assert (St : st = Some a') by reflexivity
      end
  end.
  split; [exact St|].
  match goal with
  | |- ?out /\ ?inn /\ _ =>
      assert (Out : out) by (vm_compute; discriminate);
      assert (Inn : inn) by reflexivity
  end.
  split; [exact Out|]. split; [exact Inn|].
  exact (form_is_empty_when_entered App.BackButton _ _ St Out Inn).
Defined.

(** The button of the form on the form filled in. *)
Lemma controls_track_with_the_current_profile_witness :
  exists a us,
    App.run fills_in_form (App.boot "") = Some a
    /\ App.handle App.RequestOtpButton a = Some us
    /\ (forall call, In call (App.calls us) -> snd call = App.lineProfile a)
    /\ List.length (App.calls us)
       = (if complete (NewCustomerForm.formData (App.form a))
          then 1%nat else 0%nat).
Proof.
  assert (R : exists a, App.run fills_in_form (App.boot "") = Some a
                        /\ exists us,
                             App.handle App.RequestOtpButton a = Some us).
  { reached. eexists. vm_compute. reflexivity. }
  destruct R as (a & R & us & H). exists a, us.
  split; [exact R|]. split; [exact H|].
  exact (controls_track_with_the_current_profile App.RequestOtpButton a us H).
Defined.

(** A visit opened on the deep link to the policies, the profile there
    with the first update: the list is scrolled and its second policy
    opened, which leaves the empty page of the details. *)
Lemma visit_keeps_one_listener_witness :
  exists r,
    Session.visit 0 quiet_host "#policies" (Some mockProfile)
      (scrolls_list ++ [(7000, Session.Use (App.PolicyItem 1))])
    = Some r
    /\ exists m s,
         r = (Normal m, s)
         /\ listeners (host s)
            = match Session.instance m with
              | Some f => [handler (destroy f)]
              | None => []
              end
         /\ (Session.instance m = None
             <-> is_details (App.renderScreen (App.screen (Session.app m)))
                 = true).
Proof.
  assert (V : exists r,
             Session.visit 0 quiet_host "#policies" (Some mockProfile)
               (scrolls_list ++ [(7000, Session.Use (App.PolicyItem 1))])
             = Some r /\ True) by (reached; exact I).
  destruct V as (r & V & _). exists r. split; [exact V|].
  exact (visit_keeps_one_listener 0 quiet_host "#policies"
           (Some mockProfile) _ r V).
Defined.

(** The visit [opens_form], opened without a hash, on the host that
    fails. *)
Lemma visit_never_fails_witness :
  exists r,
    Session.visit 0 failing_host "" None opens_form = Some r
    /\ exists m s,
         r = (Normal m, s)
         /\ unhandled (actions (trace (host s)))
            = unhandled (actions (trace failing_host)).
Proof.
  assert (V : exists r,
             Session.visit 0 failing_host "" None opens_form = Some r
             /\ True) by (reached; exact I).
  destruct V as (r & V & _). exists r. split; [exact V|].
  exact (visit_never_fails 0 failing_host "" None opens_form r V).
Defined.

(** A visit opened on the deep link to the policies, the profile there
    with the first update: the second policy is opened at nine seconds, the
    list gives way to the empty page of the details. *)
Lemma controls_report_in_order_witness :
  exists m s,
    Session.visit 0 quiet_host "#policies" (Some mockProfile) scrolls_list
    = Some (Normal m, s)
    /\ exists us,
         App.handle (App.PolicyItem 1) (Session.app m) = Some us
         /\ let after := App.commit (Session.app m)
                           (App.applyAll us (Session.app m)) in
            exists k f' s',
              Session.step 9000 (Session.Use (App.PolicyItem 1)) m = Some k
              /\ k s = (Normal {| Session.app := after;
                                  Session.instance := f' |}, s')
              /\ emitted (trace (host s'))
                 = (emitted (trace (host s)) ++ map fst (App.calls us)
                      ++ if same_screen (Session.app m) after then []
                         else (if negb (hasTrackedViewDuration (refs s))
                                  && (5000 <? 9000 - viewStartTime (refs s))
                               then match Session.trackedAs
                                            (Session.app m) with
                                    | Some old => [duration_name old]
                                    | None => []
                                    end
                               else [])
                              ++ match Session.trackedAs after,
                                       App.lineProfile after with
                                 | Some new, Some _ => [view_name new]
                                 | _, _ => []
                                 end)%list.
Proof.
  assert (V : exists m s,
             Session.visit 0 quiet_host "#policies" (Some mockProfile)
               scrolls_list
             = Some (Normal m, s)
             /\ exists us,
                  App.handle (App.PolicyItem 1) (Session.app m) = Some us).
  { visited. split; [vm_compute; reflexivity|].
    match goal with
    | |- exists us, ?h = Some us =>
        let v := eval vm_compute in h in
        match v with
        | Some ?us => exists us; vm_compute; reflexivity
        end
    end. }
  destruct V as (m & s & V & us & H). exists m, s. split; [exact V|].
  exists us. split; [exact H|].
  exact (controls_report_in_order 0 quiet_host "#policies"
           (Some mockProfile) scrolls_list m s 9000 (App.PolicyItem 1) us
           V H).
Defined.

(** After the visit [opens_form], opened without a hash, Back at nine
    seconds. *)
Lemma entered_screen_has_fresh_cells_witness :
  exists m s,
    Session.visit 0 quiet_host "" None opens_form
             = Some (Normal m, s)
    /\ exists us,
         App.handle App.BackButton (Session.app m) = Some us
         /\ let after := App.commit (Session.app m)
                           (App.applyAll us (Session.app m)) in
            App.renderScreen (App.screen (Session.app m))
            <> App.renderScreen (App.screen after)
            /\ is_details (App.renderScreen (App.screen after)) = false
            /\ exists k m' s',
                 Session.step 9000 (Session.Use App.BackButton) m = Some k
                 /\ k s = (Normal m', s')
                 /\ refs s' = {| viewStartTime := 9000;
                                 hasTrackedViewDuration := false;
                                 hasTrackedScroll := false;
                                 mainRef := Some cardNode |}.
Proof.
  assert (V : exists m s,
             Session.visit 0 quiet_host "" None opens_form
             = Some (Normal m, s)
             /\ App.handle App.BackButton (Session.app m)
                = Some [SetScreen "welcome"]
             /\ App.renderScreen (App.screen (Session.app m))
                <> App.renderScreen
                     (App.screen
                        (App.commit (Session.app m)
                           (App.applyAll [SetScreen "welcome"]
                              (Session.app m))))
             /\ is_details
                  (App.renderScreen
                     (App.screen
                        (App.commit (Session.app m)
                           (App.applyAll [SetScreen "welcome"]
                              (Session.app m)))))
                = false).
  { visited. split; [vm_compute; reflexivity|].
    split; [vm_compute; reflexivity|].
    split; [vm_compute; discriminate|vm_compute; reflexivity]. }
  destruct V as (m & s & V & H & Diff & Nd). exists m, s.
  split; [exact V|].
  exists [SetScreen "welcome"]. split; [exact H|]. split; [exact Diff|].
  split; [exact Nd|].
  exact (entered_screen_has_fresh_cells 0 quiet_host "" None opens_form m s
           9000
           App.BackButton _ V H Diff Nd).
Defined.

(** After the visit [opens_form], opened without a hash, the last name is
    typed at nine seconds. *)
Lemma kept_screen_keeps_cells_witness :
  exists m s,
    Session.visit 0 quiet_host "" None opens_form
             = Some (Normal m, s)
    /\ exists us,
         App.handle (App.FormInput FormData.LastName "Lee") (Session.app m)
         = Some us
         /\ let after := App.commit (Session.app m)
                           (App.applyAll us (Session.app m)) in
            same_screen (Session.app m) after = true
            /\ exists k s',
                 Session.step 9000
                   (Session.Use (App.FormInput FormData.LastName "Lee")) m
                 = Some k
                 /\ k s = (Normal {| Session.app := after;
                                     Session.instance :=
                                       Session.instance m |}, s')
                 /\ refs s' = refs s
                 /\ listeners (host s') = listeners (host s).
Proof.
  assert (V : exists m s,
             Session.visit 0 quiet_host "" None opens_form
             = Some (Normal m, s)
             /\ App.handle (App.FormInput FormData.LastName "Lee")
                  (Session.app m)
                = Some (NewCustomerForm.handleFormChange FormData.LastName
                          "Lee")
             /\ same_screen (Session.app m)
                  (App.commit (Session.app m)
                     (App.applyAll
                        (NewCustomerForm.handleFormChange FormData.LastName
                           "Lee") (Session.app m)))
                = true).
  { visited. repeat split; vm_compute; reflexivity. }
  destruct V as (m & s & V & H & Same). exists m, s. split; [exact V|].
  exists (NewCustomerForm.handleFormChange FormData.LastName "Lee").
  split; [exact H|]. split; [exact Same|].
  exact (kept_screen_keeps_cells 0 quiet_host "" None opens_form m s 9000
           (App.FormInput FormData.LastName "Lee") _ V H Same).
Defined.

(** The menu of an existing customer: the item of the claims. *)
Lemma control_events_are_clicks_witness :
  exists a,
    App.run [App.ExistingCustomerButton; App.OktaLoginButton;
             App.AllFeaturesButton] (App.boot "")
    = Some a
    /\ exists us,
         App.handle (App.MenuItem 1) a = Some us
         /\ Forall (fun call => String.prefix "click_" (fst call) = true)
              (App.calls us).
Proof.
  reached.
  match goal with
  | |- exists us, ?h = Some us /\ _ =>
      let v := eval vm_compute in h in
      match v with
      | Some ?us => exists us; assert (H : h = Some us) by reflexivity
      end
  end.
  split; [exact H|].
  exact (control_events_are_clicks (App.MenuItem 1) _ _ H).
Defined.

(** A registration as [Ann] with the right code. *)
Lemma completed_screen_greets_by_name_witness :
  exists a,
    App.run (fills_in_form
               ++ [App.RequestOtpButton; App.OtpInput "999999";
                   App.VerifyButton])
      (App.boot "")
    = Some a
    /\ App.renderScreen (App.screen a) = App.CompletedScreen
    /\ exists s,
         firstName (App.userData a) = Some s
         /\ NewCustomerForm.blank s = false
         /\ CompletedScreen.greeted (App.userData a) = s.
Proof.
  assert (R : exists a,
             App.run (fills_in_form
                        ++ [App.RequestOtpButton; App.OtpInput "999999";
                            App.VerifyButton])
               (App.boot "")
             = Some a
             /\ App.renderScreen (App.screen a) = App.CompletedScreen)
    by (reached; reflexivity).
  destruct R as (a & R & On). exists a. split; [exact R|].
  split; [exact On|].
  exact (completed_screen_greets_by_name "" _ a R On).
Defined.

(** A visit opened on the deep link to the claims, rendered before the
    profile is there: the profile resolves, the list is scrolled and its
    first claim opened. *)
Lemma visit_reports_known_events_witness :
  exists m s,
    Session.visit 0 quiet_host "#claims" None
      ((100, Session.Use (App.ProfileResolved mockProfile))
         :: scrolls_list ++ [(7000, Session.Use (App.ClaimItem 0))])
    = Some (Normal m, s)
    /\ exists l,
         emitted (trace (host s)) = (emitted (trace quiet_host) ++ l)%list
         /\ forallb known_event l = true
         /\ forall id,
              ~ In (view_name ("policy_details_" ++ id)) l
              /\ ~ In (view_name ("claim_details_" ++ id)) l.
Proof.
  assert (V : exists m s,
             Session.visit 0 quiet_host "#claims" None
               ((100, Session.Use (App.ProfileResolved mockProfile))
                  :: scrolls_list ++ [(7000, Session.Use (App.ClaimItem 0))])
             = Some (Normal m, s)
             /\ True).
  { visited. split; [vm_compute; reflexivity|exact I]. }
  destruct V as (m & s & V & _). exists m, s. split; [exact V|].
  exact (visit_reports_known_events 0 quiet_host "#claims" None _ m s V).
Defined.
